(** * Corporate tax behaviour analysis: the regression pipeline

    A shallow embedding of the tax-regression pipeline of the repository
    (src/Germany_Baseline_Tax_Study.py, src/Italy_Baseline_Tax_Study.py,
    src/Italy_Comprehensive_Tax_Study.py and src/analysis_script.py) and the
    properties of its base builders, missing-data strategies, regression
    gating and turning-point analysis.

    Numbers are IEEE-754 binary64 values, as Python's [float] and numpy's
    [float64] are: Rocq's primitive floats are the same type, [nan] is pandas'
    marker of an absent value, and every comparison below is the IEEE one
    (false on [nan], [-0 == 0]).  The library functions the scripts call
    ([np.log], the numeric-literal parser of [pd.to_numeric], statsmodels' OLS
    fit and scikit-learn's iterative imputer) are variables of the sections
    that use them. *)

From Stdlib Require Import Floats.
From stdpp Require Import gmap strings list.

Set Warnings "-inexact-float".
Local Open Scope float_scope.

(** ** Data frames *)

(** A cell of a pandas column: a float (absent is [nan]) or text, as an
    [object] column read from a spreadsheet holds before coercion. *)
Inductive cell : Type :=
| Num (x : float)
| Text (s : string).

(** One row: column label to cell. *)
Abbreviation Row := (gmap string cell).

(** A [DataFrame]: the column labels in order and the rows in index order. *)
Record DataFrame : Type := mkDataFrame {
  columns : list string;
  rows : list Row
}.

(** Python exceptions that the modelled code can raise. *)
Inductive exn : Type :=
| KeyError (key : string)
| ValueError (msg : string)
| Exception (msg : string)
| TypeError.

(** The outcome of a call: a value, or a raised exception. *)
Inductive res (A : Type) : Type :=
| Ok (a : A)
| Raise (e : exn).
Arguments Ok {A} a.
Arguments Raise {A} e.

(** [len(df)]. *)
Definition len (df : DataFrame) : nat := length (rows df).

(** [np.isnan] / pandas' [isna] on a float. *)
Definition isnan (x : float) : bool := negb (x =? x).

(** pandas' [isna] on a cell: text is a value, a float is absent when [nan];
    a label the row does not carry reads as absent. *)
Definition isna (c : option cell) : bool :=
  match c with
  | Some (Num x) => isnan x
  | Some (Text _) => false
  | None => true
  end.

(** The float a numeric column holds at a row; an absent value reads as
    [nan].  It is applied to columns of numbers only: the baseline studies
    coerce a column before they compute with it, and where nothing coerces
    the column a text is ruled out first (see [holds_text]). *)
Definition fnum (r : Row) (c : string) : float :=
  match r !! c with
  | Some (Num x) => x
  | _ => nan
  end.

(** [c in df.columns]. *)
Definition has_column (df : DataFrame) (c : string) : bool :=
  bool_decide (c ∈ columns df).

(** [df[c] = values]: the column is overwritten, or appended when new. *)
Definition assign (c : string) (f : Row -> cell) (df : DataFrame) : DataFrame :=
  {| columns := if has_column df c then columns df else columns df ++ [c];
     rows := map (fun r => <[c := f r]> r) (rows df) |}.

(** [df[mask]] for a boolean mask computed row by row. *)
Definition mask (p : Row -> bool) (df : DataFrame) : DataFrame :=
  {| columns := columns df; rows := List.filter p (rows df) |}.

(** The row test of [dropna(subset=...)]: no listed column is absent. *)
Definition complete_on (subset : list string) (r : Row) : bool :=
  forallb (fun c => negb (isna (r !! c))) subset.

(** [df.dropna(subset=subset)]: [KeyError] on a label that is not a column. *)
Definition dropna (subset : list string) (df : DataFrame) : res DataFrame :=
  match List.find (fun c => negb (has_column df c)) subset with
  | Some c => Raise (KeyError c)
  | None => Ok (mask (complete_on subset) df)
  end.

(** [df[col] == value] for a text value. *)
Definition text_is (c value : string) (r : Row) : bool :=
  match r !! c with
  | Some (Text s) => bool_decide (s = value)
  | _ => false
  end.

(** Arithmetic on text

    A column that was not coerced can hold a text.  pandas then works on it
    cell by cell, on Python objects, and dividing a text or comparing it with
    a number raises [TypeError].  A column that holds numbers only is a
    float64 column. *)

(** The cell is a text. *)
Definition text_cell (c : option cell) : bool :=
  match c with
  | Some (Text _) => true
  | _ => false
  end.

(** Some row of the table has a text in column [c]. *)
Definition holds_text (c : string) (df : DataFrame) : bool :=
  existsb (fun r : Row => text_cell (r !! c)) (rows df).

(** [df = df[df[c] > 0]]. *)
Definition positive_rows (c : string) (df : DataFrame) : res DataFrame :=
  if holds_text c df then Raise TypeError
  else Ok (mask (fun r => 0 <? fnum r c) df).

(** [df[name] = df[num] / df[den]]. *)
Definition assign_quotient (name num den : string) (df : DataFrame) : res DataFrame :=
  if holds_text num df || holds_text den df then Raise TypeError
  else Ok (assign name (fun r => Num (fnum r num / fnum r den)) df).

(** [series.min()] and [series.max()]: pandas skips [nan]; the result is
    [nan] when nothing is left. *)
Definition series_min (l : list float) : float :=
  fold_left (fun acc x =>
    if isnan x then acc else if isnan acc then x
    else if x <? acc then x else acc) l nan.

Definition series_max (l : list float) : float :=
  fold_left (fun acc x =>
    if isnan x then acc else if isnan acc then x
    else if acc <? x then x else acc) l nan.

(** The values of a numeric column, in row order. *)
Definition column_values (c : string) (df : DataFrame) : list float :=
  map (fun r => fnum r c) (rows df).

(** The control variables every script names. *)
Definition controls : list string :=
  ["employees"; "tangible_assets"; "related_revenues"].

(** ** A state and exception monad over the caller's table

    [create_global_clean_bases] of the baseline studies assigns into the
    [df] it is given, which is the caller's object: the table is threaded as
    state, and an exception leaves the state as it was when it was raised. *)
Definition M (A : Type) : Type := DataFrame -> DataFrame * res A.

#[global] Instance M_ret : MRet M := fun A a df => (df, Ok a).

#[global] Instance M_bind : MBind M := fun A B k m df =>
  match m df with
  | (df', Ok a) => k a df'
  | (df', Raise e) => (df', Raise e)
  end.

(** The table as the function sees it now. *)
Definition get_frame : M DataFrame := fun df => (df, Ok df).

(** A call that does not touch the table. *)
Definition lift {A} (r : res A) : M A := fun df => (df, r).

(** [for c in cs: body(c)]. *)
Fixpoint for_each (cs : list string) (body : string -> M unit) : M unit :=
  match cs with
  | [] => mret tt
  | c :: cs' => body c;; for_each cs' body
  end.

Section Builders.

(** [np.log] on a float64. *)
Variable np_log : float -> float.

(** What [pd.to_numeric(..., errors='coerce')] makes of a text cell: the
    number it spells, [nan] when it spells none. *)
Variable parse_float : string -> float.

(** [pd.to_numeric(df[c], errors='coerce')] at one row. *)
Definition to_numeric (c : option cell) : float :=
  match c with
  | Some (Num x) => x
  | Some (Text s) => parse_float s
  | None => nan
  end.

(** The table after [df[c] = pd.to_numeric(df[c], errors='coerce')]. *)
Definition coerced (c : string) (df : DataFrame) : DataFrame :=
  assign c (fun r => Num (to_numeric (r !! c))) df.

(** The table after the same assignment for each label of [cs] in turn. *)
Definition coerced_all (cs : list string) (df : DataFrame) : DataFrame :=
  fold_left (fun d c => coerced c d) cs df.

(** One row after the assignments for the labels of [cs] in turn. *)
Definition coerced_row (cs : list string) (r : Row) : Row :=
  fold_left (fun r c => <[c := Num (to_numeric (r !! c))]> r) cs r.

(** [df[c] = pd.to_numeric(df[c], errors='coerce')] on the caller's table;
    reading a column that does not exist raises [KeyError]. *)
Definition coerce_column (c : string) : M unit := fun df =>
  if has_column df c then (coerced c df, Ok tt) else (df, Raise (KeyError c)).

(** The steps every baseline base goes through after [dropna]
    (Germany lines 82-87 and 104-109, Italy lines 115-125 and 131-136):
    positive profit, [ETR], the [ETR] window, [ln_profits], [ETR_sq].
    [x ** 2] on a float64 column is numpy's square, [x * x]. *)
Definition profit_etr_steps (etr_min etr_max : float) (tax_col : string)
    (gb : DataFrame) : DataFrame :=
  let gb := mask (fun r => 0 <? fnum r "profit_before_tax") gb in
  let gb := assign "ETR"
    (fun r => Num (fnum r tax_col / fnum r "profit_before_tax")) gb in
  let gb := mask (fun r => (etr_min <=? fnum r "ETR") && (fnum r "ETR" <? etr_max)) gb in
  let gb := assign "ln_profits"
    (fun r => Num (np_log (fnum r "profit_before_tax"))) gb in
  assign "ETR_sq" (fun r => Num (fnum r "ETR" * fnum r "ETR")) gb.

(** One turn of the control loop: [gb2 = gb2[gb2[c] > 0]] and
    [gb2[f'ln_{c}'] = np.log(gb2[c])]. *)
Definition log_control (c : string) (gb2 : DataFrame) : DataFrame :=
  let gb2 := mask (fun r => 0 <? fnum r c) gb2 in
  assign ("ln_" +:+ c) (fun r => Num (np_log (fnum r c))) gb2.

(** The control loop of the baseline builders; [logged_controls] grows by
    one label per turn. *)
Definition log_controls (valid_controls : list string) (gb2 : DataFrame)
    : DataFrame * list string :=
  fold_left (fun '(gb2, logged_controls) c =>
               (log_control c gb2, logged_controls ++ ["ln_" +:+ c]))
            valid_controls (gb2, []).

End Builders.

(** ** Regression results and report text *)

(** What the scripts read of a fitted statsmodels model: the coefficients by
    regressor name and the summary text. *)
Record OLSResults : Type := mkOLSResults {
  params : gmap string float;
  summary : string
}.

(** A piece of the text a [run_regression] returns.  Numbers stay numbers:
    how an f-string prints them is presentation. *)
Inductive block : Type :=
| Title (text : string)
| Summary (text : string)
| UTest (b2 tp : float) (in_range : bool)
| UTestResults (b1 b2 tp min_etr max_etr : float) (in_range : bool)
| UTestShape (shape : string) (tp : float)
| NotEnough (text : string)
| Failed (e : exn).

(** [tp = -b1 / (2*b2) if b2 != 0 else 0]. *)
Definition turning_point (b1 b2 : float) : float :=
  if negb (b2 =? 0) then - b1 / (2 * b2) else 0.

(** [min_etr <= tp <= max_etr]. *)
Definition in_range (min_etr tp max_etr : float) : bool :=
  (min_etr <=? tp) && (tp <=? max_etr).

(** ** Germany_Baseline_Tax_Study.py *)
Module Germany.
Section Script.
Variable np_log : float -> float.
Variable parse_float : string -> float.
(** [smf.ols(formula, data=df).fit()], or the exception it raises. *)
Variable ols_fit : string -> DataFrame -> res OLSResults.

Definition ETR_MIN : float := 0.0.
Definition ETR_MAX : float := 0.5.
Definition TARGET_COUNTRY : string := "Germany".

(** [create_global_clean_bases(df, tax_col)]. *)
Definition create_global_clean_bases (tax_col : string)
    : M (DataFrame * DataFrame * list string) :=
  for_each ["profit_before_tax"; tax_col] (coerce_column parse_float);;
  df ← get_frame;
  gb1 ← lift (dropna ["profit_before_tax"; tax_col] df);
  let gb1 := profit_etr_steps np_log ETR_MIN ETR_MAX tax_col gb1 in
  let valid_controls := List.filter (has_column df) controls in
  for_each valid_controls (coerce_column parse_float);;
  df ← get_frame;
  gb2 ← lift (dropna (["profit_before_tax"; tax_col] ++ valid_controls) df);
  let gb2 := profit_etr_steps np_log ETR_MIN ETR_MAX tax_col gb2 in
  let '(gb2, logged_controls) := log_controls np_log valid_controls gb2 in
  mret (gb1, gb2, logged_controls).

(** [run_regression(df, formula, title)]: whatever is raised inside the
    [try] is caught and reported after the text written so far. *)
Definition run_regression (df : DataFrame) (formula title : string) : list block :=
  Title title ::
  match ols_fit formula df with
  | Raise e => [Failed e]
  | Ok model =>
      Summary (summary model) ::
      match params model !! "ETR_sq" with
      | None => []
      | Some b2 =>
          match params model !! "ETR" with
          | None => [Failed (KeyError "ETR")]
          | Some b1 =>
              let tp := turning_point b1 b2 in
              if has_column df "ETR" then
                let min_etr := series_min (column_values "ETR" df) in
                let max_etr := series_max (column_values "ETR" df) in
                let is_valid := in_range min_etr tp max_etr in
                [UTest b2 tp is_valid]
              else [Failed (KeyError "ETR")]
          end
      end
  end.

(** [g_b1[g_b1['upe_name'] == TARGET_COUNTRY]]. *)
Definition target_rows (g : DataFrame) : res DataFrame :=
  if has_column g "upe_name"
  then Ok (mask (text_is "upe_name" TARGET_COUNTRY) g)
  else Raise (KeyError "upe_name").

(** The report part of [main] for one tax basis (lines 169-179 and
    195-205): the regressions on the two country bases, each run only on
    more than ten rows.  Returns the report lines appended and the warnings
    logged. *)
Definition report_section (de_b1 de_b2 : DataFrame) (ctrls : list string)
    (tag heading : string) : list block * list string :=
  let report_lines := [Title heading] in
  let report_lines :=
    if (10 <? len de_b1)%nat then
      report_lines
        ++ run_regression de_b1 "ln_profits ~ ETR" ("DE " +:+ tag +:+ " B1 Linear")
        ++ run_regression de_b1 "ln_profits ~ ETR + ETR_sq"
             ("DE " +:+ tag +:+ " B1 Non-Linear")
    else report_lines in
  if (10 <? len de_b2)%nat then
    let ctrls := String.concat " + " ctrls in
    (report_lines
       ++ run_regression de_b2 ("ln_profits ~ ETR + " +:+ ctrls)
            ("DE " +:+ tag +:+ " B2 Linear")
       ++ run_regression de_b2 ("ln_profits ~ ETR + ETR_sq + " +:+ ctrls)
            ("DE " +:+ tag +:+ " B2 Non-Linear"),
     [])
  else (report_lines, ["Not enough data for DE " +:+ tag +:+ " Base 2"]).

(** What [main] does for one tax basis (lines 156-179 for [tax_accrued]
    with tag [Accrued], lines 182-205 for [tax_paid] with tag [Paid]):
    the sheets it stores, the report lines it appends and the warnings
    it logs. *)
Definition process_tax (tax_col tag heading : string)
    : M (list (string * DataFrame) * list block * list string) :=
  '(g_b1, g_b2, ctrls) ← create_global_clean_bases tax_col;
  de_b1 ← lift (target_rows g_b1);
  de_b2 ← lift (target_rows g_b2);
  let all_sheets :=
    [("Global_" +:+ tag +:+ "_BASE_1", g_b1); ("Global_" +:+ tag +:+ "_BASE_2", g_b2);
     ("DE_" +:+ tag +:+ "_BASE_1", de_b1); ("DE_" +:+ tag +:+ "_BASE_2", de_b2)] in
  let '(report_lines, warnings) := report_section de_b1 de_b2 ctrls tag heading in
  mret (all_sheets, report_lines, warnings).

(** The two tax bases [main] processes, one after the other, on the one
    [df_raw]. *)
Definition main_analysis
    : M (list (string * DataFrame) * list block * list string) :=
  '(sheets1, report1, log1) ← process_tax "tax_accrued" "Accrued" "*** Germany ACCRUED TAX ***";
  '(sheets2, report2, log2) ← process_tax "tax_paid" "Paid" "*** Germany PAID TAX ***";
  mret (sheets1 ++ sheets2, report1 ++ report2, log1 ++ log2).

End Script.
End Germany.

(** ** Italy_Baseline_Tax_Study.py *)
Module ItalyBaseline.
Section Script.
Variable np_log : float -> float.
Variable parse_float : string -> float.
Variable ols_fit : string -> DataFrame -> res OLSResults.

Definition ETR_MIN : float := 0.0.
Definition ETR_MAX : float := 1.0.

(** The table after [if c in df.columns: df[c] = pd.to_numeric(...)] for
    each label of [cs] in turn. *)
Definition coerced_present (cs : list string) (df : DataFrame) : DataFrame :=
  fold_left (fun d c => if has_column d c then coerced parse_float c d else d) cs df.

(** [if c in df.columns: df[c] = pd.to_numeric(df[c], errors='coerce')]. *)
Definition coerce_if_present (c : string) : M unit := fun df =>
  if has_column df c then coerce_column parse_float c df else (df, Ok tt).

(** [create_global_clean_bases(df, tax_col)]. *)
Definition create_global_clean_bases (tax_col : string)
    : M (DataFrame * DataFrame * list string) :=
  for_each ["profit_before_tax"; tax_col] coerce_if_present;;
  df ← get_frame;
  let valid_controls := List.filter (has_column df) controls in
  for_each valid_controls (coerce_column parse_float);;
  df ← get_frame;
  gb1 ← lift (dropna ["profit_before_tax"; tax_col] df);
  let gb1 := profit_etr_steps np_log ETR_MIN ETR_MAX tax_col gb1 in
  gb2 ← lift (dropna (["profit_before_tax"; tax_col] ++ valid_controls) df);
  let gb2 := profit_etr_steps np_log ETR_MIN ETR_MAX tax_col gb2 in
  let '(gb2, logged_controls) := log_controls np_log valid_controls gb2 in
  mret (gb1, gb2, logged_controls).

(** [run_regression(df, formula, title)]. *)
Definition run_regression (df : DataFrame) (formula title : string) : list block :=
  if (len df <? 5)%nat then
    [Title title; NotEnough "Not enough data points (<5) to run regression."]
  else
    Title title ::
    match ols_fit formula df with
    | Raise e => [Failed e]
    | Ok model =>
        Summary (summary model) ::
        match params model !! "ETR_sq" with
        | None => []
        | Some b2 =>
            let b1 := default 0 (params model !! "ETR") in
            let tp := turning_point b1 b2 in
            if has_column df "ETR" then
              let min_etr := series_min (column_values "ETR" df) in
              let max_etr := series_max (column_values "ETR" df) in
              let is_valid := in_range min_etr tp max_etr in
              [UTestResults b1 b2 tp min_etr max_etr is_valid]
            else [Failed (KeyError "ETR")]
        end
    end.

(** What [main] does for one tax basis (lines 241-255 for [tax_accrued]
    with tag [Accrued], lines 258-269 for [tax_paid] with tag [Paid]): the
    sheets it stores and the texts it appends to the report; the regression
    with controls is run only on a Base 2 that has a row. *)
Definition process_tax (tax_col tag heading : string)
    : M (list (string * DataFrame) * list (list block)) :=
  '(b1, b2, ctrls) ← create_global_clean_bases tax_col;
  let all_sheets := [(tag +:+ "_Base1", b1); (tag +:+ "_Base2", b2)] in
  let report_lines :=
    [[Title heading];
     run_regression b1 "ln_profits ~ ETR" (tag +:+ " Base 1 (Linear)");
     run_regression b1 "ln_profits ~ ETR + ETR_sq" (tag +:+ " Base 1 (Non-Linear)")] in
  let report_lines :=
    if (0 <? len b2)%nat then
      let ctrls_str := String.concat " + " ctrls in
      report_lines
        ++ [run_regression b2 ("ln_profits ~ ETR + ETR_sq + " +:+ ctrls_str)
              (tag +:+ " Base 2 (Controls)")]
    else report_lines in
  mret (all_sheets, report_lines).

End Script.
End ItalyBaseline.

(** ** analysis_script.py *)
Module AnalysisScript.
Section Script.
Variable np_log : float -> float.
Variable ols_fit : string -> DataFrame -> res OLSResults.

(** [(base2[ctrl] > 0).sum()] on a column without text ([select_controls]
    raises on one that holds a text). *)
Definition count_positive (ctrl : string) (df : DataFrame) : nat :=
  length (List.filter (fun r => 0 <? fnum r ctrl) (rows df)).

(** Base 1 after [dropna] (lines 116-124): [ETR], the one mask on profit and
    the [ETR] window, [ln_profits], [ETR_sq].  The analyzer does not coerce
    its columns: the division raises [TypeError] when the tax or the profit
    column holds a text in a row of the table. *)
Definition base1_steps (tax_col : string) (base1 : DataFrame) : res DataFrame :=
  match assign_quotient "ETR" tax_col "profit_before_tax" base1 with
  | Raise e => Raise e
  | Ok base1 =>
      let base1 := mask (fun r =>
        (0 <? fnum r "profit_before_tax")
        && (0 <=? fnum r "ETR") && (fnum r "ETR" <? 0.5)) base1 in
      let base1 := assign "ln_profits"
        (fun r => Num (np_log (fnum r "profit_before_tax"))) base1 in
      Ok (assign "ETR_sq" (fun r => Num (fnum r "ETR" * fnum r "ETR")) base1)
  end.

(** The loop over [possible_controls] (lines 131-134): a control that is a
    column is kept when more than five rows have it positive; the comparison
    raises [TypeError] on a column that holds a text. *)
Fixpoint select_controls (possible_controls : list string) (base2 : DataFrame)
    : res (list string) :=
  match possible_controls with
  | [] => Ok []
  | ctrl :: rest =>
      if has_column base2 ctrl then
        if holds_text ctrl base2 then Raise TypeError
        else
          match select_controls rest base2 with
          | Raise e => Raise e
          | Ok valid_controls =>
              Ok (if (5 <? count_positive ctrl base2)%nat
                  then ctrl :: valid_controls else valid_controls)
          end
      else select_controls rest base2
  end.

(** [Analyzer.prepare_datasets(tax_col)] on [self.df], which it only reads;
    [None] stands for the [None, None, None] it returns when the tax column
    is missing. *)
Definition prepare_datasets (df : DataFrame) (tax_col : string)
    : res (option (DataFrame * DataFrame * list string)) :=
  if negb (has_column df tax_col) then Ok None
  else
    match dropna ["profit_before_tax"; tax_col] df with
    | Raise e => Raise e
    | Ok base1 =>
        match base1_steps tax_col base1 with
        | Raise e => Raise e
        | Ok base1 =>
            let base2 := base1 in
            let possible_controls := controls in
            match select_controls possible_controls base2 with
            | Raise e => Raise e
            | Ok valid_controls =>
                match dropna valid_controls base2 with
                | Raise e => Raise e
                | Ok base2 =>
                    let base2 := fold_left
                                   (fun base2 ctrl => log_control np_log ctrl base2)
                                   valid_controls base2 in
                    Ok (Some (base1, base2, valid_controls))
                end
            end
        end
    end.

(** [Analyzer.run_regression(df, formula, title)]. *)
Definition run_regression (df : DataFrame) (formula title : string) : list block :=
  if (len df <? 5)%nat then [Title title; NotEnough "Insufficient Data."]
  else
    Title title ::
    match ols_fit formula df with
    | Raise e => [Failed e]
    | Ok model =>
        Summary (summary model) ::
        match params model !! "ETR_sq" with
        | None => []
        | Some b2' =>
            match params model !! "ETR" with
            | None => [Failed (KeyError "ETR")]
            | Some b1 =>
                let b2 := b2' in
                let tp := turning_point b1 b2 in
                let shape := if b2 <? 0 then "Inverted U" else "U-Shape" in
                [UTestShape shape tp]
            end
        end
    end.

(** [self.sheets[name] = df] on the dict of sheets, kept in insertion order:
    an existing name keeps its place, a new one goes last. *)
Fixpoint dict_set (name : string) (df : DataFrame) (sheets : list (string * DataFrame))
    : list (string * DataFrame) :=
  match sheets with
  | [] => [(name, df)]
  | (n, d) :: rest =>
      if bool_decide (n = name) then (name, df) :: rest
      else (n, d) :: dict_set name df rest
  end.

(** The state of a [Pipeline]: the sheets to export and the report texts. *)
Record Pipeline : Type := mkPipeline {
  sheets : list (string * DataFrame);
  final_report : list (list block)
}.

(** [Pipeline._run_cycle(analyzer, tax_col, label)] for an analyzer over
    [df]: the pipeline as the call leaves it, or the exception that goes
    through it. *)
Definition run_cycle (self : Pipeline) (df : DataFrame) (tax_col label : string)
    : res Pipeline :=
  match prepare_datasets df tax_col with
  | Raise e => Raise e
  | Ok None => Ok self
  | Ok (Some (b1, b2, ctrls)) =>
      let sheets := dict_set (label +:+ "_BASE1") b1 (sheets self) in
      let sheets := dict_set (label +:+ "_BASE2") b2 sheets in
      let final_report :=
        final_report self
          ++ [[Title ("*** " +:+ label +:+ " Analysis ***")];
              run_regression b1 "ln_profits ~ ETR" (label +:+ " M1");
              run_regression b1 "ln_profits ~ ETR + ETR_sq" (label +:+ " M2")] in
      let final_report :=
        match ctrls with
        | [] => final_report
        | _ :: _ =>
            let f_ctrl := String.concat " + " (map (fun c => "ln_" +:+ c) ctrls) in
            final_report
              ++ [run_regression b2 ("ln_profits ~ ETR + " +:+ f_ctrl) (label +:+ " M3");
                  run_regression b2 ("ln_profits ~ ETR + ETR_sq + " +:+ f_ctrl)
                    (label +:+ " M4")]
        end in
      Ok {| sheets := sheets; final_report := final_report |}
  end.

End Script.
End AnalysisScript.

(** ** Italy_Comprehensive_Tax_Study.py *)

(** [data[cols]] at one row: the listed labels and nothing else. *)
Definition project (cols : list string) (r : Row) : Row :=
  foldr (fun c acc => match r !! c with
                      | Some v => <[c := v]> acc
                      | None => acc
                      end) ∅ cols.

(** [df[cols]]: [KeyError] on a label that is not a column. *)
Definition select (cols : list string) (df : DataFrame) : res DataFrame :=
  match List.find (fun c => negb (has_column df c)) cols with
  | Some c => Raise (KeyError c)
  | None => Ok {| columns := cols; rows := map (project cols) (rows df) |}
  end.

(** [.replace(0, np.nan)] at one cell: what equals zero becomes [nan]. *)
Definition zero_to_nan (c : cell) : cell :=
  match c with
  | Num x => if x =? 0 then Num nan else Num x
  | Text s => Text s
  end.

(** [data[cs] = data[cs].replace(0, np.nan)]. *)
Definition replace_zeros (cs : list string) (df : DataFrame) : DataFrame :=
  {| columns := columns df;
     rows := map (fun r => foldr (alter zero_to_nan) r cs) (rows df) |}.

(** The float array scikit-learn makes of a frame. *)
Definition to_matrix (df : DataFrame) : list (list float) :=
  map (fun r => map (fnum r) (columns df)) (rows df).

(** [pd.DataFrame(array, columns=cols, index=index)] for an index of [n]
    labels: [ValueError] when the shape of the array does not fit. *)
Definition of_matrix (cols : list string) (n : nat) (array : list (list float))
    : res DataFrame :=
  if (length array =? n)%nat
     && forallb (fun v => (length v =? length cols)%nat) array
  then Ok {| columns := cols;
             rows := map (fun v => list_to_map (zip cols (map Num v))) array |}
  else Raise (ValueError "Shape of passed values does not fit the indices").

(** The arguments [IterativeImputer(...)] is built with. *)
Record IterativeImputer : Type := mkIterativeImputer {
  min_value : float;
  max_iter : nat;
  random_state : option Z
}.

Module ItalyComprehensive.
Section Script.
Variable np_log : float -> float.

(** scikit-learn's generator states, [np.random.RandomState(seed)], and the
    imputation itself: a function of the floor, the iteration bound, the
    generator it draws from and the array. *)
Variable rng : Type.
Variable RandomState : Z -> rng.
Variable impute : float -> nat -> rng -> list (list float) -> list (list float).

Definition ETR_MIN : float := 0.0.
Definition ETR_MAX : float := 0.5.
Definition TARGET_COUNTRY : string := "Italy".

(** scikit-learn's [check_random_state]: an integer seeds a generator of its
    own, [None] takes numpy's global one. *)
Definition check_random_state (seed : option Z) (global_rng : rng) : rng :=
  match seed with
  | Some s => RandomState s
  | None => global_rng
  end.

(** [imputer.fit_transform(data)] on a freshly built imputer. *)
Definition fit_transform (imputer : IterativeImputer) (global_rng : rng)
    (X : list (list float)) : list (list float) :=
  impute (min_value imputer) (max_iter imputer)
         (check_random_state (random_state imputer) global_rng) X.

(** The candidate table: the target country's rows, the columns of
    interest, zeros in the controls turned into [nan] (lines 103-112). *)
Definition candidate_table (df : DataFrame) (tax_col : string) : res DataFrame :=
  let cols := ["profit_before_tax"; tax_col] ++ controls in
  if has_column df "upe_name" then
    match select cols (mask (text_is "upe_name" TARGET_COUNTRY) df) with
    | Raise e => Raise e
    | Ok data => Ok (replace_zeros controls data)
    end
  else Raise (KeyError "upe_name").

(** [for c in cs: data = data[data[c] > 0]]. *)
Fixpoint positive_in_turn (cs : list string) (data : DataFrame) : res DataFrame :=
  match cs with
  | [] => Ok data
  | c :: rest =>
      match positive_rows c data with
      | Raise e => Raise e
      | Ok data => positive_in_turn rest data
      end
  end.

(** The standard filters and log transformations (lines 134-147).  Nothing
    coerces the columns here: a comparison or the division raises
    [TypeError] when the column it reads holds a text in a row that is still
    in the table. *)
Definition filters_and_logs (tax_col : string) (data : DataFrame) : res DataFrame :=
  match positive_rows "profit_before_tax" data with
  | Raise e => Raise e
  | Ok data =>
      match assign_quotient "ETR" tax_col "profit_before_tax" data with
      | Raise e => Raise e
      | Ok data =>
          let data := mask (fun r => (ETR_MIN <=? fnum r "ETR")
                                     && (fnum r "ETR" <? ETR_MAX)) data in
          match positive_in_turn ("profit_before_tax" :: controls) data with
          | Raise e => Raise e
          | Ok data =>
              let data := assign "ln_profits"
                (fun r => Num (np_log (fnum r "profit_before_tax"))) data in
              let data := fold_left (fun data c =>
                            assign ("ln_" +:+ c) (fun r => Num (np_log (fnum r c))) data)
                            controls data in
              Ok (assign "ETR_sq" (fun r => Num (fnum r "ETR" * fnum r "ETR")) data)
          end
      end
  end.

(** What the method branch makes of the candidate table: the complete cases,
    the imputed table, or [None] for too few rows to impute. *)
Definition resolve_missing (global_rng : rng) (tax_col method : string)
    (data : DataFrame) : res (option DataFrame) :=
  let cols := ["profit_before_tax"; tax_col] ++ controls in
  if bool_decide (method = "CC") then
    Ok (Some (mask (complete_on (columns data)) data))
  else if bool_decide (method = "Imputation") then
    let imputer := {| min_value := 0.1; max_iter := 20; random_state := Some 42%Z |} in
    if (5 <? len data)%nat then
      let data_imputed := fit_transform imputer global_rng (to_matrix data) in
      match of_matrix cols (len data) data_imputed with
      | Raise e => Raise e
      | Ok data => Ok (Some data)
      end
    else Ok None
  else Ok (Some data).

(** [prepare_data_and_analyze(df, tax_col, method)], run while numpy's
    global generator is in state [global_rng]. *)
Definition prepare_data_and_analyze (global_rng : rng) (df : DataFrame)
    (tax_col method : string) : res (option DataFrame * string) :=
  match candidate_table df tax_col with
  | Raise e => Raise e
  | Ok data =>
      match resolve_missing global_rng tax_col method data with
      | Raise e => Raise e
      | Ok None => Ok (None, "Insufficient data")
      | Ok (Some data) =>
          match filters_and_logs tax_col data with
          | Raise e => Raise e
          | Ok data => Ok (Some data, "")
          end
      end
  end.

(** [smf.ols(formula, data=df).fit()], or the exception it raises. *)
Variable ols_fit : string -> DataFrame -> res OLSResults.

(** [np.isinf] on a float. *)
Definition isinf (x : float) : bool := (x =? infinity) || (x =? neg_infinity).

(** A column [select_dtypes(include=np.number)] selects: one that holds
    numbers only (the prepared tables hold nothing else). *)
Definition numeric_dtype (c : string) (df : DataFrame) : bool :=
  forallb (fun r : Row => match r !! c with Some (Num _) => true | _ => false end)
          (rows df).

(** [np.isinf(df.select_dtypes(include=np.number)).values.any()]. *)
Definition any_inf (df : DataFrame) : bool :=
  existsb (fun c => numeric_dtype c df && existsb (fun r => isinf (fnum r c)) (rows df))
          (columns df).

(** [.replace([np.inf, -np.inf], np.nan)] at one cell. *)
Definition inf_to_nan (c : cell) : cell :=
  match c with
  | Num x => if isinf x then Num nan else Num x
  | Text s => Text s
  end.

(** [df.replace([np.inf, -np.inf], np.nan).dropna()]. *)
Definition drop_infinite (df : DataFrame) : DataFrame :=
  mask (complete_on (columns df))
       {| columns := columns df; rows := map (fmap inf_to_nan) (rows df) |}.

(** [run_regression(df, formula, title)]: infinite values are cleared before
    the fit, and the U-test reads the table that was fitted. *)
Definition run_regression (df : DataFrame) (formula title : string) : list block :=
  let df := if any_inf df then drop_infinite df else df in
  Title title ::
  match ols_fit formula df with
  | Raise e => [Failed e]
  | Ok model =>
      Summary (summary model) ::
      match params model !! "ETR_sq" with
      | None => []
      | Some b2 =>
          match params model !! "ETR" with
          | None => [Failed (KeyError "ETR")]
          | Some b1 =>
              let tp := turning_point b1 b2 in
              if has_column df "ETR" then
                let min_etr := series_min (column_values "ETR" df) in
                let max_etr := series_max (column_values "ETR" df) in
                let is_valid := in_range min_etr tp max_etr in
                [UTest b2 tp is_valid]
              else [Failed (KeyError "ETR")]
          end
      end
  end.

(** A line [main] appends to its report. *)
Inductive line : Type :=
| Heading (text : string)
| Count (n : nat)
| Insufficient
| FailedEmpty (msg : string)
| Regression (out : list block).

(** [df.empty]: no row or no column. *)
Definition empty (df : DataFrame) : bool :=
  (len df =? 0)%nat || (length (columns df) =? 0)%nat.

(** One turn of the loops of [main] (lines 168-194): the sheet it stores, if
    any, and the lines it appends; an exception of the preparation is not
    caught. *)
Definition main_step (global_rng : rng) (df_raw : DataFrame) (tax_type method : string)
    : res (list (string * DataFrame) * list line) :=
  let type_label := if bool_decide (tax_type = "tax_accrued") then "Accrued" else "Paid" in
  let label := type_label +:+ "_" +:+ method in
  let heading := Heading ("*** " +:+ TARGET_COUNTRY +:+ " " +:+ label +:+ " ***") in
  match prepare_data_and_analyze global_rng df_raw tax_type method with
  | Raise e => Raise e
  | Ok (df_res, msg) =>
      match df_res with
      | Some df_res =>
          if negb (empty df_res) then
            let controls := ["ln_employees"; "ln_tangible_assets"; "ln_related_revenues"] in
            let formula_lin := "ln_profits ~ ETR + " +:+ String.concat " + " controls in
            let formula_non := "ln_profits ~ ETR + ETR_sq + " +:+ String.concat " + " controls in
            Ok ([(label, df_res)],
                [heading; Count (len df_res)]
                  ++ (if (10 <? len df_res)%nat then
                        [Regression (run_regression df_res formula_lin (label +:+ " Linear"));
                         Regression (run_regression df_res formula_non
                                       (label +:+ " Non-Linear"))]
                      else [Insufficient]))
          else Ok ([], [heading; FailedEmpty msg])
      | None => Ok ([], [heading; FailedEmpty msg])
      end
  end.

End Script.
End ItalyComprehensive.

(** ** Specification vocabulary *)

(** The invariant of a row of an analysis base for the window
    [[etr_min, etr_max)]: positive profit, [ETR] in the window, [ETR_sq] the
    product of [ETR] with itself, [ln_profits] the logarithm of the profit. *)
Definition analysis_row (np_log : float -> float) (etr_min etr_max : float)
    (r : Row) : Prop :=
  let p := fnum r "profit_before_tax" in
  let e := fnum r "ETR" in
  (0 <? p) = true ∧ (etr_min <=? e) = true ∧ (e <? etr_max) = true
  ∧ r !! "ETR_sq" = Some (Num (e * e))
  ∧ r !! "ln_profits" = Some (Num (np_log p)).

(** The columns [analysis_row] reads. *)
Definition base_columns : list string :=
  ["profit_before_tax"; "ETR"; "ETR_sq"; "ln_profits"].

(** The row has a positive control [c] and carries its logarithm. *)
Definition control_logged (np_log : float -> float) (c : string) (r : Row) : Prop :=
  (0 <? fnum r c) = true ∧ r !! ("ln_" +:+ c) = Some (Num (np_log (fnum r c))).

(** The cell is a number equal to zero ([0.0] or [-0.0]). *)
Definition is_zero (c : option cell) : bool :=
  match c with
  | Some (Num x) => x =? 0
  | _ => false
  end.

(** The rows the complete-case strategy of the comprehensive study keeps:
    profit and tax present, every control present and not zero. *)
Definition complete_nonzero (tax_col : string) (r : Row) : bool :=
  complete_on ["profit_before_tax"; tax_col] r
  && forallb (fun c => negb (isna (r !! c)) && negb (is_zero (r !! c))) controls.

(** The rate of a row: its tax over its profit. *)
Definition etr_of (tax_col : string) (r : Row) : float :=
  fnum r tax_col / fnum r "profit_before_tax".

(** The rows the standard filters of the comprehensive study keep: positive
    profit, rate in the window, positive controls. *)
Definition kept_row (tax_col : string) (r : Row) : bool :=
  (0 <? fnum r "profit_before_tax")
  && ((0 <=? etr_of tax_col r) && (etr_of tax_col r <? 0.5))
  && forallb (fun c => 0 <? fnum r c) controls.

(** A kept row with the derived columns of the comprehensive study. *)
Definition final_row (np_log : float -> float) (tax_col : string) (r : Row) : Row :=
  <["ETR_sq" := Num (etr_of tax_col r * etr_of tax_col r)]>
    (<["ln_related_revenues" := Num (np_log (fnum r "related_revenues"))]>
       (<["ln_tangible_assets" := Num (np_log (fnum r "tangible_assets"))]>
          (<["ln_employees" := Num (np_log (fnum r "employees"))]>
             (<["ln_profits" := Num (np_log (fnum r "profit_before_tax"))]>
                (<["ETR" := Num (etr_of tax_col r)]> r))))).

(** The columns the builders derive. *)
Definition derived_columns : list string :=
  ["ETR"; "ln_profits"; "ETR_sq"; "ln_employees"; "ln_tangible_assets";
   "ln_related_revenues"].

(** In the row, [ETR] is the tax over the profit. *)
Definition etr_defined (tax_col : string) (r : Row) : Prop :=
  r !! "ETR" = Some (Num (etr_of tax_col r)).

(** Base 1 of the analysis script as [base1_steps] returns it, when it
    returns: the steps over columns of numbers. *)
Definition base1_table (np_log : float -> float) (tax_col : string)
    (base1 : DataFrame) : DataFrame :=
  let base1 := assign "ETR"
    (fun r => Num (fnum r tax_col / fnum r "profit_before_tax")) base1 in
  let base1 := mask (fun r =>
    (0 <? fnum r "profit_before_tax")
    && (0 <=? fnum r "ETR") && (fnum r "ETR" <? 0.5)) base1 in
  let base1 := assign "ln_profits"
    (fun r => Num (np_log (fnum r "profit_before_tax"))) base1 in
  assign "ETR_sq" (fun r => Num (fnum r "ETR" * fnum r "ETR")) base1.

(** The table of the comprehensive study as [filters_and_logs] returns it,
    when it returns. *)
Definition final_table (np_log : float -> float) (tax_col : string)
    (data : DataFrame) : DataFrame :=
  let data := mask (fun r => 0 <? fnum r "profit_before_tax") data in
  let data := assign "ETR"
    (fun r => Num (fnum r tax_col / fnum r "profit_before_tax")) data in
  let data := mask (fun r => (0 <=? fnum r "ETR") && (fnum r "ETR" <? 0.5)) data in
  let data := fold_left (fun data c => mask (fun r => 0 <? fnum r c) data)
                ("profit_before_tax" :: controls) data in
  let data := assign "ln_profits"
    (fun r => Num (np_log (fnum r "profit_before_tax"))) data in
  let data := fold_left (fun data c =>
                assign ("ln_" +:+ c) (fun r => Num (np_log (fnum r c))) data)
                controls data in
  assign "ETR_sq" (fun r => Num (fnum r "ETR" * fnum r "ETR")) data.

(** The financial fields of a record. *)
Definition financial_columns : list string :=
  ["profit_before_tax"; "tax_accrued"; "tax_paid"] ++ controls.

(** The cell is a number, [nan] for an absent value. *)
Definition number_cell_b (c : option cell) : bool :=
  match c with
  | Some (Num _) => true
  | _ => false
  end.

(** A normalized table: every financial field that is a column holds a
    number or the absent marker in every row, never a text. *)
Definition normalized (df : DataFrame) : bool :=
  forallb (fun r : Row =>
             forallb (fun c => negb (has_column df c) || number_cell_b (r !! c))
                     financial_columns)
          (rows df).

(** A regression text of the comprehensive study's report. *)
Definition regression_lines (ls : list ItalyComprehensive.line) : list (list block) :=
  omap (fun l => match l with ItalyComprehensive.Regression out => Some out | _ => None end) ls.

(** A fit was tried: the text carries a model summary or a failed fit. *)
Definition fit_attempted (out : list block) : bool :=
  existsb (fun b => match b with
                    | Summary _ | Failed _ => true
                    | _ => false
                    end) out.

(** The text says there is too little data. *)
Definition reports_not_enough (out : list block) : bool :=
  existsb (fun b => match b with NotEnough _ => true | _ => false end) out.

(** ** The order of binary64 values *)

(** The place of a binary64 value in the order: class (infinities, sign),
    then exponent, then mantissa; [nan] has none. *)
Definition sf_key (f : spec_float) : option (Z * Z * Z) :=
  match f with
  | S754_nan => None
  | S754_infinity true => Some (-2, 0, 0)%Z
  | S754_infinity false => Some (2, 0, 0)%Z
  | S754_zero _ => Some (0, 0, 0)%Z
  | S754_finite false m e => Some (1, e, Z.pos m)%Z
  | S754_finite true m e => Some (-1, - e, - Z.pos m)%Z
  end.

Definition key_le (a b : Z * Z * Z) : Prop :=
  (a.1.1 < b.1.1 ∨ (a.1.1 = b.1.1 ∧ (a.1.2 < b.1.2 ∨ (a.1.2 = b.1.2 ∧ a.2 ≤ b.2))))%Z.

Definition key_lt (a b : Z * Z * Z) : Prop :=
  (a.1.1 < b.1.1 ∨ (a.1.1 = b.1.1 ∧ (a.1.2 < b.1.2 ∨ (a.1.2 = b.1.2 ∧ a.2 < b.2))))%Z.

(** The same for a primitive float. *)
Definition fkey (x : float) : option (Z * Z * Z) := sf_key (Prim2SF x).

(** The value of a call that did not raise, [d] for one that did. *)
Definition value_or {A : Type} (d : A) (r : res A) : A :=
  match r with
  | Ok a => a
  | Raise _ => d
  end.

(** A frame without columns or rows. *)
Definition empty_frame : DataFrame := {| columns := []; rows := [] |}.

(** ** Sample tables

    Concrete inputs on which the definitions above are run.  [sample_log]
    stands for [np.log] there (no property checked on a sample depends on its
    values), and [no_number] is [pd.to_numeric]'s parser on texts that spell
    no number. *)

Definition sample_log (x : float) : float := x - 1.

Definition no_number (s : string) : float := nan.

Definition sample_columns : list string :=
  ["upe_name"; "profit_before_tax"; "tax_accrued"; "tax_paid";
   "employees"; "tangible_assets"; "related_revenues"].

(** A firm record: parent country, profit, tax accrued, tax paid, employees,
    tangible assets, related-party revenues. *)
Definition firm (upe : string) (profit accrued paid emp assets rev : cell) : Row :=
  list_to_map
    [("upe_name", Text upe); ("profit_before_tax", profit);
     ("tax_accrued", accrued); ("tax_paid", paid); ("employees", emp);
     ("tangible_assets", assets); ("related_revenues", rev)].

(** Three firms: a complete one, one whose accrued tax is the text [n/a] and
    whose employee count is zero, and a foreign one without employees. *)
Definition sample_table : DataFrame :=
  {| columns := sample_columns;
     rows := [firm "Germany" (Num 100) (Num 20) (Num 10) (Num 5) (Num 7) (Num 9);
              firm "Germany" (Num 100) (Text "n/a") (Num 10) (Num 0) (Num 7) (Num 9);
              firm "Italy" (Num 200) (Num 20) (Num 10) (Num 0) (Num 7) (Num 9)] |}.

(** A fit that always succeeds with the coefficients [b1] for [ETR] and [b2]
    for [ETR_sq]. *)
Definition sample_fit (b1 b2 : float) (formula : string) (df : DataFrame)
    : res OLSResults :=
  Ok {| params := <["Intercept" := 1]> (<["ETR" := b1]> (<["ETR_sq" := b2]> ∅));
        summary := "OLS Regression Results" |}.

(** A base reduced to its [ETR] column, one row per listed value. *)
Definition etr_base (etrs : list float) : DataFrame :=
  {| columns := ["ETR"]; rows := map (fun e => {["ETR" := Num e]}) etrs |}.

(** Observed rates spanning [[0.0, 0.5)] and [[0.3, 0.5)]. *)
Definition wide_base : DataFrame := etr_base [0.1; 0; 0.25; 0.4; 0.49].
Definition narrow_base : DataFrame := etr_base [0.35; 0.3; 0.4; 0.45; 0.49].

(** The shape a report text names, when it names one. *)
Definition reported_shape (out : list block) : option string :=
  match List.find (fun b => match b with UTestShape _ _ => true | _ => false end) out with
  | Some (UTestShape shape _) => Some shape
  | _ => None
  end.

(** Three German firms none of which has employees. *)
Definition no_employees : DataFrame :=
  {| columns := sample_columns;
     rows := replicate 3
               (firm "Germany" (Num 100) (Num 20) (Num 10) (Num 0) (Num 7) (Num 9)) |}.

(** Six Italian firms; the first reports a negative head count, the second
    none. *)
Definition negative_employees : DataFrame :=
  {| columns := sample_columns;
     rows := firm "Italy" (Num 100) (Num 20) (Num 10) (Num (-5)) (Num 7) (Num 9)
             :: firm "Italy" (Num 100) (Num 20) (Num 10) (Num 0) (Num 7) (Num 9)
             :: replicate 4
                  (firm "Italy" (Num 100) (Num 20) (Num 10) (Num 5) (Num 7) (Num 9)) |}.

(** Six firms without employees. *)
Definition six_no_employees : DataFrame :=
  {| columns := sample_columns;
     rows := replicate 6
               (firm "Germany" (Num 100) (Num 20) (Num 10) (Num 0) (Num 7) (Num 9)) |}.

(** An imputer that hands back the array it was given: what it returns shows
    what it received. *)
Definition echo_impute (min_value : float) (max_iter : nat) (g : unit)
    (X : list (list float)) : list (list float) := X.

(** Ten complete German firms. *)
Definition ten_firms : DataFrame :=
  {| columns := sample_columns;
     rows := replicate 10
               (firm "Germany" (Num 100) (Num 20) (Num 10) (Num 5) (Num 7) (Num 9)) |}.

(** The names and sizes of stored sheets. *)
Definition sheet_sizes (sheets : list (string * DataFrame)) : list (string * nat) :=
  map (fun s => (s.1, len s.2)) sheets.

(** Two German firms in a table without any control column. *)
Definition bare_table : DataFrame :=
  {| columns := ["upe_name"; "profit_before_tax"; "tax_accrued"];
     rows := [list_to_map [("upe_name", Text "Germany"); ("profit_before_tax", Num 100);
                           ("tax_accrued", Num 20)];
              list_to_map [("upe_name", Text "Germany"); ("profit_before_tax", Num 50);
                           ("tax_accrued", Text "n/a")]] |}.
(** Three Italian firms. *)
Definition few_italian : DataFrame :=
  {| columns := sample_columns;
     rows := replicate 3
               (firm "Italy" (Num 100) (Num 20) (Num 10) (Num 5) (Num 7) (Num 9)) |}.
(** A fit that raises on a table with an infinite value and otherwise
    succeeds with the coefficients [1] and [-2]. *)
Definition strict_fit (formula : string) (df : DataFrame) : res OLSResults :=
  if ItalyComprehensive.any_inf df
  then Raise (Exception "exog contains inf or nans")
  else sample_fit 1 (-2) formula df.
(** The sample table with a second Italian firm whose profit is the text
    [n/a]. *)
Definition text_profit_table : DataFrame :=
  {| columns := sample_columns;
     rows := rows sample_table
             ++ [firm "Italy" (Text "n/a") (Num 20) (Num 10) (Num 5) (Num 7) (Num 9)] |}.

(** Two German firms, the first of which accrued no tax. *)
Definition zero_tax_table : DataFrame :=
  {| columns := sample_columns;
     rows := [firm "Germany" (Num 100) (Num 0) (Num 10) (Num 5) (Num 7) (Num 9);
              firm "Germany" (Num 100) (Num 20) (Num 10) (Num 5) (Num 7) (Num 9)] |}.

(** ** Frames: basic facts *)

Lemma in_rows_mask p df r :
  In r (rows (mask p df)) ↔ In r (rows df) ∧ p r = true.
Proof. unfold mask; simpl. apply filter_In. Qed.

Lemma in_rows_assign c f df r' :
  In r' (rows (assign c f df)) ↔ ∃ r, r' = <[c := f r]> r ∧ In r (rows df).
Proof.
  unfold assign; simpl. rewrite in_map_iff. split; intros (r & H1 & H2); eauto.
Qed.

Lemma Forall_rows_mask (P : Row -> Prop) p df :
  Forall P (rows df) → Forall (fun r => P r ∧ p r = true) (rows (mask p df)).
Proof.
  rewrite !List.Forall_forall. intros H r Hr. apply in_rows_mask in Hr as [Hr Hp].
  split; [auto | exact Hp].
Qed.

Lemma Forall_rows_assign (P Q : Row -> Prop) c f df :
  (∀ r, P r → Q (<[c := f r]> r)) →
  Forall P (rows df) → Forall Q (rows (assign c f df)).
Proof.
  rewrite !List.Forall_forall. intros HPQ H r' Hr'.
  apply in_rows_assign in Hr' as (r & -> & Hr). auto.
Qed.

Lemma fnum_insert_eq c x (r : Row) : fnum (<[c := Num x]> r) c = x.
Proof. unfold fnum. by rewrite lookup_insert_eq. Qed.

Lemma fnum_insert_ne c c' v (r : Row) : c ≠ c' → fnum (<[c := v]> r) c' = fnum r c'.
Proof. intros H. unfold fnum. by rewrite lookup_insert_ne. Qed.

Lemma has_column_true df c : has_column df c = true ↔ c ∈ columns df.
Proof. unfold has_column. apply bool_decide_eq_true. Qed.

Lemma columns_assign_present c f df :
  has_column df c = true → columns (assign c f df) = columns df.
Proof. intros H. unfold assign; simpl. by rewrite H. Qed.

Lemma has_column_assign c f df c' :
  has_column df c' = true → has_column (assign c f df) c' = true.
Proof.
  rewrite !has_column_true. unfold assign; simpl.
  destruct (has_column df c); [done | set_solver].
Qed.

Lemma len_assign c f df : len (assign c f df) = len df.
Proof. unfold len, assign; simpl. apply length_map. Qed.

(** ** The row invariant through the builders' steps *)

Section RowInvariant.
Variable np_log : float -> float.

Lemma analysis_row_insert etr_min etr_max k v (r : Row) :
  k ∉ base_columns →
  analysis_row np_log etr_min etr_max r →
  analysis_row np_log etr_min etr_max (<[k := v]> r).
Proof.
  intros Hk (Hp & Hlo & Hhi & Hsq & Hln).
  assert (k ≠ "profit_before_tax" ∧ k ≠ "ETR" ∧ k ≠ "ETR_sq" ∧ k ≠ "ln_profits")
    as (N1 & N2 & N3 & N4).
  { unfold base_columns in Hk. repeat split; intros ->; apply Hk; set_solver. }
  unfold analysis_row.
  rewrite !(fnum_insert_ne k) by done. rewrite !lookup_insert_ne by done.
  done.
Qed.

Lemma profit_etr_steps_rows etr_min etr_max tax_col gb :
  Forall (analysis_row np_log etr_min etr_max)
         (rows (profit_etr_steps np_log etr_min etr_max tax_col gb)).
Proof.
  apply List.Forall_forall. intros r5 H5. unfold profit_etr_steps in H5.
  apply in_rows_assign in H5 as (r4 & -> & H4).
  apply in_rows_assign in H4 as (r3 & -> & H3).
  apply in_rows_mask in H3 as [H3 Hwin].
  apply in_rows_assign in H3 as (r1 & -> & H1).
  apply in_rows_mask in H1 as [_ Hpos].
  set (e := fnum r1 tax_col / fnum r1 "profit_before_tax") in *.
  rewrite fnum_insert_eq in Hwin. apply andb_true_iff in Hwin as [Hlo Hhi].
  unfold analysis_row.
  rewrite !(fnum_insert_ne "ETR_sq"), !(fnum_insert_ne "ln_profits") by done.
  rewrite fnum_insert_eq, (fnum_insert_ne "ETR") by done.
  rewrite lookup_insert_eq, lookup_insert_ne, lookup_insert_eq by done.
  done.
Qed.

(** A turn of the control loop keeps the invariant when its label is none of
    the columns the invariant reads, and leaves only rows with a positive
    control whose logarithm it stored. *)
Lemma log_control_rows etr_min etr_max c gb :
  ("ln_" +:+ c) ∉ base_columns →
  Forall (analysis_row np_log etr_min etr_max) (rows gb) →
  Forall (analysis_row np_log etr_min etr_max) (rows (log_control np_log c gb)).
Proof.
  intros Hc H. unfold log_control.
  eapply Forall_rows_assign; [| apply (Forall_rows_mask _ _ _ H)].
  intros r [Hr _]. by apply analysis_row_insert.
Qed.

Lemma log_controls_unfold vc gb acc :
  fold_left (fun '(gb2, logged_controls) c =>
               (log_control np_log c gb2, logged_controls ++ ["ln_" +:+ c]))
            vc (gb, acc)
  = (fold_left (fun g c => log_control np_log c g) vc gb,
     acc ++ map (fun c => "ln_" +:+ c) vc).
Proof.
  revert gb acc. induction vc as [| c vc IH]; intros gb acc; simpl.
  - by rewrite app_nil_r.
  - rewrite IH. by rewrite <- app_assoc.
Qed.

Lemma log_controls_eq vc gb :
  log_controls np_log vc gb
  = (fold_left (fun g c => log_control np_log c g) vc gb,
     map (fun c => "ln_" +:+ c) vc).
Proof. unfold log_controls. by rewrite log_controls_unfold. Qed.

Lemma ln_control_not_base c : c ∈ controls → ("ln_" +:+ c) ∉ base_columns.
Proof.
  unfold controls, base_columns. intros Hc.
  repeat (apply elem_of_cons in Hc as [-> | Hc]); [| | | by apply elem_of_nil in Hc];
    intros H; repeat (apply elem_of_cons in H as [H | H]; [discriminate H |]);
    by apply elem_of_nil in H.
Qed.

Lemma fold_log_control_rows etr_min etr_max vc gb :
  Forall (fun c => c ∈ controls) vc →
  Forall (analysis_row np_log etr_min etr_max) (rows gb) →
  Forall (analysis_row np_log etr_min etr_max)
         (rows (fold_left (fun g c => log_control np_log c g) vc gb)).
Proof.
  intros Hvc. revert gb. induction Hvc as [| c vc Hc _ IH]; intros gb H; simpl.
  - exact H.
  - apply IH. apply log_control_rows; [by apply ln_control_not_base | exact H].
Qed.

Lemma filter_controls_sub (p : string -> bool) :
  Forall (fun c => c ∈ controls) (List.filter p controls).
Proof.
  apply List.Forall_forall. intros c Hc. apply filter_In in Hc as [Hc _].
  by apply list_elem_of_In.
Qed.

End RowInvariant.

(** ** Running the baseline builders *)

Section BuilderRuns.
Variable np_log : float -> float.
Variable parse_float : string -> float.

Lemma bind_run {A B} (m : M A) (k : A -> M B) df :
  (m ≫= k) df = match m df with
                | (df', Ok a) => k a df'
                | (df', Raise e) => (df', Raise e)
                end.
Proof. reflexivity. Qed.

Lemma has_column_coerced c df c' :
  has_column df c' = true → has_column (coerced parse_float c df) c' = true.
Proof. apply has_column_assign. Qed.

Lemma columns_coerced c df :
  has_column df c = true → columns (coerced parse_float c df) = columns df.
Proof. apply columns_assign_present. Qed.

Lemma has_column_coerced_all cs df c' :
  has_column df c' = true → has_column (coerced_all parse_float cs df) c' = true.
Proof.
  revert df. induction cs as [| c cs IH]; intros df H; simpl; [done |].
  apply IH. by apply has_column_coerced.
Qed.

Lemma for_each_coerce_ok cs df :
  Forall (fun c => has_column df c = true) cs →
  for_each cs (coerce_column parse_float) df = (coerced_all parse_float cs df, Ok tt).
Proof.
  revert df. induction cs as [| c cs IH]; intros df H; simpl; [done |].
  apply Forall_cons in H as [Hc Hcs].
  rewrite bind_run. unfold coerce_column at 1. rewrite Hc.
  apply IH. eapply Forall_impl; [exact Hcs |]. intros c'. apply has_column_coerced.
Qed.

Lemma dropna_ok subset df :
  Forall (fun c => has_column df c = true) subset →
  dropna subset df = Ok (mask (complete_on subset) df).
Proof.
  intros H. unfold dropna.
  destruct (List.find _ subset) as [c |] eqn:E; [| done].
  apply find_some in E as [Hin Hc]. rewrite Forall_forall in H.
  apply list_elem_of_In in Hin. rewrite (H c Hin) in Hc. discriminate.
Qed.

Lemma dropna_inv subset df d :
  dropna subset df = Ok d → d = mask (complete_on subset) df.
Proof. unfold dropna. destruct (List.find _ subset); congruence. Qed.

Lemma valid_controls_present df :
  Forall (fun c => has_column df c = true) (List.filter (has_column df) controls).
Proof.
  apply Forall_forall. intros c Hc. apply list_elem_of_In, filter_In in Hc.
  exact (proj2 Hc).
Qed.

(** [Germany.create_global_clean_bases] on a table that has the profit and
    tax columns: the table it leaves, the two bases and the labels. *)
Lemma germany_builder_ok tax_col df :
  has_column df "profit_before_tax" = true →
  has_column df tax_col = true →
  Germany.create_global_clean_bases np_log parse_float tax_col df =
    let df1 := coerced_all parse_float ["profit_before_tax"; tax_col] df in
    let vc := List.filter (has_column df1) controls in
    let df2 := coerced_all parse_float vc df1 in
    (df2,
     Ok (profit_etr_steps np_log Germany.ETR_MIN Germany.ETR_MAX tax_col
           (mask (complete_on ["profit_before_tax"; tax_col]) df1),
         fold_left (fun g c => log_control np_log c g) vc
           (profit_etr_steps np_log Germany.ETR_MIN Germany.ETR_MAX tax_col
              (mask (complete_on (["profit_before_tax"; tax_col] ++ vc)) df2)),
         map (fun c => "ln_" +:+ c) vc)).
Proof.
  intros Hp Ht. unfold Germany.create_global_clean_bases.
  rewrite bind_run, for_each_coerce_ok by (repeat constructor; done).
  set (df1 := coerced_all parse_float ["profit_before_tax"; tax_col] df).
  assert (Hp1 : has_column df1 "profit_before_tax" = true)
    by by apply has_column_coerced_all.
  assert (Ht1 : has_column df1 tax_col = true) by by apply has_column_coerced_all.
  rewrite bind_run. unfold get_frame at 1.
  rewrite bind_run. unfold lift at 1.
  rewrite dropna_ok by (repeat constructor; done).
  rewrite bind_run, for_each_coerce_ok by apply valid_controls_present.
  set (vc := List.filter (has_column df1) controls).
  rewrite bind_run. unfold get_frame at 1.
  rewrite bind_run. unfold lift at 1.
  rewrite dropna_ok.
  - rewrite log_controls_eq. reflexivity.
  - apply Forall_app. split.
    + repeat constructor; by apply has_column_coerced_all.
    + eapply Forall_impl; [apply valid_controls_present |].
      intros c. apply has_column_coerced_all.
Qed.

(** Without the profit column it raises [KeyError] at once; without the tax
    column it raises after the profit column was coerced. *)
Lemma germany_builder_no_profit tax_col df :
  has_column df "profit_before_tax" = false →
  Germany.create_global_clean_bases np_log parse_float tax_col df
  = (df, Raise (KeyError "profit_before_tax")).
Proof.
  intros Hp. unfold Germany.create_global_clean_bases.
  rewrite bind_run. simpl for_each. rewrite bind_run. unfold coerce_column at 1.
  by rewrite Hp.
Qed.

Lemma germany_builder_no_tax tax_col df :
  has_column df "profit_before_tax" = true →
  has_column df tax_col = false →
  Germany.create_global_clean_bases np_log parse_float tax_col df
  = (coerced parse_float "profit_before_tax" df, Raise (KeyError tax_col)).
Proof.
  intros Hp Ht. unfold Germany.create_global_clean_bases.
  rewrite bind_run. simpl for_each. rewrite bind_run. unfold coerce_column at 1.
  rewrite Hp. rewrite bind_run. unfold coerce_column at 1.
  destruct (has_column (coerced parse_float "profit_before_tax" df) tax_col) eqn:Ht';
    [| done].
  apply has_column_true in Ht'. rewrite columns_coerced in Ht' by done.
  apply has_column_true in Ht'. congruence.
Qed.

Lemma germany_builder_raises tax_col df :
  has_column df "profit_before_tax" && has_column df tax_col = false →
  ∃ df' k, Germany.create_global_clean_bases np_log parse_float tax_col df
           = (df', Raise (KeyError k)).
Proof.
  intros H. destruct (has_column df "profit_before_tax") eqn:Hp.
  - do 2 eexists. by apply germany_builder_no_tax.
  - do 2 eexists. by apply germany_builder_no_profit.
Qed.

Lemma germany_builder_inv tax_col df df' out :
  Germany.create_global_clean_bases np_log parse_float tax_col df = (df', Ok out) →
  has_column df "profit_before_tax" = true ∧ has_column df tax_col = true.
Proof.
  intros H.
  destruct (has_column df "profit_before_tax" && has_column df tax_col) eqn:E.
  - by apply andb_true_iff in E.
  - destruct (germany_builder_raises tax_col df E) as (d & k & Hr). congruence.
Qed.

Lemma columns_coerced_all cs df :
  Forall (fun c => has_column df c = true) cs →
  columns (coerced_all parse_float cs df) = columns df.
Proof.
  revert df. induction cs as [| c cs IH]; intros df H; simpl; [done |].
  apply Forall_cons in H as [Hc Hcs]. rewrite IH.
  - by apply columns_coerced.
  - eapply Forall_impl; [exact Hcs |]. intros c'. apply has_column_coerced.
Qed.

Lemma columns_coerced_present cs df :
  columns (ItalyBaseline.coerced_present parse_float cs df) = columns df.
Proof.
  revert df. induction cs as [| c cs IH]; intros df; simpl; [done |].
  rewrite IH. destruct (has_column df c) eqn:E; [by apply columns_coerced | done].
Qed.

Lemma for_each_coerce_if_present cs df :
  for_each cs (ItalyBaseline.coerce_if_present parse_float) df
  = (ItalyBaseline.coerced_present parse_float cs df, Ok tt).
Proof.
  revert df. induction cs as [| c cs IH]; intros df; simpl; [done |].
  rewrite bind_run. unfold ItalyBaseline.coerce_if_present at 1, coerce_column.
  destruct (has_column df c); apply IH.
Qed.

(** [ItalyBaseline.create_global_clean_bases]: the table it leaves, and the
    bases when neither [dropna] raises. *)
Lemma italy_builder_run tax_col df :
  ItalyBaseline.create_global_clean_bases np_log parse_float tax_col df =
    let df1 := ItalyBaseline.coerced_present parse_float ["profit_before_tax"; tax_col] df in
    let vc := List.filter (has_column df1) controls in
    let df2 := coerced_all parse_float vc df1 in
    (df2,
     match dropna ["profit_before_tax"; tax_col] df2 with
     | Raise e => Raise e
     | Ok g1 =>
         match dropna (["profit_before_tax"; tax_col] ++ vc) df2 with
         | Raise e => Raise e
         | Ok g2 =>
             Ok (profit_etr_steps np_log ItalyBaseline.ETR_MIN ItalyBaseline.ETR_MAX
                   tax_col g1,
                 fold_left (fun g c => log_control np_log c g) vc
                   (profit_etr_steps np_log ItalyBaseline.ETR_MIN ItalyBaseline.ETR_MAX
                      tax_col g2),
                 map (fun c => "ln_" +:+ c) vc)
         end
     end).
Proof.
  unfold ItalyBaseline.create_global_clean_bases.
  rewrite bind_run, for_each_coerce_if_present.
  set (df1 := ItalyBaseline.coerced_present parse_float _ df).
  rewrite bind_run. unfold get_frame at 1.
  rewrite bind_run, for_each_coerce_ok by apply valid_controls_present.
  set (vc := List.filter (has_column df1) controls).
  rewrite bind_run. unfold get_frame at 1.
  rewrite bind_run. unfold lift at 1. cbv zeta.
  destruct (dropna ["profit_before_tax"; tax_col] _) as [g1 | e]; [| done].
  rewrite bind_run. unfold lift at 1.
  destruct (dropna (["profit_before_tax"; tax_col] ++ vc) _) as [g2 | e]; [| done].
  by rewrite log_controls_eq.
Qed.

End BuilderRuns.

(** ** The row invariant of the other two scripts *)

Section OtherBases.
Variable np_log : float -> float.

Lemma Forall_rows_mask_keep (P : Row -> Prop) p df :
  Forall P (rows df) → Forall P (rows (mask p df)).
Proof.
  intros H. eapply Forall_impl; [apply (Forall_rows_mask P p df H) |].
  by intros r [Hr _].
Qed.

(** A step that returned did what it does on numbers. *)
Lemma assign_quotient_inv name num den d d' :
  assign_quotient name num den d = Ok d' →
  d' = assign name (fun r => Num (fnum r num / fnum r den)) d
  ∧ holds_text num d = false ∧ holds_text den d = false.
Proof.
  unfold assign_quotient.
  destruct (holds_text num d); [discriminate |].
  destruct (holds_text den d); [discriminate |].
  by intros [= <-].
Qed.

Lemma positive_rows_inv c d d' :
  positive_rows c d = Ok d' →
  d' = mask (fun r => 0 <? fnum r c) d ∧ holds_text c d = false.
Proof.
  unfold positive_rows. destruct (holds_text c d); [discriminate |].
  by intros [= <-].
Qed.

Lemma positive_in_turn_inv cs d d' :
  ItalyComprehensive.positive_in_turn cs d = Ok d' →
  d' = fold_left (fun data c => mask (fun r => 0 <? fnum r c) data) cs d.
Proof.
  revert d. induction cs as [| c cs IH]; intros d; cbn [ItalyComprehensive.positive_in_turn].
  - by intros [= <-].
  - destruct (positive_rows c d) as [d1 |] eqn:E; [| discriminate].
    apply positive_rows_inv in E as [-> _]. apply IH.
Qed.

Lemma base1_steps_inv tax_col d b :
  AnalysisScript.base1_steps np_log tax_col d = Ok b →
  b = base1_table np_log tax_col d
  ∧ holds_text tax_col d = false ∧ holds_text "profit_before_tax" d = false.
Proof.
  unfold AnalysisScript.base1_steps.
  destruct (assign_quotient _ _ _ d) as [d1 |] eqn:E; [| discriminate].
  apply assign_quotient_inv in E as (-> & H1 & H2). by intros [= <-].
Qed.

Lemma select_controls_inv cs b vc :
  AnalysisScript.select_controls cs b = Ok vc →
  vc = List.filter (fun ctrl => has_column b ctrl
                                && (5 <? AnalysisScript.count_positive ctrl b)%nat) cs.
Proof.
  revert vc. induction cs as [| c cs IH]; intros vc;
    cbn [AnalysisScript.select_controls List.filter].
  - by intros [= <-].
  - destruct (has_column b c); cbn [andb]; [| apply IH].
    destruct (holds_text c b); [discriminate |].
    destruct (AnalysisScript.select_controls cs b) as [vc' |]; [| discriminate].
    intros [= <-]. rewrite (IH vc' eq_refl). by destruct (5 <? _)%nat.
Qed.

Lemma filters_and_logs_inv tax_col d d' :
  ItalyComprehensive.filters_and_logs np_log tax_col d = Ok d' →
  d' = final_table np_log tax_col d.
Proof.
  unfold ItalyComprehensive.filters_and_logs.
  destruct (positive_rows "profit_before_tax" d) as [d1 |] eqn:E1; [| discriminate].
  apply positive_rows_inv in E1 as [-> _].
  destruct (assign_quotient _ _ _ _) as [d2 |] eqn:E2; [| discriminate].
  apply assign_quotient_inv in E2 as (-> & _ & _). cbv zeta.
  destruct (ItalyComprehensive.positive_in_turn _ _) as [d3 |] eqn:E3; [| discriminate].
  apply positive_in_turn_inv in E3 as ->. by intros [= <-].
Qed.

(** What [prepare_data_and_analyze] returned, read back from its result. *)
Lemma comprehensive_prepare_inv
    (rng : Type) (RandomState : Z -> rng)
    (impute : float -> nat -> rng -> list (list float) -> list (list float))
    (global_rng : rng) df tax_col method data msg :
  ItalyComprehensive.prepare_data_and_analyze np_log rng RandomState impute
    global_rng df tax_col method = Ok (Some data, msg) →
  ∃ cand d,
    ItalyComprehensive.candidate_table df tax_col = Ok cand
    ∧ ItalyComprehensive.resolve_missing rng RandomState impute global_rng
        tax_col method cand = Ok (Some d)
    ∧ ItalyComprehensive.filters_and_logs np_log tax_col d = Ok data
    ∧ data = final_table np_log tax_col d
    ∧ msg = "".
Proof.
  unfold ItalyComprehensive.prepare_data_and_analyze.
  destruct (ItalyComprehensive.candidate_table df tax_col) as [cand |]; [| discriminate].
  destruct (ItalyComprehensive.resolve_missing _ _ _ _ _ _ _) as [[d |] |] eqn:Er;
    try discriminate.
  destruct (ItalyComprehensive.filters_and_logs np_log tax_col d) as [d' |] eqn:E;
    [| discriminate].
  intros [= <- <-]. exists cand, d.
  split; [done |]. split; [exact Er |]. split; [exact E |].
  split; [by apply filters_and_logs_inv | done].
Qed.

Lemma analysis_base1_rows tax_col d :
  Forall (analysis_row np_log 0 0.5) (rows (base1_table np_log tax_col d)).
Proof.
  apply List.Forall_forall. intros r5 H5. unfold base1_table in H5.
  apply in_rows_assign in H5 as (r4 & -> & H4).
  apply in_rows_assign in H4 as (r3 & -> & H3).
  apply in_rows_mask in H3 as [H3 Hm].
  apply in_rows_assign in H3 as (r1 & -> & _).
  set (e := fnum r1 tax_col / fnum r1 "profit_before_tax") in *.
  rewrite fnum_insert_eq, (fnum_insert_ne "ETR") in Hm by done.
  apply andb_true_iff in Hm as [Hm Hhi]. apply andb_true_iff in Hm as [Hpos Hlo].
  unfold analysis_row.
  rewrite !(fnum_insert_ne "ETR_sq"), !(fnum_insert_ne "ln_profits") by done.
  rewrite fnum_insert_eq, (fnum_insert_ne "ETR") by done.
  rewrite lookup_insert_eq, lookup_insert_ne, lookup_insert_eq by done.
  done.
Qed.

(** What [prepare_datasets] returned, read back from its result. *)
Lemma analysis_prepare_inv df tax_col base1 base2 valid_controls :
  AnalysisScript.prepare_datasets np_log df tax_col
    = Ok (Some (base1, base2, valid_controls)) →
  has_column df tax_col = true
  ∧ has_column df "profit_before_tax" = true
  ∧ base1 = base1_table np_log tax_col
              (mask (complete_on ["profit_before_tax"; tax_col]) df)
  ∧ valid_controls
    = List.filter (fun ctrl => has_column base1 ctrl
                               && (5 <? AnalysisScript.count_positive ctrl base1)%nat)
        controls
  ∧ base2 = fold_left (fun g c => log_control np_log c g) valid_controls
              (mask (complete_on valid_controls) base1).
Proof.
  unfold AnalysisScript.prepare_datasets.
  destruct (has_column df tax_col) eqn:Ht; [| discriminate]. simpl negb. cbv iota.
  destruct (dropna ["profit_before_tax"; tax_col] df) as [d |] eqn:E1; [| discriminate].
  destruct (AnalysisScript.base1_steps np_log tax_col d) as [b |] eqn:Eb; [| discriminate].
  apply base1_steps_inv in Eb as (-> & _ & _). cbv zeta.
  destruct (AnalysisScript.select_controls controls _) as [vc |] eqn:Es; [| discriminate].
  apply select_controls_inv in Es as ->.
  match goal with |- context [dropna ?cs ?b] => destruct (dropna cs b) as [d2 |] eqn:E2 end;
    [| discriminate].
  intros [= <- <- <-].
  apply dropna_inv in E2 as ->.
  assert (Hp : has_column df "profit_before_tax" = true).
  { unfold dropna in E1. simpl List.find in E1.
    destruct (has_column df "profit_before_tax"); [done | discriminate]. }
  apply dropna_inv in E1 as ->. done.
Qed.

Lemma analysis_prepare_rows df tax_col base1 base2 valid_controls :
  AnalysisScript.prepare_datasets np_log df tax_col
    = Ok (Some (base1, base2, valid_controls)) →
  Forall (analysis_row np_log 0 0.5) (rows base1)
  ∧ Forall (analysis_row np_log 0 0.5) (rows base2).
Proof.
  intros H. apply analysis_prepare_inv in H as (_ & _ & -> & Hvc & ->).
  split; [apply analysis_base1_rows |].
  apply fold_log_control_rows; [rewrite Hvc; apply filter_controls_sub |].
  apply Forall_rows_mask_keep, analysis_base1_rows.
Qed.

Lemma comprehensive_filters_rows tax_col data :
  Forall (analysis_row np_log ItalyComprehensive.ETR_MIN ItalyComprehensive.ETR_MAX)
         (rows (final_table np_log tax_col data)).
Proof.
  apply List.Forall_forall. intros r9 H9.
  unfold final_table, controls in H9. simpl fold_left in H9.
  apply in_rows_assign in H9 as (r8 & -> & H8).
  apply in_rows_assign in H8 as (r7 & -> & H7).
  apply in_rows_assign in H7 as (r6 & -> & H6).
  apply in_rows_assign in H6 as (r5 & -> & H5).
  apply in_rows_assign in H5 as (r4 & -> & H4).
  do 4 (apply in_rows_mask in H4 as [H4 _]).
  apply in_rows_mask in H4 as [H4 Hwin].
  apply in_rows_assign in H4 as (r1 & -> & H1).
  apply in_rows_mask in H1 as [_ Hpos].
  set (e := fnum r1 tax_col / fnum r1 "profit_before_tax") in *.
  rewrite fnum_insert_eq in Hwin. apply andb_true_iff in Hwin as [Hlo Hhi].
  unfold analysis_row. simpl "+:+".
  rewrite !(fnum_insert_ne "ETR_sq"), !(fnum_insert_ne "ln_related_revenues"),
    !(fnum_insert_ne "ln_tangible_assets"), !(fnum_insert_ne "ln_employees"),
    !(fnum_insert_ne "ln_profits") by done.
  rewrite fnum_insert_eq, (fnum_insert_ne "ETR") by done.
  rewrite lookup_insert_eq. rewrite (lookup_insert_ne _ "ETR_sq") by done.
  rewrite !(lookup_insert_ne _ _ "ln_profits") by done.
  rewrite lookup_insert_eq.
  done.
Qed.

End OtherBases.

(** ** Invariants of the analysis bases *)

(** C4: every row of every base the four builders construct (Base 1 and
    Base 2 of the two baseline studies and of the analysis script, and the
    table of the comprehensive study under any method) has a positive profit,
    an [ETR] inside the script's window, [ETR_sq] equal to [ETR * ETR] and
    [ln_profits] equal to [np.log] of the profit; the baseline builders do
    return their bases on a table that has the profit and tax columns. *)
Theorem analysis_bases_row_invariant
    (np_log : float -> float) (parse_float : string -> float)
    (rng : Type) (RandomState : Z -> rng)
    (impute : float -> nat -> rng -> list (list float) -> list (list float)) :
  (∀ tax_col df,
     has_column df "profit_before_tax" = true → has_column df tax_col = true →
     ∃ df' out, Germany.create_global_clean_bases np_log parse_float tax_col df
                = (df', Ok out))
  ∧ (∀ tax_col df df' gb1 gb2 logged_controls,
       Germany.create_global_clean_bases np_log parse_float tax_col df
         = (df', Ok (gb1, gb2, logged_controls)) →
       Forall (analysis_row np_log 0 0.5) (rows gb1)
       ∧ Forall (analysis_row np_log 0 0.5) (rows gb2))
  ∧ (∀ tax_col df df' gb1 gb2 logged_controls,
       ItalyBaseline.create_global_clean_bases np_log parse_float tax_col df
         = (df', Ok (gb1, gb2, logged_controls)) →
       Forall (analysis_row np_log 0 1) (rows gb1)
       ∧ Forall (analysis_row np_log 0 1) (rows gb2))
  ∧ (∀ tax_col df base1 base2 valid_controls,
       AnalysisScript.prepare_datasets np_log df tax_col
         = Ok (Some (base1, base2, valid_controls)) →
       Forall (analysis_row np_log 0 0.5) (rows base1)
       ∧ Forall (analysis_row np_log 0 0.5) (rows base2))
  ∧ (∀ global_rng tax_col method df data msg,
       ItalyComprehensive.prepare_data_and_analyze np_log rng RandomState impute
         global_rng df tax_col method = Ok (Some data, msg) →
       Forall (analysis_row np_log 0 0.5) (rows data)).
Proof.
  split; [| split; [| split; [| split]]].
  - intros tax_col df Hp Ht. rewrite (germany_builder_ok _ _ _ _ Hp Ht). eauto.
  - intros tax_col df df' gb1 gb2 lc H.
    destruct (germany_builder_inv _ _ _ _ _ _ H) as [Hp Ht].
    rewrite (germany_builder_ok _ _ _ _ Hp Ht) in H. cbv zeta in H.
    injection H as _ <- <- _. split.
    + apply profit_etr_steps_rows.
    + apply fold_log_control_rows; [apply filter_controls_sub |].
      apply profit_etr_steps_rows.
  - intros tax_col df df' gb1 gb2 lc H.
    rewrite italy_builder_run in H. cbv zeta in H.
    destruct (dropna ["profit_before_tax"; tax_col] _) as [g1 |]; [| discriminate].
    destruct (dropna _ _) as [g2 |]; [| discriminate].
    injection H as _ <- <- _. split.
    + apply profit_etr_steps_rows.
    + apply fold_log_control_rows; [apply filter_controls_sub |].
      apply profit_etr_steps_rows.
  - intros tax_col df base1 base2 vc H. by eapply analysis_prepare_rows.
  - intros g tax_col method df data msg H.
    apply comprehensive_prepare_inv in H as (cand & d & _ & _ & _ & -> & _).
    apply comprehensive_filters_rows.
Qed.

(** The sample table gives two rows in Base 1 and one in Base 2, and the
    invariant holds on them. *)
Lemma analysis_bases_row_invariant_witness :
  ∃ df' gb1 gb2 logged_controls,
    Germany.create_global_clean_bases sample_log no_number "tax_accrued" sample_table
      = (df', Ok (gb1, gb2, logged_controls))
    ∧ len gb1 = 2%nat ∧ len gb2 = 1%nat
    ∧ Forall (analysis_row sample_log 0 0.5) (rows gb1)
    ∧ Forall (analysis_row sample_log 0 0.5) (rows gb2).
Proof.
  set (run := Germany.create_global_clean_bases sample_log no_number "tax_accrued"
                sample_table).
  set (out := value_or (empty_frame, empty_frame, []) run.2).
  assert (E : run = (run.1, Ok (out.1.1, out.1.2, out.2)))
    by (vm_compute; reflexivity).
  exists run.1, out.1.1, out.1.2, out.2.
  split; [exact E |].
  split; [vm_compute; reflexivity |]. split; [vm_compute; reflexivity |].
  exact (proj1 (proj2 (analysis_bases_row_invariant sample_log no_number
                         unit (fun _ => tt) (fun _ _ _ m => m)))
           _ _ _ _ _ _ E).
Defined.

(** ** Comparisons of binary64 values *)

Lemma SFcompare_key f1 f2 k1 k2 :
  sf_key f1 = Some k1 → sf_key f2 = Some k2 →
  ∃ c, SFcompare f1 f2 = Some c
       ∧ (c = Lt ↔ key_lt k1 k2) ∧ (c = Gt ↔ key_lt k2 k1).
Proof.
  unfold key_lt.
  destruct f1 as [s1 | s1 | | s1 m1 e1], f2 as [s2 | s2 | | s2 m2 e2];
    try destruct s1; try destruct s2; simpl; try done;
    intros [= <-] [= <-]; simpl;
    try (eexists; split; [reflexivity |]; split; split; (done || lia)).
  - destruct (Z.compare_spec e1 e2) as [-> | He | He].
    + change (Pos.compare_cont Eq m1 m2) with (Pos.compare m1 m2).
      destruct (Pos.compare_spec m1 m2) as [-> | Hm | Hm]; simpl;
        eexists; (split; [reflexivity |]); split; split; (done || lia).
    + eexists; (split; [reflexivity |]); split; split; (done || lia).
    + eexists; (split; [reflexivity |]); split; split; (done || lia).
  - destruct (Z.compare_spec e1 e2) as [-> | He | He].
    + change (Pos.compare_cont Eq m1 m2) with (Pos.compare m1 m2).
      destruct (Pos.compare_spec m1 m2) as [-> | Hm | Hm]; simpl;
        eexists; (split; [reflexivity |]); split; split; (done || lia).
    + eexists; (split; [reflexivity |]); split; split; (done || lia).
    + eexists; (split; [reflexivity |]); split; split; (done || lia).
Qed.

Lemma SFcompare_nan f1 f2 :
  sf_key f1 = None ∨ sf_key f2 = None → SFcompare f1 f2 = None.
Proof.
  destruct f1 as [s1 | s1 | | s1 m1 e1], f2 as [s2 | s2 | | s2 m2 e2];
    try destruct s1; try destruct s2; simpl; intros [H | H]; done.
Qed.

Lemma leb_key x y :
  (x <=? y) = true ↔ ∃ k1 k2, fkey x = Some k1 ∧ fkey y = Some k2 ∧ ¬ key_lt k2 k1.
Proof.
  rewrite FloatAxioms.leb_spec. unfold SFleb, fkey.
  destruct (sf_key (Prim2SF x)) as [k1 |] eqn:E1;
    [destruct (sf_key (Prim2SF y)) as [k2 |] eqn:E2 |].
  - destruct (SFcompare_key _ _ _ _ E1 E2) as (c & -> & HLt & HGt).
    split.
    + intros H. exists k1, k2. repeat split; try done.
      intros Hk. apply HGt in Hk as ->. done.
    + intros (k1' & k2' & [= <-] & [= <-] & Hk).
      destruct c; try done. exfalso. apply Hk. by apply HGt.
  - rewrite SFcompare_nan by auto. split; [done |]. by intros (? & ? & ? & ? & ?).
  - rewrite SFcompare_nan by auto. split; [done |]. by intros (? & ? & ? & ? & ?).
Qed.

Lemma ltb_key x y :
  (x <? y) = true ↔ ∃ k1 k2, fkey x = Some k1 ∧ fkey y = Some k2 ∧ key_lt k1 k2.
Proof.
  rewrite FloatAxioms.ltb_spec. unfold SFltb, fkey.
  destruct (sf_key (Prim2SF x)) as [k1 |] eqn:E1;
    [destruct (sf_key (Prim2SF y)) as [k2 |] eqn:E2 |].
  - destruct (SFcompare_key _ _ _ _ E1 E2) as (c & -> & HLt & HGt).
    split.
    + intros H. exists k1, k2. repeat split; try done.
      apply HLt. by destruct c.
    + intros (k1' & k2' & [= <-] & [= <-] & Hk). apply HLt in Hk as ->. done.
  - rewrite SFcompare_nan by auto. split; [done |]. by intros (? & ? & ? & ? & ?).
  - rewrite SFcompare_nan by auto. split; [done |]. by intros (? & ? & ? & ? & ?).
Qed.

Lemma isnan_key x : isnan x = false ↔ is_Some (fkey x).
Proof.
  unfold isnan. rewrite negb_false_iff, FloatAxioms.eqb_spec. unfold SFeqb, fkey.
  destruct (sf_key (Prim2SF x)) as [k |] eqn:E.
  - destruct (SFcompare_key _ _ _ _ E E) as (c & -> & HLt & HGt).
    split; [eauto |]. intros _. destruct c; try done.
    + assert (key_lt k k) as Hk by by apply HLt. unfold key_lt in Hk. lia.
    + assert (key_lt k k) as Hk by by apply HGt. unfold key_lt in Hk. lia.
  - rewrite SFcompare_nan by auto. split; [done |]. by intros [? ?].
Qed.

Lemma leb_trans x y z : (x <=? y) = true → (y <=? z) = true → (x <=? z) = true.
Proof.
  rewrite !leb_key. intros (k1 & k2 & E1 & E2 & H12) (k2' & k3 & E2' & E3 & H23).
  rewrite E2 in E2'. injection E2' as <-. exists k1, k3. repeat split; try done.
  unfold key_lt in *. lia.
Qed.

Lemma ltb_leb x y : (x <? y) = true → (x <=? y) = true.
Proof.
  rewrite leb_key, ltb_key. intros (k1 & k2 & E1 & E2 & H). exists k1, k2.
  repeat split; try done. unfold key_lt in *. lia.
Qed.

Lemma leb_total x y :
  isnan x = false → isnan y = false → (x <? y) = false → (y <=? x) = true.
Proof.
  rewrite !isnan_key. intros [k1 E1] [k2 E2] H. apply leb_key.
  exists k2, k1. repeat split; try done. intros Hk.
  assert ((x <? y) = true) by (apply ltb_key; eauto). congruence.
Qed.

Lemma leb_not_nan x y : (x <=? y) = true → isnan x = false ∧ isnan y = false.
Proof.
  rewrite leb_key, !isnan_key. intros (k1 & k2 & E1 & E2 & _). eauto.
Qed.

Lemma isnan_nan : isnan nan = true.
Proof. reflexivity. Qed.

(** ** Minimum and maximum of a column *)

Lemma fold_min_spec l acc :
  let m := fold_left (fun acc x =>
             if isnan x then acc else if isnan acc then x
             else if x <? acc then x else acc) l acc in
  (m = acc ∨ In m l)
  ∧ (isnan acc = false → (m <=? acc) = true)
  ∧ (∀ x, In x l → isnan x = false → (m <=? x) = true).
Proof.
  revert acc. induction l as [| x l IH]; intros acc; simpl.
  - split; [by left |]. split; [| by intros x []].
    intros H. apply leb_total; try done.
    destruct (acc <? acc) eqn:E; [| done].
    apply ltb_key in E as (k1 & k2 & E1 & E2 & Hk). rewrite E1 in E2.
    injection E2 as <-. unfold key_lt in Hk. lia.
  - set (acc' := if isnan x then acc else if isnan acc then x
                 else if x <? acc then x else acc).
    destruct (IH acc') as (HA & HC & HB). split; [| split].
    + destruct HA as [-> | HA]; [| by right; right].
      unfold acc'. destruct (isnan x); [by left |].
      destruct (isnan acc); [by right; left |].
      destruct (x <? acc); [by right; left | by left].
    + intros Hacc. unfold acc' in *. destruct (isnan x) eqn:Ex; [by apply HC |].
      rewrite Hacc in *. destruct (x <? acc) eqn:Elt; [| by apply HC].
      eapply leb_trans; [by apply HC | by apply ltb_leb].
    + intros y [<- | Hy] Hnan; [| by apply HB].
      unfold acc' in *. rewrite Hnan in *.
      destruct (isnan acc) eqn:Eacc; [by apply HC |].
      destruct (x <? acc) eqn:Elt; [by apply HC |].
      eapply leb_trans; [by apply HC | by apply leb_total].
Qed.

Lemma fold_max_spec l acc :
  let m := fold_left (fun acc x =>
             if isnan x then acc else if isnan acc then x
             else if acc <? x then x else acc) l acc in
  (m = acc ∨ In m l)
  ∧ (isnan acc = false → (acc <=? m) = true)
  ∧ (∀ x, In x l → isnan x = false → (x <=? m) = true).
Proof.
  revert acc. induction l as [| x l IH]; intros acc; simpl.
  - split; [by left |]. split; [| by intros x []].
    intros H. apply leb_total; try done.
    destruct (acc <? acc) eqn:E; [| done].
    apply ltb_key in E as (k1 & k2 & E1 & E2 & Hk). rewrite E1 in E2.
    injection E2 as <-. unfold key_lt in Hk. lia.
  - set (acc' := if isnan x then acc else if isnan acc then x
                 else if acc <? x then x else acc).
    destruct (IH acc') as (HA & HC & HB). split; [| split].
    + destruct HA as [-> | HA]; [| by right; right].
      unfold acc'. destruct (isnan x); [by left |].
      destruct (isnan acc); [by right; left |].
      destruct (acc <? x); [by right; left | by left].
    + intros Hacc. unfold acc' in *. destruct (isnan x) eqn:Ex; [by apply HC |].
      rewrite Hacc in *. destruct (acc <? x) eqn:Elt; [| by apply HC].
      apply (leb_trans _ x); [by apply ltb_leb | by apply HC].
    + intros y [<- | Hy] Hnan; [| by apply HB].
      unfold acc' in *. rewrite Hnan in *.
      destruct (isnan acc) eqn:Eacc; [by apply HC |].
      destruct (acc <? x) eqn:Elt; [by apply HC |].
      apply (leb_trans _ acc); [by apply leb_total | by apply HC].
Qed.

(** The minimum is at most [tp] exactly when some observed value is. *)
Lemma series_min_leb l tp :
  (series_min l <=? tp) = true ↔ ∃ x, In x l ∧ (x <=? tp) = true.
Proof.
  unfold series_min. destruct (fold_min_spec l nan) as (HA & _ & HB). split.
  - intros H. destruct HA as [E | Hin]; [| eauto].
    rewrite E in H. apply leb_not_nan in H as [H _]. by rewrite isnan_nan in H.
  - intros (x & Hin & Hx). eapply leb_trans; [| exact Hx].
    apply HB; [done |]. by apply leb_not_nan in Hx as [? _].
Qed.

(** The maximum is at least [tp] exactly when some observed value is. *)
Lemma series_max_leb l tp :
  (tp <=? series_max l) = true ↔ ∃ x, In x l ∧ (tp <=? x) = true.
Proof.
  unfold series_max. destruct (fold_max_spec l nan) as (HA & _ & HB). split.
  - intros H. destruct HA as [E | Hin]; [| eauto].
    rewrite E in H. apply leb_not_nan in H as [_ H]. by rewrite isnan_nan in H.
  - intros (x & Hin & Hx). eapply leb_trans; [exact Hx |].
    apply HB; [done |]. by apply leb_not_nan in Hx as [_ ?].
Qed.

(** ** Turning point, shape and validity flag *)

Lemma ltb_zero_asym x : (0 <? x) = true → (x <? 0) = false.
Proof.
  rewrite !FloatAxioms.ltb_spec. unfold SFltb.
  replace (Prim2SF 0) with (S754_zero false) by reflexivity.
  destruct (Prim2SF x) as [s | s | | s m e]; simpl; try done.
  - destruct s; done.
  - destruct s; done.
Qed.

Lemma eqb_zero_not_ltb x : (x =? 0) = true → (x <? 0) = false.
Proof.
  rewrite FloatAxioms.ltb_spec, FloatAxioms.eqb_spec. unfold SFltb, SFeqb.
  replace (Prim2SF 0) with (S754_zero false) by reflexivity.
  destruct (Prim2SF x) as [s | s | | s m e]; simpl; try done.
  - destruct s; done.
  - destruct s; done.
Qed.


Section Reports.
Variable ols_fit : string -> DataFrame -> res OLSResults.
Variables (df : DataFrame) (formula title : string) (model : OLSResults).
Variables b1 b2 : float.
Hypothesis fitted : ols_fit formula df = Ok model.
Hypothesis coef_ETR : params model !! "ETR" = Some b1.
Hypothesis coef_ETR_sq : params model !! "ETR_sq" = Some b2.

Lemma germany_run_regression_fitted :
  has_column df "ETR" = true →
  Germany.run_regression ols_fit df formula title
  = [Title title; Summary (summary model);
     UTest b2 (turning_point b1 b2)
       (in_range (series_min (column_values "ETR" df)) (turning_point b1 b2)
                 (series_max (column_values "ETR" df)))].
Proof.
  intros H. unfold Germany.run_regression.
  by rewrite fitted, coef_ETR_sq, coef_ETR, H.
Qed.

Lemma italy_run_regression_fitted :
  (len df <? 5)%nat = false →
  has_column df "ETR" = true →
  ItalyBaseline.run_regression ols_fit df formula title
  = [Title title; Summary (summary model);
     UTestResults b1 b2 (turning_point b1 b2)
       (series_min (column_values "ETR" df)) (series_max (column_values "ETR" df))
       (in_range (series_min (column_values "ETR" df)) (turning_point b1 b2)
                 (series_max (column_values "ETR" df)))].
Proof.
  intros Hn H. unfold ItalyBaseline.run_regression.
  by rewrite Hn, fitted, coef_ETR_sq, coef_ETR, H.
Qed.

Lemma analysis_run_regression_fitted :
  (len df <? 5)%nat = false →
  AnalysisScript.run_regression ols_fit df formula title
  = [Title title; Summary (summary model);
     UTestShape (if b2 <? 0 then "Inverted U" else "U-Shape") (turning_point b1 b2)].
Proof.
  intros Hn. unfold AnalysisScript.run_regression.
  by rewrite Hn, fitted, coef_ETR_sq, coef_ETR.
Qed.

End Reports.

(** C1: for every fitted quadratic result with coefficients [b1] for [ETR]
    and [b2] for [ETR_sq], the turning point the three [run_regression]
    variants report is [-b1 / (2*b2)] when [b2 != 0] and [0] when [b2 == 0],
    where no division takes place. *)
Theorem turning_point_reported
    (ols_fit : string -> DataFrame -> res OLSResults)
    (df : DataFrame) (formula title : string) (model : OLSResults) (b1 b2 : float) :
  ols_fit formula df = Ok model →
  params model !! "ETR" = Some b1 →
  params model !! "ETR_sq" = Some b2 →
  ∃ tp,
    ((b2 =? 0) = false → tp = - b1 / (2 * b2))
    ∧ ((b2 =? 0) = true → tp = 0)
    ∧ (has_column df "ETR" = true →
       ∃ flag, Germany.run_regression ols_fit df formula title
               = [Title title; Summary (summary model); UTest b2 tp flag])
    ∧ ((len df <? 5)%nat = false →
       ∃ shape, AnalysisScript.run_regression ols_fit df formula title
                = [Title title; Summary (summary model); UTestShape shape tp])
    ∧ ((len df <? 5)%nat = false → has_column df "ETR" = true →
       ∃ lo hi flag, ItalyBaseline.run_regression ols_fit df formula title
                     = [Title title; Summary (summary model);
                        UTestResults b1 b2 tp lo hi flag]).
Proof.
  intros Hfit H1 H2. exists (turning_point b1 b2).
  split; [| split; [| split; [| split]]].
  - intros E. unfold turning_point. by rewrite E.
  - intros E. unfold turning_point. by rewrite E.
  - intros Hc. eexists. by eapply germany_run_regression_fitted.
  - intros Hn. eexists. by eapply analysis_run_regression_fitted.
  - intros Hn Hc. do 3 eexists. by eapply italy_run_regression_fitted.
Qed.

(** With [b1 = 1] and [b2 = 0] the reported turning point is [0]. *)
Lemma turning_point_reported_witness :
  ∃ tp,
    ((0 =? 0) = false → tp = - 1 / (2 * 0))
    ∧ ((0 =? 0) = true → tp = 0)
    ∧ (has_column wide_base "ETR" = true →
       ∃ flag, Germany.run_regression (sample_fit 1 0) wide_base
                 "ln_profits ~ ETR + ETR_sq" "DE Accrued B1 Non-Linear"
               = [Title "DE Accrued B1 Non-Linear"; Summary "OLS Regression Results";
                  UTest 0 tp flag])
    ∧ ((len wide_base <? 5)%nat = false →
       ∃ shape, AnalysisScript.run_regression (sample_fit 1 0) wide_base
                  "ln_profits ~ ETR + ETR_sq" "DE Accrued B1 Non-Linear"
                = [Title "DE Accrued B1 Non-Linear"; Summary "OLS Regression Results";
                   UTestShape shape tp])
    ∧ ((len wide_base <? 5)%nat = false → has_column wide_base "ETR" = true →
       ∃ lo hi flag, ItalyBaseline.run_regression (sample_fit 1 0) wide_base
                       "ln_profits ~ ETR + ETR_sq" "DE Accrued B1 Non-Linear"
                     = [Title "DE Accrued B1 Non-Linear";
                        Summary "OLS Regression Results";
                        UTestResults 1 0 tp lo hi flag]).
Proof.
  apply (turning_point_reported (sample_fit 1 0) wide_base
           "ln_profits ~ ETR + ETR_sq" "DE Accrued B1 Non-Linear"
           {| params := <["Intercept" := 1]> (<["ETR" := 1]> (<["ETR_sq" := 0]> ∅));
              summary := "OLS Regression Results" |} 1 0);
    vm_compute; reflexivity.
Defined.

(** C2, as stated, fails: with [b2 = 0] the analyzer reports the shape
    [U-Shape]; no variant has a [degenerate] shape. *)
Lemma shape_degenerate_counterexample :
  AnalysisScript.run_regression (sample_fit 1 0) wide_base
    "ln_profits ~ ETR + ETR_sq" "Accrued M2"
  = [Title "Accrued M2"; Summary "OLS Regression Results"; UTestShape "U-Shape" 0]
  ∧ "U-Shape" ≠ "degenerate".
Proof. split; [vm_compute; reflexivity | discriminate]. Qed.

(** C2, amended: the analyzer reports [Inverted U] when [b2 < 0] and
    [U-Shape] in every other case: when [b2 > 0], and also when [b2 == 0],
    where the turning point is [0]; it never reports a third shape. *)
Theorem shape_reported
    (ols_fit : string -> DataFrame -> res OLSResults)
    (df : DataFrame) (formula title : string) (model : OLSResults) (b1 b2 : float) :
  ols_fit formula df = Ok model →
  params model !! "ETR" = Some b1 →
  params model !! "ETR_sq" = Some b2 →
  (len df <? 5)%nat = false →
  ∃ shape,
    AnalysisScript.run_regression ols_fit df formula title
      = [Title title; Summary (summary model); UTestShape shape (turning_point b1 b2)]
    ∧ ((b2 <? 0) = true → shape = "Inverted U")
    ∧ ((b2 <? 0) = false → shape = "U-Shape")
    ∧ ((0 <? b2) = true → shape = "U-Shape")
    ∧ ((b2 =? 0) = true → shape = "U-Shape" ∧ turning_point b1 b2 = 0)
    ∧ (shape = "Inverted U" ∨ shape = "U-Shape").
Proof.
  intros Hfit H1 H2 Hn. exists (if b2 <? 0 then "Inverted U" else "U-Shape").
  split; [by eapply analysis_run_regression_fitted |].
  split; [by intros -> |]. split; [by intros -> |].
  split; [intros H; by rewrite (ltb_zero_asym _ H) |].
  split.
  - intros H. rewrite (eqb_zero_not_ltb _ H). split; [done |].
    unfold turning_point. by rewrite H.
  - destruct (b2 <? 0); [by left | by right].
Qed.

(** The three cases at [b2 = -1], [b2 = 1] and [b2 = 0]. *)
Lemma shape_reported_witness :
  (∃ shape,
     AnalysisScript.run_regression (sample_fit 1 (-1)) wide_base "f" "t"
       = [Title "t"; Summary "OLS Regression Results";
          UTestShape shape (turning_point 1 (-1))]
     ∧ shape = "Inverted U")
  ∧ (∃ shape,
       AnalysisScript.run_regression (sample_fit 1 1) wide_base "f" "t"
         = [Title "t"; Summary "OLS Regression Results";
            UTestShape shape (turning_point 1 1)]
       ∧ shape = "U-Shape")
  ∧ (∃ shape,
       AnalysisScript.run_regression (sample_fit 1 0) wide_base "f" "t"
         = [Title "t"; Summary "OLS Regression Results";
            UTestShape shape (turning_point 1 0)]
       ∧ shape = "U-Shape" ∧ turning_point 1 0 = 0).
Proof.
  split; [| split].
  - destruct (shape_reported (sample_fit 1 (-1)) wide_base "f" "t" _ 1 (-1)
                eq_refl eq_refl eq_refl eq_refl) as (shape & Hrun & Hneg & _).
    exists shape. split; [exact Hrun | by apply Hneg].
  - destruct (shape_reported (sample_fit 1 1) wide_base "f" "t" _ 1 1
                eq_refl eq_refl eq_refl eq_refl) as (shape & Hrun & _ & _ & Hpos & _).
    exists shape. split; [exact Hrun | by apply Hpos].
  - destruct (shape_reported (sample_fit 1 0) wide_base "f" "t" _ 1 0
                eq_refl eq_refl eq_refl eq_refl) as (shape & Hrun & _ & _ & _ & Hz & _).
    exists shape. split; [exact Hrun | by apply Hz].
Defined.

(** C3: for every fitted quadratic result, the flag the Germany and Italy
    baseline [run_regression] report is YES exactly when
    [min(ETR) <= tp <= max(ETR)] over the base, that is exactly when some
    observed rate is at most [tp] and some is at least [tp]; with
    [b1 = -0.4] and [b2 = 0.8] the turning point is [0.25], the flag is YES
    on a base whose rates start at [0.0] and reach [0.25], and NO on a base
    whose rates start at [0.3]. *)
Theorem in_range_flag_reported
    (ols_fit : string -> DataFrame -> res OLSResults)
    (df : DataFrame) (formula title : string) (model : OLSResults) (b1 b2 : float) :
  ols_fit formula df = Ok model →
  params model !! "ETR" = Some b1 →
  params model !! "ETR_sq" = Some b2 →
  has_column df "ETR" = true →
  let etrs := column_values "ETR" df in
  let tp := turning_point b1 b2 in
  ∃ flag,
    Germany.run_regression ols_fit df formula title
      = [Title title; Summary (summary model); UTest b2 tp flag]
    ∧ ((len df <? 5)%nat = false →
       ItalyBaseline.run_regression ols_fit df formula title
       = [Title title; Summary (summary model);
          UTestResults b1 b2 tp (series_min etrs) (series_max etrs) flag])
    ∧ (flag = true ↔ (series_min etrs <=? tp) = true ∧ (tp <=? series_max etrs) = true)
    ∧ (flag = true ↔ (∃ x, In x etrs ∧ (x <=? tp) = true)
                     ∧ (∃ y, In y etrs ∧ (tp <=? y) = true))
    ∧ (b1 = (-0.4) → b2 = 0.8 →
       tp = 0.25
       ∧ (series_min etrs = 0 → (0.25 <=? series_max etrs) = true → flag = true)
       ∧ (series_min etrs = 0.3 → flag = false)).
Proof.
  intros Hfit H1 H2 Hc etrs tp.
  exists (in_range (series_min etrs) tp (series_max etrs)).
  split; [by eapply germany_run_regression_fitted |].
  split; [intros Hn; by eapply italy_run_regression_fitted |].
  assert (Hflag : in_range (series_min etrs) tp (series_max etrs) = true
                  ↔ (series_min etrs <=? tp) = true ∧ (tp <=? series_max etrs) = true)
    by (unfold in_range; apply andb_true_iff).
  split; [exact Hflag |]. split.
  - rewrite Hflag, series_min_leb, series_max_leb. done.
  - intros -> ->. assert (Htp : tp = 0.25) by (vm_compute; reflexivity).
    split; [exact Htp |]. rewrite Htp. unfold in_range. split.
    + intros -> ->. reflexivity.
    + intros ->. reflexivity.
Qed.

(** On the base observed over [[0.0, 0.5)] the flag is YES, on the base
    observed over [[0.3, 0.5)] it is NO. *)
Lemma in_range_flag_reported_witness :
  (∃ flag,
     Germany.run_regression (sample_fit (-0.4) 0.8) wide_base
       "ln_profits ~ ETR + ETR_sq" "DE Accrued B1 Non-Linear"
     = [Title "DE Accrued B1 Non-Linear"; Summary "OLS Regression Results";
        UTest 0.8 0.25 flag]
     ∧ flag = true)
  ∧ (∃ flag,
       Germany.run_regression (sample_fit (-0.4) 0.8) narrow_base
         "ln_profits ~ ETR + ETR_sq" "DE Accrued B1 Non-Linear"
       = [Title "DE Accrued B1 Non-Linear"; Summary "OLS Regression Results";
          UTest 0.8 0.25 flag]
       ∧ flag = false).
Proof.
  split.
  - destruct (in_range_flag_reported (sample_fit (-0.4) 0.8) wide_base
                "ln_profits ~ ETR + ETR_sq" "DE Accrued B1 Non-Linear" _ (-0.4) 0.8
                eq_refl eq_refl eq_refl eq_refl)
      as (flag & Hrun & _ & _ & _ & Hex).
    destruct (Hex eq_refl eq_refl) as (Htp & Hyes & _).
    exists flag. split.
    + rewrite Hrun, Htp. reflexivity.
    + apply Hyes; vm_compute; reflexivity.
  - destruct (in_range_flag_reported (sample_fit (-0.4) 0.8) narrow_base
                "ln_profits ~ ETR + ETR_sq" "DE Accrued B1 Non-Linear" _ (-0.4) 0.8
                eq_refl eq_refl eq_refl eq_refl)
      as (flag & Hrun & _ & _ & _ & Hex).
    destruct (Hex eq_refl eq_refl) as (Htp & _ & Hno).
    exists flag. split.
    + rewrite Hrun, Htp. reflexivity.
    + apply Hno; vm_compute; reflexivity.
Defined.

(** ** When a regression is run *)

Section Gating.
Variable ols_fit : string -> DataFrame -> res OLSResults.

Lemma germany_run_regression_attempted df formula title :
  fit_attempted (Germany.run_regression ols_fit df formula title) = true
  ∧ reports_not_enough (Germany.run_regression ols_fit df formula title) = false.
Proof.
  unfold Germany.run_regression.
  destruct (ols_fit formula df) as [model | e]; [| done].
  destruct (params model !! "ETR_sq"); [| done].
  destruct (params model !! "ETR"); [| done].
  destruct (has_column df "ETR"); done.
Qed.

Lemma italy_run_regression_gate df formula title :
  fit_attempted (ItalyBaseline.run_regression ols_fit df formula title)
    = negb (len df <? 5)%nat
  ∧ reports_not_enough (ItalyBaseline.run_regression ols_fit df formula title)
    = (len df <? 5)%nat.
Proof.
  unfold ItalyBaseline.run_regression.
  destruct (len df <? 5)%nat; [done |].
  destruct (ols_fit formula df) as [model | e]; [| done].
  destruct (params model !! "ETR_sq"); [| done].
  destruct (has_column df "ETR"); done.
Qed.

Lemma analysis_run_regression_gate df formula title :
  fit_attempted (AnalysisScript.run_regression ols_fit df formula title)
    = negb (len df <? 5)%nat
  ∧ reports_not_enough (AnalysisScript.run_regression ols_fit df formula title)
    = (len df <? 5)%nat.
Proof.
  unfold AnalysisScript.run_regression.
  destruct (len df <? 5)%nat; [done |].
  destruct (ols_fit formula df) as [model | e]; [| done].
  destruct (params model !! "ETR_sq"); [| done].
  destruct (params model !! "ETR"); done.
Qed.

Lemma fit_attempted_app out1 out2 :
  fit_attempted (out1 ++ out2) = fit_attempted out1 || fit_attempted out2.
Proof. unfold fit_attempted. apply existsb_app. Qed.

Lemma reports_not_enough_app out1 out2 :
  reports_not_enough (out1 ++ out2) = reports_not_enough out1 || reports_not_enough out2.
Proof. unfold reports_not_enough. apply existsb_app. Qed.

End Gating.

(** C5, as stated, fails for the country-level threshold of ten: on a table
    of ten complete German firms both country bases have ten rows, no
    regression is run and the report says nothing about it. *)
Lemma min_observations_counterexample :
  ∃ df' sheets,
    Germany.process_tax sample_log no_number (sample_fit 1 1)
      "tax_accrued" "Accrued" "*** Germany ACCRUED TAX ***" ten_firms
    = (df', Ok (sheets, [Title "*** Germany ACCRUED TAX ***"],
                ["Not enough data for DE Accrued Base 2"]))
    ∧ sheet_sizes sheets
      = [("Global_Accrued_BASE_1", 10%nat); ("Global_Accrued_BASE_2", 10%nat);
         ("DE_Accrued_BASE_1", 10%nat); ("DE_Accrued_BASE_2", 10%nat)]
    ∧ (10 <=? 10)%nat = true
    ∧ fit_attempted [Title "*** Germany ACCRUED TAX ***"] = false
    ∧ reports_not_enough [Title "*** Germany ACCRUED TAX ***"] = false.
Proof.
  set (run := Germany.process_tax sample_log no_number (sample_fit 1 1)
                "tax_accrued" "Accrued" "*** Germany ACCRUED TAX ***" ten_firms).
  exists run.1, (value_or ([], [], []) run.2).1.1.
  repeat split; vm_compute; reflexivity.
Qed.

(** C5, amended: the thresholds are fixed in the code, not supplied by the
    caller.  The Germany study runs the regressions of a country base only
    when it has more than ten rows (at least eleven); otherwise it runs
    none and writes nothing to the report (for Base 2 it logs a warning).
    [run_regression] of the Italy baseline study and of the analysis script
    fits exactly when the base has at least five rows and reports
    insufficient data exactly when it has fewer.  A base of four rows is
    never fitted. *)
Theorem regression_gating (ols_fit : string -> DataFrame -> res OLSResults) :
  (∀ de_b1 de_b2 ctrls tag heading, ∃ part1 part2 log,
     Germany.report_section ols_fit de_b1 de_b2 ctrls tag heading
       = (Title heading :: part1 ++ part2, log)
     ∧ (fit_attempted part1 = true ↔ (10 < len de_b1)%nat)
     ∧ ((len de_b1 ≤ 10)%nat → part1 = [])
     ∧ (fit_attempted part2 = true ↔ (10 < len de_b2)%nat)
     ∧ ((len de_b2 ≤ 10)%nat →
        part2 = [] ∧ log = ["Not enough data for DE " +:+ tag +:+ " Base 2"])
     ∧ reports_not_enough (Title heading :: part1 ++ part2) = false)
  ∧ (∀ df formula title,
       (fit_attempted (ItalyBaseline.run_regression ols_fit df formula title) = true
        ↔ (5 ≤ len df)%nat)
       ∧ (reports_not_enough (ItalyBaseline.run_regression ols_fit df formula title) = true
          ↔ (len df < 5)%nat))
  ∧ (∀ df formula title,
       (fit_attempted (AnalysisScript.run_regression ols_fit df formula title) = true
        ↔ (5 ≤ len df)%nat)
       ∧ (reports_not_enough (AnalysisScript.run_regression ols_fit df formula title) = true
          ↔ (len df < 5)%nat))
  ∧ (∀ df formula title ctrls tag heading,
       len df = 4%nat →
       fit_attempted (ItalyBaseline.run_regression ols_fit df formula title) = false
       ∧ fit_attempted (AnalysisScript.run_regression ols_fit df formula title) = false
       ∧ fit_attempted (Germany.report_section ols_fit df df ctrls tag heading).1 = false).
Proof.
  split; [| split; [| split]].
  - intros b1 b2 ctrls tag heading. unfold Germany.report_section.
    set (r1 := Germany.run_regression ols_fit b1 "ln_profits ~ ETR" _).
    set (r2 := Germany.run_regression ols_fit b1 "ln_profits ~ ETR + ETR_sq" _).
    set (r3 := Germany.run_regression ols_fit b2 _ ("DE " +:+ tag +:+ " B2 Linear")).
    set (r4 := Germany.run_regression ols_fit b2 _ ("DE " +:+ tag +:+ " B2 Non-Linear")).
    assert (A1 : fit_attempted (r1 ++ r2) = true ∧ reports_not_enough (r1 ++ r2) = false).
    { rewrite fit_attempted_app, reports_not_enough_app. subst r1 r2.
      split; [apply orb_true_iff; left | apply orb_false_iff; split];
        apply germany_run_regression_attempted. }
    assert (A2 : fit_attempted (r3 ++ r4) = true ∧ reports_not_enough (r3 ++ r4) = false).
    { rewrite fit_attempted_app, reports_not_enough_app. subst r3 r4.
      split; [apply orb_true_iff; left | apply orb_false_iff; split];
        apply germany_run_regression_attempted. }
    destruct A1 as [A1 N1], A2 as [A2 N2].
    destruct (Nat.ltb_spec 10 (len b1)) as [E1 | E1],
             (Nat.ltb_spec 10 (len b2)) as [E2 | E2];
      [ exists (r1 ++ r2), (r3 ++ r4), []
      | exists (r1 ++ r2), [], ["Not enough data for DE " +:+ tag +:+ " Base 2"]
      | exists [], (r3 ++ r4), []
      | exists [], [], ["Not enough data for DE " +:+ tag +:+ " Base 2"] ];
      (split; [simpl; by rewrite ?app_nil_r, <- ?app_assoc |]);
      change (reports_not_enough (Title heading :: ?l)) with (reports_not_enough l);
      rewrite reports_not_enough_app, ?N1, ?N2;
      repeat first [split | intro]; try done; try lia.
  - intros df formula title.
    destruct (italy_run_regression_gate ols_fit df formula title) as [-> ->].
    rewrite negb_true_iff, Nat.ltb_ge, Nat.ltb_lt. done.
  - intros df formula title.
    destruct (analysis_run_regression_gate ols_fit df formula title) as [-> ->].
    rewrite negb_true_iff, Nat.ltb_ge, Nat.ltb_lt. done.
  - intros df formula title ctrls tag heading Hlen.
    destruct (italy_run_regression_gate ols_fit df formula title) as [-> _].
    destruct (analysis_run_regression_gate ols_fit df formula title) as [-> _].
    unfold Germany.report_section. rewrite Hlen. done.
Qed.

(** ** Controls and their logarithms *)

Section Controls.
Variable np_log : float -> float.

Lemma ln_label_inj c c' : "ln_" +:+ c = "ln_" +:+ c' → c = c'.
Proof. intros [= H]. exact H. Qed.

Lemma ln_label_not_control c c' : c ∈ controls → "ln_" +:+ c' ≠ c.
Proof.
  unfold controls. intros Hc.
  repeat (apply elem_of_cons in Hc as [-> | Hc]); [| | | by apply elem_of_nil in Hc];
    simpl; discriminate.
Qed.

Lemma log_control_establishes c gb :
  c ∈ controls → Forall (control_logged np_log c) (rows (log_control np_log c gb)).
Proof.
  intros Hc. apply List.Forall_forall. intros r' Hr'. unfold log_control in Hr'.
  apply in_rows_assign in Hr' as (r & -> & Hr).
  apply in_rows_mask in Hr as [_ Hpos].
  unfold control_logged.
  rewrite fnum_insert_ne by by apply ln_label_not_control.
  by rewrite lookup_insert_eq.
Qed.

Lemma log_control_preserves c c' gb :
  c ∈ controls → c ≠ c' →
  Forall (control_logged np_log c) (rows gb) →
  Forall (control_logged np_log c) (rows (log_control np_log c' gb)).
Proof.
  intros Hc Hne H. unfold log_control.
  eapply Forall_rows_assign; [| apply (Forall_rows_mask _ _ _ H)].
  intros r [[Hpos Hln] _]. unfold control_logged.
  rewrite fnum_insert_ne by by apply ln_label_not_control.
  rewrite lookup_insert_ne; [done |].
  intros E. apply ln_label_inj in E. congruence.
Qed.

Lemma fold_log_control_logged vc seen gb :
  Forall (fun c => c ∈ controls) (seen ++ vc) →
  Forall (fun r => ∀ c, In c seen → control_logged np_log c r) (rows gb) →
  Forall (fun r => ∀ c, In c (seen ++ vc) → control_logged np_log c r)
         (rows (fold_left (fun g c => log_control np_log c g) vc gb)).
Proof.
  revert seen gb. induction vc as [| c' vc IH]; intros seen gb Hsub H; simpl.
  - by rewrite app_nil_r.
  - replace (seen ++ c' :: vc) with ((seen ++ [c']) ++ vc) in * by by rewrite <- app_assoc.
    apply IH; [done |].
    assert (Hmem : ∀ c, In c (seen ++ [c']) → c ∈ controls).
    { intros c Hc. rewrite Forall_forall in Hsub. apply Hsub.
      apply list_elem_of_In. apply in_or_app. by left. }
    assert (Hc' : c' ∈ controls).
    { apply Hmem. apply in_or_app. right. by left. }
    pose proof (log_control_establishes c' gb Hc') as Hnew.
    rewrite List.Forall_forall in Hnew. rewrite List.Forall_forall in H.
    apply List.Forall_forall. intros r Hr c Hc.
    destruct (decide (c = c')) as [-> | Hne]; [by apply Hnew |].
    apply in_app_or in Hc as [Hc | [<- | []]]; [| done].
    assert (Hcc : c ∈ controls).
    { apply Hmem. apply in_or_app. by left. }
    assert (Hall : Forall (control_logged np_log c) (rows gb)).
    { apply List.Forall_forall. intros r0 Hr0. by apply H. }
    pose proof (log_control_preserves c c' gb Hcc Hne Hall) as Hkeep.
    rewrite List.Forall_forall in Hkeep. by apply Hkeep.
Qed.

Lemma fold_log_control_all vc gb :
  Forall (fun c => c ∈ controls) vc →
  Forall (fun r => ∀ c, In c vc → control_logged np_log c r)
         (rows (fold_left (fun g c => log_control np_log c g) vc gb)).
Proof.
  intros Hsub. apply (fold_log_control_logged vc [] gb Hsub).
  apply List.Forall_forall. by intros r _ c [].
Qed.

End Controls.

(** ** No logarithm of a non-positive number

    The builders' results do not change when [np.log] is replaced by a
    function that agrees with it on positive numbers: no value it takes
    elsewhere reaches a base. *)

Section LogArguments.
Variables log1 log2 : float -> float.
Hypothesis agree : ∀ x, (0 <? x) = true → log1 x = log2 x.

Lemma assign_ext_rows c (f g : Row -> cell) df :
  (∀ r, In r (rows df) → f r = g r) → assign c f df = assign c g df.
Proof.
  intros H. unfold assign. f_equal. apply map_ext_in. intros r Hr. by rewrite H.
Qed.

Lemma profit_etr_steps_log etr_min etr_max tax_col gb :
  profit_etr_steps log1 etr_min etr_max tax_col gb
  = profit_etr_steps log2 etr_min etr_max tax_col gb.
Proof.
  unfold profit_etr_steps. f_equal. apply assign_ext_rows. intros r Hr.
  apply in_rows_mask in Hr as [Hr _].
  apply in_rows_assign in Hr as (r1 & -> & Hr1).
  apply in_rows_mask in Hr1 as [_ Hpos].
  rewrite fnum_insert_ne by done. by rewrite agree.
Qed.

Lemma log_control_log c gb : log_control log1 c gb = log_control log2 c gb.
Proof.
  unfold log_control. apply assign_ext_rows. intros r Hr.
  apply in_rows_mask in Hr as [_ Hpos]. by rewrite agree.
Qed.

Lemma fold_log_control_log vc gb :
  fold_left (fun g c => log_control log1 c g) vc gb
  = fold_left (fun g c => log_control log2 c g) vc gb.
Proof.
  revert gb. induction vc as [| c vc IH]; intros gb; simpl; [done |].
  by rewrite log_control_log, IH.
Qed.

Lemma germany_builder_log parse_float tax_col df :
  Germany.create_global_clean_bases log1 parse_float tax_col df
  = Germany.create_global_clean_bases log2 parse_float tax_col df.
Proof.
  destruct (has_column df "profit_before_tax") eqn:Hp;
    [destruct (has_column df tax_col) eqn:Ht |].
  - rewrite !germany_builder_ok by done. cbv zeta.
    by rewrite !profit_etr_steps_log, fold_log_control_log.
  - by rewrite !germany_builder_no_tax.
  - by rewrite !germany_builder_no_profit.
Qed.

Lemma italy_builder_log parse_float tax_col df :
  ItalyBaseline.create_global_clean_bases log1 parse_float tax_col df
  = ItalyBaseline.create_global_clean_bases log2 parse_float tax_col df.
Proof.
  rewrite !italy_builder_run. cbv zeta.
  destruct (dropna ["profit_before_tax"; tax_col] _) as [g1 |]; [| done].
  destruct (dropna _ _) as [g2 |]; [| done].
  by rewrite !profit_etr_steps_log, fold_log_control_log.
Qed.

Lemma analysis_base1_log tax_col d :
  base1_table log1 tax_col d = base1_table log2 tax_col d.
Proof.
  unfold base1_table. f_equal. apply assign_ext_rows. intros r Hr.
  apply in_rows_mask in Hr as [_ Hm].
  apply andb_true_iff in Hm as [Hm _]. apply andb_true_iff in Hm as [Hpos _].
  by rewrite agree.
Qed.

Lemma analysis_prepare_log df tax_col :
  AnalysisScript.prepare_datasets log1 df tax_col
  = AnalysisScript.prepare_datasets log2 df tax_col.
Proof.
  unfold AnalysisScript.prepare_datasets.
  destruct (negb (has_column df tax_col)); [done |].
  destruct (dropna ["profit_before_tax"; tax_col] df) as [d |]; [| done].
  assert (Hb : AnalysisScript.base1_steps log1 tax_col d
               = AnalysisScript.base1_steps log2 tax_col d).
  { unfold AnalysisScript.base1_steps.
    destruct (assign_quotient "ETR" tax_col "profit_before_tax" d) as [d1 |]; [| done].
    cbv zeta. f_equal. f_equal. apply assign_ext_rows. intros r Hr.
    apply in_rows_mask in Hr as [_ Hm].
    apply andb_true_iff in Hm as [Hm _]. apply andb_true_iff in Hm as [Hpos _].
    by rewrite agree. }
  rewrite Hb. destruct (AnalysisScript.base1_steps log2 tax_col d) as [b |]; [| done].
  cbv zeta. destruct (AnalysisScript.select_controls controls b) as [vc |]; [| done].
  destruct (dropna vc b) as [d2 |]; [| done].
  by rewrite fold_log_control_log.
Qed.

End LogArguments.

(** ** Which controls are returned *)

Section ReturnedControls.
Variable np_log : float -> float.
Variable parse_float : string -> float.

Lemma has_column_assign_ne c f df c' :
  c ≠ c' → has_column (assign c f df) c' = has_column df c'.
Proof.
  intros Hne. unfold has_column at 1 2. unfold assign; cbn [columns].
  destruct (has_column df c); [done |].
  apply bool_decide_ext. rewrite elem_of_app, list_elem_of_singleton.
  split; [intros [H | E]; [done | congruence] | by left].
Qed.

Lemma has_column_coerced_all_eq cs df c :
  Forall (fun c => has_column df c = true) cs →
  has_column (coerced_all parse_float cs df) c = has_column df c.
Proof. intros H. unfold has_column. by rewrite columns_coerced_all. Qed.

Lemma has_column_base1 tax_col d c :
  c ∈ controls →
  has_column (base1_table np_log tax_col d) c = has_column d c.
Proof.
  intros Hc. unfold base1_table.
  assert (c ≠ "ETR" ∧ c ≠ "ln_profits" ∧ c ≠ "ETR_sq") as (N1 & N2 & N3).
  { unfold controls in Hc.
    repeat (apply elem_of_cons in Hc as [-> | Hc]); [| | | by apply elem_of_nil in Hc];
      done. }
  rewrite !has_column_assign_ne by done.
  change (has_column (mask ?p ?x) c) with (has_column x c).
  by rewrite has_column_assign_ne.
Qed.

Lemma fnum_base1 tax_col d c r' :
  c ∈ controls →
  In r' (rows (base1_table np_log tax_col d)) →
  ∃ r, In r (rows d) ∧ fnum r' c = fnum r c.
Proof.
  intros Hc H. unfold base1_table in H.
  assert (c ≠ "ETR" ∧ c ≠ "ln_profits" ∧ c ≠ "ETR_sq") as (N1 & N2 & N3).
  { unfold controls in Hc.
    repeat (apply elem_of_cons in Hc as [-> | Hc]); [| | | by apply elem_of_nil in Hc];
      done. }
  apply in_rows_assign in H as (r4 & -> & H4).
  apply in_rows_assign in H4 as (r3 & -> & H3).
  apply in_rows_mask in H3 as [H3 _].
  apply in_rows_assign in H3 as (r1 & -> & H1).
  exists r1. split; [done |]. by rewrite !fnum_insert_ne.
Qed.

Lemma filter_nil_length {A} (p : A -> bool) (l : list A) :
  (∀ x, In x l → p x = false) → length (List.filter p l) = 0%nat.
Proof.
  induction l as [| x l IH]; intros H; simpl; [done |].
  rewrite (H x) by by left. apply IH. intros y Hy. apply H. by right.
Qed.

Lemma count_positive_base1_zero tax_col df c :
  c ∈ controls →
  Forall (fun r => (0 <? fnum r c) = false) (rows df) →
  AnalysisScript.count_positive c
    (base1_table np_log tax_col
       (mask (complete_on ["profit_before_tax"; tax_col]) df)) = 0%nat.
Proof.
  intros Hc H. unfold AnalysisScript.count_positive. apply filter_nil_length.
  intros r' Hr'. destruct (fnum_base1 _ _ _ _ Hc Hr') as (r & Hr & ->).
  apply in_rows_mask in Hr as [Hr _]. rewrite List.Forall_forall in H. by apply H.
Qed.

End ReturnedControls.

(** C6, as stated, fails for the baseline builders: on a table whose
    [employees] column is zero in every row, [ln_employees] is in the
    returned list all the same, and Base 2 is empty. *)
Lemma dead_control_counterexample :
  ∃ df' gb1 gb2,
    Germany.create_global_clean_bases sample_log no_number "tax_accrued" no_employees
    = (df', Ok (gb1, gb2, ["ln_employees"; "ln_tangible_assets"; "ln_related_revenues"]))
    ∧ column_values "employees" no_employees = [0; 0; 0]
    ∧ len gb1 = 3%nat ∧ len gb2 = 0%nat.
Proof.
  set (run := Germany.create_global_clean_bases sample_log no_number "tax_accrued"
                no_employees).
  set (out := value_or (empty_frame, empty_frame, []) run.2).
  exists run.1, out.1.1, out.1.2.
  repeat split; vm_compute; reflexivity.
Qed.

(** C6, amended: the baseline builders return [ln_<c>] for every requested
    control that is a column of the table, whatever its values; the analysis
    script returns a control only if it is a column and more than five rows
    of Base 1 have it positive, so a control that is zero in every row is not
    returned.  In both, every row of Base 2 has each returned control
    positive and carries its logarithm, and no logarithm of a non-positive
    number reaches a result: replacing [np.log] by any function that agrees
    with it on positive numbers changes nothing. *)
Theorem returned_controls (np_log : float -> float) (parse_float : string -> float) :
  (∀ tax_col df df' gb1 gb2 logged_controls,
     Germany.create_global_clean_bases np_log parse_float tax_col df
       = (df', Ok (gb1, gb2, logged_controls)) →
     logged_controls
       = map (fun c => "ln_" +:+ c) (List.filter (has_column df) controls)
     ∧ Forall (fun r => ∀ c, In c controls → has_column df c = true →
                             control_logged np_log c r) (rows gb2))
  ∧ (∀ tax_col df df' gb1 gb2 logged_controls,
       ItalyBaseline.create_global_clean_bases np_log parse_float tax_col df
         = (df', Ok (gb1, gb2, logged_controls)) →
       logged_controls
         = map (fun c => "ln_" +:+ c) (List.filter (has_column df) controls)
       ∧ Forall (fun r => ∀ c, In c controls → has_column df c = true →
                               control_logged np_log c r) (rows gb2))
  ∧ (∀ tax_col df base1 base2 valid_controls,
       AnalysisScript.prepare_datasets np_log df tax_col
         = Ok (Some (base1, base2, valid_controls)) →
       (∀ c, In c valid_controls
             ↔ In c controls ∧ has_column df c = true
               ∧ (5 < AnalysisScript.count_positive c base1)%nat)
       ∧ (∀ c, In c controls →
               Forall (fun r => (0 <? fnum r c) = false) (rows df) →
               ¬ In c valid_controls)
       ∧ Forall (fun r => ∀ c, In c valid_controls → control_logged np_log c r)
                (rows base2))
  ∧ (∀ log' : float -> float,
       (∀ x, (0 <? x) = true → log' x = np_log x) →
       ∀ tax_col df,
         Germany.create_global_clean_bases log' parse_float tax_col df
           = Germany.create_global_clean_bases np_log parse_float tax_col df
         ∧ ItalyBaseline.create_global_clean_bases log' parse_float tax_col df
           = ItalyBaseline.create_global_clean_bases np_log parse_float tax_col df
         ∧ AnalysisScript.prepare_datasets log' df tax_col
           = AnalysisScript.prepare_datasets np_log df tax_col).
Proof.
  split; [| split; [| split]].
  - intros tax_col df df' gb1 gb2 lc H.
    destruct (germany_builder_inv _ _ _ _ _ _ H) as [Hp Ht].
    rewrite (germany_builder_ok _ _ _ _ Hp Ht) in H. cbv zeta in H.
    assert (Hpres : Forall (fun c => has_column df c = true) ["profit_before_tax"; tax_col])
      by (repeat constructor; done).
    assert (Hvc : List.filter (has_column
                    (coerced_all parse_float ["profit_before_tax"; tax_col] df)) controls
                  = List.filter (has_column df) controls).
    { apply filter_ext. intros c. by apply has_column_coerced_all_eq. }
    rewrite Hvc in H. clear Hvc.
    remember (List.filter (has_column df) controls) as vc eqn:Evc.
    injection H as _ _ <- <-. split; [done |].
    eapply Forall_impl;
      [apply fold_log_control_all; rewrite Evc; apply filter_controls_sub |].
    intros r Hr c Hc Hcol. apply Hr. rewrite Evc. apply filter_In. done.
  - intros tax_col df df' gb1 gb2 lc H.
    rewrite italy_builder_run in H. cbv zeta in H.
    destruct (dropna ["profit_before_tax"; tax_col] _) as [g1 |]; [| discriminate].
    destruct (dropna _ _) as [g2 |]; [| discriminate].
    assert (Hvc : List.filter (has_column
                    (ItalyBaseline.coerced_present parse_float
                       ["profit_before_tax"; tax_col] df)) controls
                  = List.filter (has_column df) controls).
    { apply filter_ext. intros c. unfold has_column.
      by rewrite columns_coerced_present. }
    rewrite Hvc in H. clear Hvc.
    remember (List.filter (has_column df) controls) as vc eqn:Evc.
    injection H as _ _ <- <-. split; [done |].
    eapply Forall_impl;
      [apply fold_log_control_all; rewrite Evc; apply filter_controls_sub |].
    intros r Hr c Hc Hcol. apply Hr. rewrite Evc. apply filter_In. done.
  - intros tax_col df base1 base2 vc H.
    apply analysis_prepare_inv in H as (Ht & Hp & Hb1 & Hvc & ->).
    assert (Hmem : ∀ c, In c vc
                        ↔ In c controls ∧ has_column df c = true
                          ∧ (5 < AnalysisScript.count_positive c base1)%nat).
    { intros c. rewrite Hvc at 1. rewrite filter_In, andb_true_iff, Nat.ltb_lt.
      split.
      - intros (Hc & Hcol & Hn). repeat split; try done.
        rewrite Hb1, has_column_base1 in Hcol by by apply list_elem_of_In. exact Hcol.
      - intros (Hc & Hcol & Hn). repeat split; try done.
        rewrite Hb1, has_column_base1 by by apply list_elem_of_In. exact Hcol. }
    split; [exact Hmem |]. split.
    + intros c Hc Hzero Hin. apply Hmem in Hin as (_ & _ & Hn).
      rewrite Hb1, count_positive_base1_zero in Hn; [lia | by apply list_elem_of_In | done].
    + apply fold_log_control_all. rewrite Hvc. apply filter_controls_sub.
  - intros log' Hagree tax_col df. split; [| split].
    + by apply germany_builder_log.
    + by apply italy_builder_log.
    + by apply analysis_prepare_log.
Qed.

(** With six firms without employees the analysis script returns the other
    two controls only. *)
Lemma returned_controls_witness :
  ∃ base1 base2 valid_controls,
    AnalysisScript.prepare_datasets sample_log six_no_employees "tax_accrued"
      = Ok (Some (base1, base2, valid_controls))
    ∧ valid_controls = ["tangible_assets"; "related_revenues"]
    ∧ len base2 = 6%nat
    ∧ ¬ In "employees" valid_controls
    ∧ Forall (fun r => ∀ c, In c valid_controls → control_logged sample_log c r)
             (rows base2).
Proof.
  set (run := AnalysisScript.prepare_datasets sample_log six_no_employees "tax_accrued").
  set (out := default (empty_frame, empty_frame, []) (value_or None run)).
  assert (E : run = Ok (Some (out.1.1, out.1.2, out.2))) by (vm_compute; reflexivity).
  exists out.1.1, out.1.2, out.2. split; [exact E |].
  destruct (proj1 (proj2 (proj2 (returned_controls sample_log no_number)))
              _ _ _ _ _ E) as (_ & Hzero & Hrows).
  split; [vm_compute; reflexivity |]. split; [vm_compute; reflexivity |].
  split; [| exact Hrows].
  apply Hzero; [unfold controls; by left |].
  apply List.Forall_forall. intros r Hr.
  apply list_elem_of_In, elem_of_replicate in Hr as [-> _].
  vm_compute. reflexivity.
Defined.

(** ** The comprehensive study: candidate table and missing data *)

Section Candidate.

Lemma lookup_project cols (r : Row) c :
  project cols r !! c = if bool_decide (c ∈ cols) then r !! c else None.
Proof.
  induction cols as [| c' cols IH]; cbn [project foldr].
  - rewrite lookup_empty. case_bool_decide as H; [| done]. by apply elem_of_nil in H.
  - fold (project cols r). destruct (decide (c = c')) as [-> | Hne].
    + rewrite (bool_decide_true (c' ∈ c' :: cols)) by apply list_elem_of_here.
      destruct (r !! c') eqn:E; [by rewrite lookup_insert_eq |].
      rewrite IH. by case_bool_decide.
    + assert (Hb : bool_decide (c ∈ c' :: cols) = bool_decide (c ∈ cols)).
      { apply bool_decide_ext. rewrite elem_of_cons.
        split; [intros [E | H]; [congruence | done] | by right]. }
      rewrite Hb. destruct (r !! c'); [by rewrite lookup_insert_ne |]; exact IH.
Qed.

Lemma lookup_replaced (f : cell -> cell) cs (r : Row) c :
  NoDup cs →
  foldr (alter f) r cs !! c = if bool_decide (c ∈ cs) then f <$> r !! c else r !! c.
Proof.
  induction 1 as [| c' cs Hnotin Hnd IH]; cbn [foldr].
  - case_bool_decide as H; [| done]. by apply elem_of_nil in H.
  - destruct (decide (c' = c)) as [-> | Hne].
    + rewrite lookup_alter_eq, IH.
      rewrite (bool_decide_false (c ∈ cs)) by done.
      by rewrite (bool_decide_true (c ∈ c :: cs)) by apply list_elem_of_here.
    + rewrite lookup_alter_ne, IH by done.
      assert (Hb : bool_decide (c ∈ c' :: cs) = bool_decide (c ∈ cs)).
      { apply bool_decide_ext. rewrite elem_of_cons.
        split; [intros [E | H]; [congruence | done] | by right]. }
      by rewrite Hb.
Qed.

Lemma NoDup_controls : NoDup controls.
Proof.
  unfold controls. repeat apply NoDup_cons_2; try apply NoDup_nil_2;
    intros H; repeat (apply elem_of_cons in H as [H | H]; [discriminate H |]);
    by apply elem_of_nil in H.
Qed.

Lemma replaced_id (r : Row) :
  forallb (fun c => negb (is_zero (r !! c))) controls = true →
  foldr (alter zero_to_nan) r controls = r.
Proof.
  intros H. apply map_eq. intros c. rewrite lookup_replaced by apply NoDup_controls.
  destruct (bool_decide (c ∈ controls)) eqn:E; [| done].
  apply bool_decide_eq_true in E. rewrite forallb_forall in H.
  specialize (H c (proj1 (list_elem_of_In _ _) E)).
  destruct (r !! c) as [[x | t] |]; simpl in *; try done.
  apply negb_true_iff in H. by rewrite H.
Qed.

Lemma isna_zero_to_nan (o : option cell) :
  isna (zero_to_nan <$> o) = isna o || is_zero o.
Proof.
  destruct o as [[x | t] |]; simpl; try done.
  destruct (x =? 0) eqn:E.
  - by rewrite orb_true_r.
  - by rewrite orb_false_r.
Qed.

End Candidate.

Section CompleteCases.

Lemma filter_filter_and {A} (p q : A -> bool) (l : list A) :
  List.filter q (List.filter p l) = List.filter (fun x => p x && q x) l.
Proof.
  induction l as [| x l IH]; simpl; [done |].
  destruct (p x); simpl; [destruct (q x) |]; by rewrite IH.
Qed.

(** What [candidate_table] returned, read back from its result. *)
Lemma candidate_table_inv df tax_col data :
  ItalyComprehensive.candidate_table df tax_col = Ok data →
  let cols := ["profit_before_tax"; tax_col] ++ controls in
  has_column df "upe_name" = true
  ∧ Forall (fun c => has_column df c = true) cols
  ∧ columns data = cols
  ∧ rows data
    = map (fun r => foldr (alter zero_to_nan) (project cols r) controls)
          (List.filter (text_is "upe_name" ItalyComprehensive.TARGET_COUNTRY) (rows df)).
Proof.
  intros H cols. unfold ItalyComprehensive.candidate_table in H.
  destruct (has_column df "upe_name"); [| discriminate]. split; [done |].
  unfold select in H. cbv zeta in H. fold cols in H.
  destruct (List.find _ cols) as [c |] eqn:E; [discriminate |].
  injection H as <-. split; [| split].
  - apply Forall_forall. intros c Hc. apply list_elem_of_In in Hc.
    pose proof (find_none _ _ E c Hc) as Hn. apply negb_false_iff in Hn. exact Hn.
  - reflexivity.
  - unfold replace_zeros; simpl. by rewrite map_map.
Qed.

Lemma candidate_cell tax_col (r : Row) c :
  let cols := ["profit_before_tax"; tax_col] ++ controls in
  c ∈ cols →
  foldr (alter zero_to_nan) (project cols r) controls !! c
  = if bool_decide (c ∈ controls) then zero_to_nan <$> r !! c else r !! c.
Proof.
  intros cols Hc. rewrite lookup_replaced by apply NoDup_controls.
  rewrite lookup_project. by rewrite (bool_decide_true (c ∈ cols)).
Qed.

Lemma candidate_complete tax_col (r : Row) :
  let cols := ["profit_before_tax"; tax_col] ++ controls in
  complete_on cols (foldr (alter zero_to_nan) (project cols r) controls)
  = complete_nonzero tax_col r.
Proof.
  intros cols.
  assert (Hg : ∀ c, c ∈ cols →
            negb (isna (foldr (alter zero_to_nan) (project cols r) controls !! c))
            = negb (isna (r !! c))
              && (if bool_decide (c ∈ controls) then negb (is_zero (r !! c)) else true)).
  { intros c Hc. pose proof (candidate_cell tax_col r c Hc) as Hcell.
    cbv zeta in Hcell. fold cols in Hcell. rewrite Hcell.
    destruct (bool_decide (c ∈ controls)).
    - rewrite isna_zero_to_nan. apply negb_orb.
    - by rewrite andb_true_r. }
  assert (Hin : ∀ c, In c cols → c ∈ cols) by (intros c; apply list_elem_of_In).
  set (m := foldr (alter zero_to_nan) (project cols r) controls) in *.
  assert (E : complete_on cols m
              = negb (isna (m !! "profit_before_tax")) && (negb (isna (m !! tax_col))
                && (negb (isna (m !! "employees")) && (negb (isna (m !! "tangible_assets"))
                && (negb (isna (m !! "related_revenues")) && true))))) by reflexivity.
  rewrite E. clear E.
  rewrite !Hg by (apply Hin; unfold cols, controls; simpl; tauto).
  assert (Hno : bool_decide ("profit_before_tax" ∈ controls) = false).
  { apply bool_decide_eq_false. unfold controls. rewrite !elem_of_cons, elem_of_nil.
    intros [H | [H | [H | []]]]; discriminate. }
  assert (Hyes : ∀ c, In c controls → bool_decide (c ∈ controls) = true).
  { intros c Hc. apply bool_decide_eq_true. by apply list_elem_of_In. }
  rewrite Hno.
  rewrite (Hyes "employees"), (Hyes "tangible_assets"), (Hyes "related_revenues")
    by (unfold controls; simpl; tauto).
  assert (E : complete_nonzero tax_col r
              = negb (isna (r !! "profit_before_tax")) && (negb (isna (r !! tax_col)) && true)
                && ((negb (isna (r !! "employees")) && negb (is_zero (r !! "employees")))
                && ((negb (isna (r !! "tangible_assets"))
                     && negb (is_zero (r !! "tangible_assets")))
                && ((negb (isna (r !! "related_revenues"))
                     && negb (is_zero (r !! "related_revenues"))) && true))))
    by reflexivity.
  rewrite E. clear E.
  destruct (bool_decide (tax_col ∈ controls)) eqn:Et.
  - apply bool_decide_eq_true in Et. unfold controls in Et.
    rewrite !elem_of_cons, elem_of_nil in Et.
    destruct Et as [-> | [-> | [-> | []]]];
      repeat match goal with |- context [isna ?o] => destruct (isna o) end;
      repeat match goal with |- context [is_zero ?o] => destruct (is_zero o) end;
      reflexivity.
  - repeat match goal with |- context [isna ?o] => destruct (isna o) end;
      repeat match goal with |- context [is_zero ?o] => destruct (is_zero o) end;
      reflexivity.
Qed.

Lemma candidate_kept_unchanged tax_col (r : Row) :
  let cols := ["profit_before_tax"; tax_col] ++ controls in
  complete_nonzero tax_col r = true →
  foldr (alter zero_to_nan) (project cols r) controls = project cols r.
Proof.
  intros cols H. apply replaced_id. apply forallb_forall. intros c Hc.
  unfold complete_nonzero in H. apply andb_true_iff in H as [_ H].
  rewrite forallb_forall in H. specialize (H c Hc).
  apply andb_true_iff in H as [_ H].
  rewrite lookup_project. rewrite bool_decide_true; [done |].
  subst cols. apply list_elem_of_In in Hc. apply elem_of_app. by right.
Qed.

End CompleteCases.

Lemma Forall2_map_in {A B} (P : A -> B -> Prop) (f : A -> B) (l : list A) :
  (∀ x, In x l → P x (f x)) → Forall2 P l (map f l).
Proof.
  induction l as [| x l IH]; intros H; simpl; constructor.
  - apply H. by left.
  - apply IH. intros y Hy. apply H. by right.
Qed.




(** The imputer is built afresh with the seed 42 in every call, so the
    generator it draws from, and with it the preparation, does not depend on
    the state numpy's global generator is in.  What scikit-learn computes
    from that generator is outside this development. *)
Lemma seeded_imputer_ignores_global
    (np_log : float -> float) (rng : Type) (RandomState : Z -> rng)
    (impute : float -> nat -> rng -> list (list float) -> list (list float))
    (g1 g2 : rng) (df : DataFrame) (tax_col method : string) :
  (∀ X, ItalyComprehensive.fit_transform rng RandomState impute
          {| min_value := 0.1; max_iter := 20; random_state := Some 42%Z |} g1 X
        = ItalyComprehensive.fit_transform rng RandomState impute
            {| min_value := 0.1; max_iter := 20; random_state := Some 42%Z |} g2 X)
  ∧ (∀ data, ItalyComprehensive.resolve_missing rng RandomState impute g1
               tax_col method data
             = ItalyComprehensive.resolve_missing rng RandomState impute g2
                 tax_col method data)
  ∧ ItalyComprehensive.prepare_data_and_analyze np_log rng RandomState impute
      g1 df tax_col method
    = ItalyComprehensive.prepare_data_and_analyze np_log rng RandomState impute
        g2 df tax_col method.
Proof.
  split; [| split].
  - intros X. reflexivity.
  - intros data. reflexivity.
  - reflexivity.
Qed.

(** Without a seed the imputer would draw from the global generator. *)
Lemma unseeded_imputer_uses_global
    (rng : Type) (RandomState : Z -> rng)
    (impute : float -> nat -> rng -> list (list float) -> list (list float))
    (g : rng) (X : list (list float)) :
  ItalyComprehensive.fit_transform rng RandomState impute
    {| min_value := 0.1; max_iter := 20; random_state := None |} g X
  = impute 0.1 20%nat g X.
Proof. reflexivity. Qed.

(** C10: in the comprehensive study the complete-case strategy keeps exactly
    the target country's rows whose profit, tax basis and three controls are
    present and whose controls are all different from zero (zeros were turned
    into [nan] before the listwise deletion), unchanged and in their order;
    the standard filters then run on these rows. *)
Theorem complete_case_rows
    (np_log : float -> float) (rng : Type) (RandomState : Z -> rng)
    (impute : float -> nat -> rng -> list (list float) -> list (list float))
    (global_rng : rng) (df : DataFrame) (tax_col : string) (data : DataFrame) :
  ItalyComprehensive.candidate_table df tax_col = Ok data →
  let cols := ["profit_before_tax"; tax_col] ++ controls in
  ∃ cc,
    ItalyComprehensive.resolve_missing rng RandomState impute global_rng
      tax_col "CC" data = Ok (Some cc)
    ∧ columns cc = cols
    ∧ rows cc
      = map (project cols)
          (List.filter (fun r => text_is "upe_name" "Italy" r
                                 && complete_nonzero tax_col r) (rows df))
    ∧ ItalyComprehensive.prepare_data_and_analyze np_log rng RandomState impute
        global_rng df tax_col "CC"
      = match ItalyComprehensive.filters_and_logs np_log tax_col cc with
        | Ok table => Ok (Some table, "")
        | Raise e => Raise e
        end.
Proof.
  intros H cols.
  exists (mask (complete_on (columns data)) data).
  split; [reflexivity |].
  pose proof (candidate_table_inv _ _ _ H) as (_ & _ & Hcols & Hrows).
  split; [exact Hcols |]. split.
  - unfold mask; simpl. rewrite Hcols, Hrows. fold cols.
    rewrite filter_map_swap.
    rewrite (filter_ext _ (complete_nonzero tax_col))
      by (intros r; apply candidate_complete).
    rewrite filter_filter_and.
    apply map_ext_in. intros r Hr. apply filter_In in Hr as [_ Hr].
    apply andb_true_iff in Hr as [_ Hr]. by apply candidate_kept_unchanged.
  - unfold ItalyComprehensive.prepare_data_and_analyze. rewrite H. reflexivity.
Qed.

(** Of the six Italian firms the one without employees is dropped; the five
    others, the one with the negative head count among them, are kept. *)
Lemma complete_case_rows_witness :
  ∃ data cc,
    ItalyComprehensive.candidate_table negative_employees "tax_accrued" = Ok data
    ∧ ItalyComprehensive.resolve_missing unit (fun _ => tt) echo_impute tt
        "tax_accrued" "CC" data = Ok (Some cc)
    ∧ rows cc
      = map (project (["profit_before_tax"; "tax_accrued"] ++ controls))
          (List.filter (fun r => text_is "upe_name" "Italy" r
                                 && complete_nonzero "tax_accrued" r)
             (rows negative_employees))
    ∧ column_values "employees" cc = [-5; 5; 5; 5; 5].
Proof.
  set (data := value_or empty_frame
                  (ItalyComprehensive.candidate_table negative_employees "tax_accrued")).
  assert (E : ItalyComprehensive.candidate_table negative_employees "tax_accrued" = Ok data)
    by (vm_compute; reflexivity).
  destruct (complete_case_rows sample_log unit (fun _ => tt) echo_impute tt
              negative_employees "tax_accrued" data E) as (cc & Hcc & _ & Hrows & _).
  exists data, cc. split; [exact E |]. split; [exact Hcc |].
  split; [exact Hrows |].
  unfold column_values. rewrite Hrows. vm_compute. reflexivity.
Defined.

(** A text in the profit of a row that the listwise deletion keeps stops the
    preparation at the first comparison. *)
Lemma complete_case_text_profit :
  ItalyComprehensive.prepare_data_and_analyze sample_log unit (fun _ => tt)
    echo_impute tt text_profit_table "tax_accrued" "CC" = Raise TypeError.
Proof. vm_compute. reflexivity. Qed.

(** ** The caller's table after a base was built *)

Section SourceTable.
Variable np_log : float -> float.
Variable parse_float : string -> float.

Lemma rows_coerced_all cs df :
  rows (coerced_all parse_float cs df) = map (coerced_row parse_float cs) (rows df).
Proof.
  revert df. induction cs as [| c cs IH]; intros df; simpl.
  - by rewrite map_id.
  - rewrite IH. unfold coerced, assign; simpl. by rewrite map_map.
Qed.

Lemma lookup_coerced_row cs (r : Row) c :
  coerced_row parse_float cs r !! c
  = if bool_decide (c ∈ cs) then Some (Num (to_numeric parse_float (r !! c)))
    else r !! c.
Proof.
  unfold coerced_row. revert r.
  induction cs as [| c0 cs IH]; intros r; cbn [fold_left].
  - case_bool_decide as H; [| done]. by apply elem_of_nil in H.
  - rewrite IH. destruct (decide (c = c0)) as [-> | Hne].
    + rewrite (bool_decide_true (c0 ∈ c0 :: cs)) by apply list_elem_of_here.
      rewrite lookup_insert_eq. cbn [to_numeric]. by case_bool_decide.
    + rewrite lookup_insert_ne by done.
      assert (Hb : bool_decide (c ∈ c0 :: cs) = bool_decide (c ∈ cs)).
      { apply bool_decide_ext. rewrite elem_of_cons.
        split; [intros [E | H]; [congruence | done] | by right]. }
      by rewrite Hb.
Qed.

Lemma coerced_row_numeric cs (r : Row) :
  (∀ c, c ∈ cs → ∃ x, r !! c = Some (Num x)) → coerced_row parse_float cs r = r.
Proof.
  intros H. apply map_eq. intros c. rewrite lookup_coerced_row.
  destruct (bool_decide (c ∈ cs)) eqn:E; [| done].
  apply bool_decide_eq_true in E. destruct (H c E) as [x ->]. done.
Qed.

Lemma coerced_all_numeric cs df :
  Forall (fun c => has_column df c = true) cs →
  (∀ r c, In r (rows df) → c ∈ cs → ∃ x, r !! c = Some (Num x)) →
  coerced_all parse_float cs df = df.
Proof.
  intros Hpres Hnum.
  pose proof (columns_coerced_all parse_float cs df Hpres) as Hc.
  pose proof (rows_coerced_all cs df) as Hr.
  destruct (coerced_all parse_float cs df) as [cols' rows'], df as [cols rows0].
  simpl in *. subst cols'. f_equal. rewrite Hr.
  rewrite <- (map_id rows0) at 2. apply map_ext_in. intros r Hin.
  apply coerced_row_numeric. intros c Hcs. by eapply Hnum.
Qed.

Lemma coerced_all_app cs1 cs2 df :
  coerced_all parse_float (cs1 ++ cs2) df
  = coerced_all parse_float cs2 (coerced_all parse_float cs1 df).
Proof. unfold coerced_all. apply fold_left_app. Qed.

Lemma coerced_present_all cs df :
  Forall (fun c => has_column df c = true) cs →
  ItalyBaseline.coerced_present parse_float cs df = coerced_all parse_float cs df.
Proof.
  revert df. induction cs as [| c cs IH]; intros df H; simpl; [done |].
  apply Forall_cons in H as [Hc Hcs]. rewrite Hc. apply IH.
  eapply Forall_impl; [exact Hcs |]. intros c'. apply has_column_coerced.
Qed.

(** The columns a successful build has coerced. *)
Lemma germany_builder_table tax_col df df' out :
  Germany.create_global_clean_bases np_log parse_float tax_col df = (df', Ok out) →
  has_column df "profit_before_tax" = true ∧ has_column df tax_col = true
  ∧ df' = coerced_all parse_float
            (["profit_before_tax"; tax_col] ++ List.filter (has_column df) controls) df.
Proof.
  intros H. destruct (germany_builder_inv _ _ _ _ _ _ H) as [Hp Ht].
  split; [done |]. split; [done |].
  rewrite (germany_builder_ok _ _ _ _ Hp Ht) in H. cbv zeta in H.
  assert (Hvc : List.filter (has_column
                  (coerced_all parse_float ["profit_before_tax"; tax_col] df)) controls
                = List.filter (has_column df) controls).
  { apply filter_ext. intros c. apply has_column_coerced_all_eq.
    repeat constructor; done. }
  rewrite Hvc in H. rewrite coerced_all_app. congruence.
Qed.

Lemma italy_builder_table tax_col df df' out :
  ItalyBaseline.create_global_clean_bases np_log parse_float tax_col df = (df', Ok out) →
  has_column df "profit_before_tax" = true ∧ has_column df tax_col = true
  ∧ df' = coerced_all parse_float
            (["profit_before_tax"; tax_col] ++ List.filter (has_column df) controls) df.
Proof.
  rewrite italy_builder_run. cbv zeta. intros H.
  set (df1 := ItalyBaseline.coerced_present parse_float _ df) in *.
  set (vc := List.filter (has_column df1) controls) in *.
  destruct (dropna ["profit_before_tax"; tax_col] _) as [g1 |] eqn:E1; [| discriminate].
  assert (Hpt : has_column df "profit_before_tax" = true ∧ has_column df tax_col = true).
  { unfold dropna in E1.
    destruct (List.find _ _) as [c |] eqn:Ef; [discriminate |].
    assert (Hcols : ∀ c, has_column (coerced_all parse_float vc df1) c = has_column df c).
    { intros c. unfold has_column.
      rewrite columns_coerced_all by (unfold vc; apply valid_controls_present).
      unfold df1. by rewrite columns_coerced_present. }
    split.
    - pose proof (find_none _ _ Ef "profit_before_tax" ltac:(by left)) as Hn.
      apply negb_false_iff in Hn. by rewrite Hcols in Hn.
    - pose proof (find_none _ _ Ef tax_col ltac:(right; by left)) as Hn.
      apply negb_false_iff in Hn. by rewrite Hcols in Hn. }
  destruct Hpt as [Hp Ht]. split; [done |]. split; [done |].
  destruct (dropna _ _) as [g2 |]; [| discriminate].
  assert (Hdf1 : df1 = coerced_all parse_float ["profit_before_tax"; tax_col] df).
  { apply coerced_present_all. repeat constructor; done. }
  assert (Hvc : vc = List.filter (has_column df) controls).
  { unfold vc. apply filter_ext. intros c. rewrite Hdf1.
    apply has_column_coerced_all_eq. repeat constructor; done. }
  rewrite coerced_all_app, <- Hvc, <- Hdf1. congruence.
Qed.

(** What coercing the profit, tax and present control columns does to a
    table. *)
Lemma coerced_table_facts tax_col df :
  has_column df "profit_before_tax" = true → has_column df tax_col = true →
  let cols := ["profit_before_tax"; tax_col] ++ controls in
  let df' := coerced_all parse_float
               (["profit_before_tax"; tax_col] ++ List.filter (has_column df) controls)
               df in
  columns df' = columns df
  ∧ Forall2 (fun r r' => ∀ c,
               r' !! c = r !! c
               ∨ (In c cols ∧ has_column df c = true
                  ∧ r' !! c = Some (Num (to_numeric parse_float (r !! c)))))
            (rows df) (rows df')
  ∧ ((∀ r c, In r (rows df) → In c cols → has_column df c = true →
             ∃ x, r !! c = Some (Num x)) → df' = df)
  ∧ (∀ r' c, In r' (rows df') → In c cols → has_column df' c = true →
             ∃ x, r' !! c = Some (Num x)).
Proof.
  intros Hp Ht cols df'.
  set (cs := ["profit_before_tax"; tax_col] ++ List.filter (has_column df) controls) in *.
  assert (Hpres : Forall (fun c => has_column df c = true) cs).
  { apply Forall_app. split; [repeat constructor; done | apply valid_controls_present]. }
  assert (Hsub : ∀ c, c ∈ cs ↔ In c cols ∧ has_column df c = true).
  { intros c. unfold cs, cols. rewrite !list_elem_of_In, !in_app_iff, filter_In.
    split.
    - intros [H | [H1 H2]].
      + split; [by left |]. destruct H as [<- | [<- | []]]; done.
      + split; [by right | done].
    - intros [[H | H] Hc]; [by left | by right]. }
  assert (Hcols : columns df' = columns df) by by apply columns_coerced_all.
  split; [exact Hcols |]. split; [| split].
  - unfold df'. rewrite rows_coerced_all. apply Forall2_map_in. intros r _ c.
    rewrite lookup_coerced_row. destruct (bool_decide (c ∈ cs)) eqn:E; [| by left].
    apply bool_decide_eq_true, Hsub in E as [H1 H2]. right. done.
  - intros Hnum. apply coerced_all_numeric; [done |].
    intros r c Hr Hc. apply Hsub in Hc as [H1 H2]. by eapply Hnum.
  - intros r' c Hr' Hc Hcol. unfold df' in Hr'. rewrite rows_coerced_all in Hr'.
    apply in_map_iff in Hr' as (r & <- & Hr).
    rewrite lookup_coerced_row.
    assert (Hin : c ∈ cs).
    { apply Hsub. split; [done |]. unfold has_column in *. by rewrite <- Hcols. }
    rewrite bool_decide_true by done. eauto.
Qed.

End SourceTable.

(** A base construction of the baseline studies assigns the coerced profit,
    tax and control columns back into the table it is given.  The table
    keeps its columns and its rows; a cell either stays as it was or, in one
    of those columns, becomes [pd.to_numeric] of itself.  When those columns
    hold numbers already the table is unchanged, and after one construction
    a further one for the same tax basis leaves it as it finds it. *)
Lemma coerced_source_table
    (np_log : float -> float) (parse_float : string -> float)
    (tax_col : string) (df df' : DataFrame) (out : DataFrame * DataFrame * list string) :
  Germany.create_global_clean_bases np_log parse_float tax_col df = (df', Ok out)
  ∨ ItalyBaseline.create_global_clean_bases np_log parse_float tax_col df = (df', Ok out) →
  let cols := ["profit_before_tax"; tax_col] ++ controls in
  columns df' = columns df
  ∧ len df' = len df
  ∧ Forall2 (fun r r' => ∀ c,
               r' !! c = r !! c
               ∨ (In c cols ∧ has_column df c = true
                  ∧ r' !! c = Some (Num (to_numeric parse_float (r !! c)))))
            (rows df) (rows df')
  ∧ ((∀ r c, In r (rows df) → In c cols → has_column df c = true →
             ∃ x, r !! c = Some (Num x)) → df' = df)
  ∧ (Germany.create_global_clean_bases np_log parse_float tax_col df').1 = df'
  ∧ (ItalyBaseline.create_global_clean_bases np_log parse_float tax_col df').1 = df'.
Proof.
  intros H cols.
  assert (Hst : has_column df "profit_before_tax" = true ∧ has_column df tax_col = true
                ∧ df' = coerced_all parse_float
                          (["profit_before_tax"; tax_col]
                             ++ List.filter (has_column df) controls) df).
  { destruct H as [H | H];
      [by eapply germany_builder_table | by eapply italy_builder_table]. }
  destruct Hst as (Hp & Ht & Hdf').
  destruct (coerced_table_facts parse_float tax_col df Hp Ht) as (Hc & Hr & Hn & Hnum').
  rewrite <- Hdf' in Hc, Hr, Hn, Hnum'.
  split; [exact Hc |]. split; [| split; [exact Hr |]; split; [exact Hn |]].
  { unfold len. symmetry. by eapply Forall2_length. }
  assert (Hp' : has_column df' "profit_before_tax" = true)
    by (unfold has_column in *; by rewrite Hc).
  assert (Ht' : has_column df' tax_col = true)
    by (unfold has_column in *; by rewrite Hc).
  destruct (coerced_table_facts parse_float tax_col df' Hp' Ht') as (_ & _ & Hfix & _).
  specialize (Hfix Hnum'). split.
  - rewrite (germany_builder_ok _ _ _ _ Hp' Ht'). cbv zeta. cbn [fst].
    assert (Hvc : List.filter (has_column
                    (coerced_all parse_float ["profit_before_tax"; tax_col] df')) controls
                  = List.filter (has_column df') controls).
    { apply filter_ext. intros c. apply has_column_coerced_all_eq.
      repeat constructor; done. }
    rewrite Hvc, <- coerced_all_app. exact Hfix.
  - rewrite italy_builder_run. cbv zeta. cbn [fst].
    rewrite coerced_present_all by (repeat constructor; done).
    assert (Hvc : List.filter (has_column
                    (coerced_all parse_float ["profit_before_tax"; tax_col] df')) controls
                  = List.filter (has_column df') controls).
    { apply filter_ext. intros c. apply has_column_coerced_all_eq.
      repeat constructor; done. }
    rewrite Hvc, <- coerced_all_app. exact Hfix.
Qed.


(** * Further properties of the scripts *)

(** ** Missing columns *)

(** X1: [create_global_clean_bases] of the Germany study raises [KeyError]
    exactly when the profit or the tax column is missing.  Without the profit
    column the caller's table is untouched; without the tax column only, the
    call fails after it has coerced the profit column in the caller's
    table. *)
Theorem germany_builder_missing_column
    (np_log : float -> float) (parse_float : string -> float)
    (tax_col : string) (df : DataFrame) :
  (has_column df "profit_before_tax" = false →
   Germany.create_global_clean_bases np_log parse_float tax_col df
   = (df, Raise (KeyError "profit_before_tax")))
  ∧ (has_column df "profit_before_tax" = true → has_column df tax_col = false →
     Germany.create_global_clean_bases np_log parse_float tax_col df
     = (coerced parse_float "profit_before_tax" df, Raise (KeyError tax_col)))
  ∧ (has_column df "profit_before_tax" = true → has_column df tax_col = true →
     ∃ df' out, Germany.create_global_clean_bases np_log parse_float tax_col df
                = (df', Ok out))
  ∧ (∀ df' e, Germany.create_global_clean_bases np_log parse_float tax_col df
              = (df', Raise e) →
              e = KeyError "profit_before_tax" ∨ e = KeyError tax_col).
Proof.
  split; [| split; [| split]].
  - apply germany_builder_no_profit.
  - apply germany_builder_no_tax.
  - intros Hp Ht. rewrite (germany_builder_ok _ _ _ _ Hp Ht). eauto.
  - intros df' e H. destruct (has_column df "profit_before_tax") eqn:Hp.
    + destruct (has_column df tax_col) eqn:Ht.
      * rewrite (germany_builder_ok _ _ _ _ Hp Ht) in H. discriminate H.
      * rewrite (germany_builder_no_tax _ _ _ _ Hp Ht) in H. right. congruence.
    + rewrite (germany_builder_no_profit _ _ _ _ Hp) in H. left. congruence.
Qed.

Section ItalyMissing.
Variable np_log : float -> float.
Variable parse_float : string -> float.

Lemma coerced_present_filter cs df :
  ItalyBaseline.coerced_present parse_float cs df
  = coerced_all parse_float (List.filter (has_column df) cs) df.
Proof.
  revert df. induction cs as [| c cs IH]; intros df; [done |].
  cbn [ItalyBaseline.coerced_present fold_left List.filter].
  change (fold_left (λ d c0, if has_column d c0 then coerced parse_float c0 d else d) cs ?x)
    with (ItalyBaseline.coerced_present parse_float cs x).
  destruct (has_column df c) eqn:Hc.
  - rewrite IH. cbn [coerced_all fold_left].
    change (fold_left (λ d c0, coerced parse_float c0 d) ?l ?x)
      with (coerced_all parse_float l x).
    f_equal. apply filter_ext. intros c'. unfold has_column.
    by rewrite columns_coerced.
  - apply IH.
Qed.

Lemma dropna_raises_first (c : string) cs df :
  has_column df c = false → dropna (c :: cs) df = Raise (KeyError c).
Proof. intros H. unfold dropna. cbn [List.find]. by rewrite H. Qed.

Lemma dropna_raises_second (c c' : string) cs df :
  has_column df c = true → has_column df c' = false →
  dropna (c :: c' :: cs) df = Raise (KeyError c').
Proof. intros H H'. unfold dropna. cbn [List.find]. by rewrite H, H'. Qed.

Lemma italy_table_columns tax_col df c :
  has_column
    (coerced_all parse_float
       (List.filter
          (has_column
             (ItalyBaseline.coerced_present parse_float ["profit_before_tax"; tax_col] df))
          controls)
       (ItalyBaseline.coerced_present parse_float ["profit_before_tax"; tax_col] df)) c
  = has_column df c.
Proof.
  unfold has_column.
  rewrite columns_coerced_all by apply valid_controls_present.
  by rewrite columns_coerced_present.
Qed.

End ItalyMissing.

(** X2: [create_global_clean_bases] of the Italy baseline study coerces
    every present column among profit, tax and the controls in the caller's
    table before it looks for missing ones, so the table is coerced also
    when the call fails; it raises [KeyError] for the profit column if that
    is missing, else for the tax column if that is missing, and returns its
    bases otherwise. *)
Theorem italy_builder_missing_column
    (np_log : float -> float) (parse_float : string -> float)
    (tax_col : string) (df : DataFrame) :
  (ItalyBaseline.create_global_clean_bases np_log parse_float tax_col df).1
  = coerced_all parse_float
      (List.filter (has_column df) (["profit_before_tax"; tax_col] ++ controls)) df
  ∧ (has_column df "profit_before_tax" = false →
     (ItalyBaseline.create_global_clean_bases np_log parse_float tax_col df).2
     = Raise (KeyError "profit_before_tax"))
  ∧ (has_column df "profit_before_tax" = true → has_column df tax_col = false →
     (ItalyBaseline.create_global_clean_bases np_log parse_float tax_col df).2
     = Raise (KeyError tax_col))
  ∧ (has_column df "profit_before_tax" = true → has_column df tax_col = true →
     ∃ out, (ItalyBaseline.create_global_clean_bases np_log parse_float tax_col df).2
            = Ok out).
Proof.
  rewrite italy_builder_run. cbv zeta. cbn [fst snd].
  set (df1 := ItalyBaseline.coerced_present parse_float ["profit_before_tax"; tax_col] df).
  set (vc := List.filter (has_column df1) controls).
  set (df2 := coerced_all parse_float vc df1).
  assert (Hcol : ∀ c, has_column df2 c = has_column df c)
    by (intros c; apply italy_table_columns).
  split; [| split; [| split]].
  - unfold df2, vc, df1. rewrite coerced_present_filter, <- coerced_all_app.
    f_equal. rewrite List.filter_app. f_equal.
    apply filter_ext. intros c. unfold has_column.
    rewrite columns_coerced_all; [done |].
    apply Forall_forall. intros c' Hc'. apply list_elem_of_In, filter_In in Hc'.
    exact (proj2 Hc').
  - intros Hp. rewrite dropna_raises_first; [done |]. by rewrite Hcol.
  - intros Hp Ht. rewrite dropna_raises_second; [done | |]; by rewrite Hcol.
  - intros Hp Ht.
    rewrite dropna_ok by (repeat constructor; by rewrite Hcol).
    rewrite dropna_ok; [eauto |].
    apply Forall_app. split; [repeat constructor; by rewrite Hcol |].
    apply Forall_forall. intros c Hc. rewrite Hcol.
    apply list_elem_of_In, filter_In in Hc. destruct Hc as [_ Hc].
    unfold df1, has_column in Hc. rewrite columns_coerced_present in Hc. exact Hc.
Qed.

(** ** Base 2 against Base 1 *)

Section BaseTwo.
Variable np_log : float -> float.
Variable parse_float : string -> float.

Lemma filter_all_false {A} (p : A -> bool) (l : list A) :
  (∀ x, In x l → p x = false) → List.filter p l = [].
Proof.
  induction l as [| x l IH]; intros H; simpl; [done |].
  rewrite (H x) by by left. apply IH. intros y Hy. apply H. by right.
Qed.

Lemma length_filter_impl {A} (p q : A -> bool) (l : list A) :
  (∀ x, In x l → p x = true → q x = true) →
  (length (List.filter p l) ≤ length (List.filter q l))%nat.
Proof.
  induction l as [| x l IH]; intros H; simpl; [done |].
  assert (IH' := IH (fun y Hy => H y (or_intror Hy))).
  destruct (p x) eqn:Ep.
  - rewrite (H x (or_introl eq_refl) Ep). simpl. lia.
  - destruct (q x); simpl; lia.
Qed.

Lemma len_mask_le p d : (len (mask p d) ≤ len d)%nat.
Proof. unfold len, mask; simpl. apply List.filter_length_le. Qed.

Lemma len_log_control c d : (len (log_control np_log c d) ≤ len d)%nat.
Proof. unfold log_control. rewrite len_assign. apply len_mask_le. Qed.

Lemma len_fold_log_control vc d :
  (len (fold_left (fun g c => log_control np_log c g) vc d) ≤ len d)%nat.
Proof.
  revert d. induction vc as [| c vc IH]; intros d; simpl; [done |].
  etrans; [apply IH | apply len_log_control].
Qed.

(** The rows [profit_etr_steps] keeps, in terms of the rows it is given. *)
Lemma profit_etr_steps_len etr_min etr_max tax_col gb :
  len (profit_etr_steps np_log etr_min etr_max tax_col gb)
  = length (List.filter
              (fun r => (0 <? fnum r "profit_before_tax")
                        && ((etr_min <=? etr_of tax_col r) && (etr_of tax_col r <? etr_max)))
              (rows gb)).
Proof.
  unfold profit_etr_steps. rewrite !len_assign. unfold len, mask, assign; simpl.
  rewrite filter_map_swap, length_map, filter_filter_and.
  f_equal. apply filter_ext. intros r. by rewrite fnum_insert_eq.
Qed.

End BaseTwo.

(** X3: when the table has none of the three control columns, the baseline
    builders return an empty control list and a Base 2 that is Base 1. *)
Theorem no_control_columns
    (np_log : float -> float) (parse_float : string -> float)
    (tax_col : string) (df df' gb1 gb2 : DataFrame) (logged_controls : list string) :
  (∀ c, In c controls → has_column df c = false) →
  Germany.create_global_clean_bases np_log parse_float tax_col df
    = (df', Ok (gb1, gb2, logged_controls))
  ∨ ItalyBaseline.create_global_clean_bases np_log parse_float tax_col df
    = (df', Ok (gb1, gb2, logged_controls)) →
  logged_controls = [] ∧ gb2 = gb1.
Proof.
  intros Hno [H | H].
  - destruct (germany_builder_inv _ _ _ _ _ _ H) as [Hp Ht].
    rewrite (germany_builder_ok _ _ _ _ Hp Ht) in H. cbv zeta in H.
    assert (Hvc : List.filter (has_column
                    (coerced_all parse_float ["profit_before_tax"; tax_col] df)) controls
                  = []).
    { apply filter_all_false. intros c Hc.
      rewrite has_column_coerced_all_eq by (repeat constructor; done). by apply Hno. }
    rewrite Hvc in H. rewrite app_nil_r in H. cbn [fold_left map coerced_all] in H.
    injection H as _ <- <- <-. done.
  - rewrite italy_builder_run in H. cbv zeta in H.
    assert (Hvc : List.filter (has_column
                    (ItalyBaseline.coerced_present parse_float
                       ["profit_before_tax"; tax_col] df)) controls = []).
    { apply filter_all_false. intros c Hc. unfold has_column.
      rewrite columns_coerced_present. by apply Hno. }
    rewrite Hvc in H. rewrite app_nil_r in H. cbn [fold_left map coerced_all] in H.
    destruct (dropna _ _) as [g1 |]; [| discriminate].
    injection H as _ <- <- <-. done.
Qed.

(** On the table without control columns. *)
Lemma no_control_columns_witness :
  ∃ df' gb,
    Germany.create_global_clean_bases sample_log no_number "tax_accrued" bare_table
    = (df', Ok (gb, gb, []))
    ∧ len gb = 1%nat.
Proof.
  set (run := Germany.create_global_clean_bases sample_log no_number "tax_accrued"
                bare_table).
  set (out := value_or (empty_frame, empty_frame, []) run.2).
  assert (E : run = (run.1, Ok (out.1.1, out.1.2, out.2))) by (vm_compute; reflexivity).
  assert (Hno : ∀ c, In c controls → has_column bare_table c = false).
  { intros c [<- | [<- | [<- | []]]]; reflexivity. }
  destruct (no_control_columns sample_log no_number "tax_accrued" bare_table
              run.1 out.1.1 out.1.2 out.2 Hno (or_introl E)) as [Hlc Hgb].
  exists run.1, out.1.1. split.
  - rewrite E at 1. by rewrite Hlc, Hgb.
  - vm_compute. reflexivity.
Defined.

Section Subsample.
Variable np_log : float -> float.
Variable parse_float : string -> float.

(** Coercing a column a second time changes nothing in a row. *)
Lemma coerced_row_again cs1 cs2 (r : Row) c :
  c ∈ cs1 →
  coerced_row parse_float cs2 (coerced_row parse_float cs1 r) !! c
  = coerced_row parse_float cs1 r !! c.
Proof.
  intros Hc. rewrite (lookup_coerced_row _ cs2).
  case_bool_decide as H2; [| done].
  rewrite lookup_coerced_row, bool_decide_true by done. done.
Qed.

Lemma baseline_steps_le etr_min etr_max tax_col vc d1 d2 :
  (length (List.filter
     (fun r => (0 <? fnum r "profit_before_tax")
               && ((etr_min <=? etr_of tax_col r) && (etr_of tax_col r <? etr_max)))%float
     (rows d2))
   ≤ length (List.filter
     (fun r => (0 <? fnum r "profit_before_tax")
               && ((etr_min <=? etr_of tax_col r) && (etr_of tax_col r <? etr_max)))%float
     (rows d1)))%nat →
  (len (fold_left (fun g c => log_control np_log c g) vc
          (profit_etr_steps np_log etr_min etr_max tax_col d2))
   ≤ len (profit_etr_steps np_log etr_min etr_max tax_col d1))%nat.
Proof.
  intros H. etrans; [apply len_fold_log_control |].
  by rewrite !profit_etr_steps_len.
Qed.

End Subsample.

(** Base 2 of the Germany study is cut from the table after the controls
    were coerced too; the profit and tax cells are the same there. *)
Lemma germany_base2_size
    (np_log : float -> float) (parse_float : string -> float)
    (tax_col : string) (df df' gb1 gb2 : DataFrame) (ctrls : list string) :
  Germany.create_global_clean_bases np_log parse_float tax_col df
    = (df', Ok (gb1, gb2, ctrls)) →
  (len gb2 ≤ len gb1)%nat.
Proof.
  intros H. destruct (germany_builder_inv _ _ _ _ _ _ H) as [Hp Ht].
  rewrite (germany_builder_ok _ _ _ _ Hp Ht) in H. cbv zeta in H.
  set (df1 := coerced_all parse_float ["profit_before_tax"; tax_col] df) in *.
  set (vc := List.filter (has_column df1) controls) in *.
  injection H as _ <- <- _.
  apply baseline_steps_le. unfold mask; cbn [rows].
  rewrite rows_coerced_all, !filter_filter_and, filter_map_swap, length_map.
  apply length_filter_impl. intros r Hr.
  unfold df1 in Hr. rewrite rows_coerced_all in Hr.
  apply in_map_iff in Hr as (r0 & <- & _).
  set (r := coerced_row parse_float ["profit_before_tax"; tax_col] r0).
  assert (Ep : coerced_row parse_float vc r !! "profit_before_tax"
               = r !! "profit_before_tax").
  { apply coerced_row_again, list_elem_of_here. }
  assert (Et : coerced_row parse_float vc r !! tax_col = r !! tax_col).
  { apply coerced_row_again. apply elem_of_cons. right. apply list_elem_of_here. }
  unfold etr_of, fnum, complete_on. cbn [forallb app].
  rewrite Ep, Et. intros Hk.
  apply andb_true_iff in Hk as [Hc Hk]. apply andb_true_iff in Hc as [Hc1 Hc].
  apply andb_true_iff in Hc as [Hc2 _].
  by rewrite Hc1, Hc2, Hk.
Qed.

(** Both bases of the Italy baseline study are cut from one table. *)
Lemma italy_base2_size
    (np_log : float -> float) (parse_float : string -> float)
    (tax_col : string) (df df' gb1 gb2 : DataFrame) (ctrls : list string) :
  ItalyBaseline.create_global_clean_bases np_log parse_float tax_col df
    = (df', Ok (gb1, gb2, ctrls)) →
  (len gb2 ≤ len gb1)%nat.
Proof.
  intros H. rewrite italy_builder_run in H. cbv zeta in H.
  set (df1 := ItalyBaseline.coerced_present parse_float _ df) in *.
  set (vc := List.filter (has_column df1) controls) in *.
  destruct (dropna ["profit_before_tax"; tax_col] _) as [g1 |] eqn:E1; [| discriminate].
  destruct (dropna _ _) as [g2 |] eqn:E2 in H; [| discriminate].
  injection H as _ <- <- _.
  apply dropna_inv in E1 as ->. apply dropna_inv in E2 as ->.
  apply baseline_steps_le. unfold mask; cbn [rows].
  rewrite !filter_filter_and. apply length_filter_impl. intros r _.
  unfold complete_on. cbn [forallb app]. intros Hk.
  apply andb_true_iff in Hk as [Hc Hk]. apply andb_true_iff in Hc as [Hc1 Hc].
  apply andb_true_iff in Hc as [Hc2 _].
  by rewrite Hc1, Hc2, Hk.
Qed.

(** X4: Base 2 never has more rows than Base 1, in the two baseline studies
    and in the analysis script. *)
Theorem base2_no_larger
    (np_log : float -> float) (parse_float : string -> float)
    (tax_col : string) (df df' gb1 gb2 : DataFrame) (ctrls : list string) :
  Germany.create_global_clean_bases np_log parse_float tax_col df
    = (df', Ok (gb1, gb2, ctrls))
  ∨ ItalyBaseline.create_global_clean_bases np_log parse_float tax_col df
    = (df', Ok (gb1, gb2, ctrls))
  ∨ AnalysisScript.prepare_datasets np_log df tax_col = Ok (Some (gb1, gb2, ctrls)) →
  (len gb2 ≤ len gb1)%nat.
Proof.
  intros [H | [H | H]].
  - by eapply germany_base2_size.
  - by eapply italy_base2_size.
  - apply analysis_prepare_inv in H as (_ & _ & _ & _ & ->).
    etrans; [apply len_fold_log_control | apply len_mask_le].
Qed.

(** On the sample table: Base 2 is strictly smaller there. *)
Lemma base2_no_larger_witness :
  ∃ df' gb1 gb2 ctrls,
    Germany.create_global_clean_bases sample_log no_number "tax_accrued" sample_table
    = (df', Ok (gb1, gb2, ctrls))
    ∧ (len gb2 ≤ len gb1)%nat ∧ (len gb2 < len gb1)%nat.
Proof.
  set (run := Germany.create_global_clean_bases sample_log no_number "tax_accrued"
                sample_table).
  set (out := value_or (empty_frame, empty_frame, []) run.2).
  assert (E : run = (run.1, Ok (out.1.1, out.1.2, out.2))) by (vm_compute; reflexivity).
  exists run.1, out.1.1, out.1.2, out.2. split; [exact E |]. split.
  - exact (base2_no_larger sample_log no_number "tax_accrued" sample_table
             run.1 out.1.1 out.1.2 out.2 (or_introl E)).
  - vm_compute. lia.
Defined.

(** ** The rate stored in a base row *)

Section Rate.
Variable np_log : float -> float.

Lemma not_derived tax_col c :
  tax_col ∉ derived_columns → c ∈ derived_columns → c ≠ tax_col.
Proof. intros Hn Hc ->. by apply Hn. Qed.

Lemma ln_control_derived c : c ∈ controls → ("ln_" +:+ c) ∈ derived_columns.
Proof.
  unfold controls, derived_columns. intros Hc.
  repeat (apply elem_of_cons in Hc as [-> | Hc]); [| | | by apply elem_of_nil in Hc];
    simpl; rewrite !elem_of_cons; tauto.
Qed.

Lemma profit_not_derived : "profit_before_tax" ∉ derived_columns.
Proof.
  unfold derived_columns. intros H.
  repeat (apply elem_of_cons in H as [H | H]; [discriminate H |]).
  by apply elem_of_nil in H.
Qed.

(** Writing a derived column other than [ETR] keeps the rate of the row. *)
Lemma etr_defined_insert tax_col k v (r : Row) :
  tax_col ∉ derived_columns → k ∈ derived_columns → k ≠ "ETR" →
  etr_defined tax_col r → etr_defined tax_col (<[k := v]> r).
Proof.
  intros Ht Hk Hne H. unfold etr_defined, etr_of in *.
  rewrite lookup_insert_ne by done.
  rewrite !fnum_insert_ne; [done | |].
  - intros ->. by apply profit_not_derived.
  - by apply not_derived.
Qed.

(** Writing [ETR] establishes it. *)
Lemma etr_defined_set tax_col (r : Row) :
  tax_col ∉ derived_columns →
  etr_defined tax_col
    (<["ETR" := Num (fnum r tax_col / fnum r "profit_before_tax")]> r).
Proof.
  intros Ht. unfold etr_defined, etr_of.
  rewrite lookup_insert_eq, !fnum_insert_ne; [done | done |].
  apply not_derived; [done |]. unfold derived_columns. apply list_elem_of_here.
Qed.

Lemma derived_ln_profits : "ln_profits" ∈ derived_columns.
Proof. unfold derived_columns. rewrite !elem_of_cons. tauto. Qed.

Lemma derived_ETR_sq : "ETR_sq" ∈ derived_columns.
Proof. unfold derived_columns. rewrite !elem_of_cons. tauto. Qed.

Lemma profit_etr_steps_rate etr_min etr_max tax_col gb :
  tax_col ∉ derived_columns →
  Forall (etr_defined tax_col)
         (rows (profit_etr_steps np_log etr_min etr_max tax_col gb)).
Proof.
  intros Ht. apply List.Forall_forall. intros r5 H5. unfold profit_etr_steps in H5.
  apply in_rows_assign in H5 as (r4 & -> & H4).
  apply in_rows_assign in H4 as (r3 & -> & H3).
  apply in_rows_mask in H3 as [H3 _].
  apply in_rows_assign in H3 as (r1 & -> & _).
  apply etr_defined_insert; [done | apply derived_ETR_sq | done |].
  apply etr_defined_insert; [done | apply derived_ln_profits | done |].
  by apply etr_defined_set.
Qed.

Lemma fold_log_control_rate tax_col vc gb :
  tax_col ∉ derived_columns →
  Forall (fun c => c ∈ controls) vc →
  Forall (etr_defined tax_col) (rows gb) →
  Forall (etr_defined tax_col)
         (rows (fold_left (fun g c => log_control np_log c g) vc gb)).
Proof.
  intros Ht Hvc. revert gb. induction Hvc as [| c vc Hc _ IH]; intros gb H; simpl.
  - exact H.
  - apply IH. unfold log_control.
    eapply Forall_rows_assign; [| apply (Forall_rows_mask _ _ _ H)].
    intros r [Hr _].
    apply etr_defined_insert; [done | by apply ln_control_derived | | done].
    simpl. discriminate.
Qed.

Lemma analysis_base1_rate tax_col d :
  tax_col ∉ derived_columns →
  Forall (etr_defined tax_col) (rows (base1_table np_log tax_col d)).
Proof.
  intros Ht. apply List.Forall_forall. intros r5 H5.
  unfold base1_table in H5.
  apply in_rows_assign in H5 as (r4 & -> & H4).
  apply in_rows_assign in H4 as (r3 & -> & H3).
  apply in_rows_mask in H3 as [H3 _].
  apply in_rows_assign in H3 as (r1 & -> & _).
  apply etr_defined_insert; [done | apply derived_ETR_sq | done |].
  apply etr_defined_insert; [done | apply derived_ln_profits | done |].
  by apply etr_defined_set.
Qed.

Lemma comprehensive_filters_rate tax_col data :
  tax_col ∉ derived_columns →
  Forall (etr_defined tax_col)
         (rows (final_table np_log tax_col data)).
Proof.
  intros Ht. apply List.Forall_forall. intros r9 H9.
  unfold final_table, controls in H9. simpl fold_left in H9.
  apply in_rows_assign in H9 as (r8 & -> & H8).
  apply in_rows_assign in H8 as (r7 & -> & H7).
  apply in_rows_assign in H7 as (r6 & -> & H6).
  apply in_rows_assign in H6 as (r5 & -> & H5).
  apply in_rows_assign in H5 as (r4 & -> & H4).
  do 4 (apply in_rows_mask in H4 as [H4 _]).
  apply in_rows_mask in H4 as [H4 _].
  apply in_rows_assign in H4 as (r1 & -> & _).
  assert (Hd : ∀ k, In k derived_columns → k ∈ derived_columns)
    by (intros k; apply list_elem_of_In).
  repeat (apply etr_defined_insert;
          [done | apply Hd; unfold derived_columns; simpl; tauto | simpl; discriminate |]).
  by apply etr_defined_set.
Qed.

End Rate.

(** X5: for a tax column that is none of the derived columns, every row of
    every base of the four builders stores in [ETR] the row's tax over the
    row's profit, as the row holds them. *)
Theorem etr_is_tax_over_profit
    (np_log : float -> float) (parse_float : string -> float)
    (rng : Type) (RandomState : Z -> rng)
    (impute : float -> nat -> rng -> list (list float) -> list (list float))
    (tax_col : string) :
  tax_col ∉ derived_columns →
  (∀ df df' gb1 gb2 logged_controls,
     Germany.create_global_clean_bases np_log parse_float tax_col df
       = (df', Ok (gb1, gb2, logged_controls))
     ∨ ItalyBaseline.create_global_clean_bases np_log parse_float tax_col df
       = (df', Ok (gb1, gb2, logged_controls))
     ∨ AnalysisScript.prepare_datasets np_log df tax_col
       = Ok (Some (gb1, gb2, logged_controls)) →
     Forall (etr_defined tax_col) (rows gb1) ∧ Forall (etr_defined tax_col) (rows gb2))
  ∧ (∀ global_rng method df data msg,
       ItalyComprehensive.prepare_data_and_analyze np_log rng RandomState impute
         global_rng df tax_col method = Ok (Some data, msg) →
       Forall (etr_defined tax_col) (rows data)).
Proof.
  intros Ht. split.
  - intros df df' gb1 gb2 lc [H | [H | H]].
    + destruct (germany_builder_inv _ _ _ _ _ _ H) as [Hp Hc].
      rewrite (germany_builder_ok _ _ _ _ Hp Hc) in H. cbv zeta in H.
      injection H as _ <- <- _. split.
      * by apply profit_etr_steps_rate.
      * apply fold_log_control_rate; [done | apply filter_controls_sub |].
        by apply profit_etr_steps_rate.
    + rewrite italy_builder_run in H. cbv zeta in H.
      destruct (dropna ["profit_before_tax"; tax_col] _) as [g1 |]; [| discriminate].
      destruct (dropna _ _) as [g2 |]; [| discriminate].
      injection H as _ <- <- _. split.
      * by apply profit_etr_steps_rate.
      * apply fold_log_control_rate; [done | apply filter_controls_sub |].
        by apply profit_etr_steps_rate.
    + apply analysis_prepare_inv in H as (_ & _ & -> & Hvc & ->). split.
      * by apply analysis_base1_rate.
      * apply fold_log_control_rate; [done | rewrite Hvc; apply filter_controls_sub |].
        apply Forall_rows_mask_keep. by apply analysis_base1_rate.
  - intros g method df data msg H.
    apply comprehensive_prepare_inv in H as (cand & d & _ & _ & _ & -> & _).
    by apply comprehensive_filters_rate.
Qed.

(** On the sample table with the accrued tax. *)
Lemma etr_is_tax_over_profit_witness :
  ("tax_accrued" ∉ derived_columns)
  ∧ (∃ df' gb1 gb2 logged_controls,
      Germany.create_global_clean_bases sample_log no_number "tax_accrued" sample_table
        = (df', Ok (gb1, gb2, logged_controls))
      ∧ len gb1 = 2%nat
      ∧ Forall (etr_defined "tax_accrued") (rows gb1)
      ∧ Forall (etr_defined "tax_accrued") (rows gb2)).
Proof.
  assert (Ht : "tax_accrued" ∉ derived_columns).
  { unfold derived_columns. intros H.
    repeat (apply elem_of_cons in H as [H | H]; [discriminate H |]).
    by apply elem_of_nil in H. }
  split; [exact Ht |].
  set (run := Germany.create_global_clean_bases sample_log no_number "tax_accrued"
                sample_table).
  set (out := value_or (empty_frame, empty_frame, []) run.2).
  assert (E : run = (run.1, Ok (out.1.1, out.1.2, out.2)))
    by (vm_compute; reflexivity).
  exists run.1, out.1.1, out.1.2, out.2.
  split; [exact E |]. split; [vm_compute; reflexivity |].
  exact (proj1 (etr_is_tax_over_profit sample_log no_number unit (fun _ => tt)
                  (fun _ _ _ m => m) "tax_accrued" Ht)
           _ _ _ _ _ (or_introl E)).
Defined.

(** ** The cycle of the analysis script *)

Section Cycle.
Variable np_log : float -> float.
Variable ols_fit : string -> DataFrame -> res OLSResults.

Lemma analysis_valid_controls_present (base : DataFrame) :
  Forall (fun c => has_column base c = true)
    (List.filter (fun ctrl => has_column base ctrl
                              && (5 <? AnalysisScript.count_positive ctrl base)%nat)
       controls).
Proof.
  apply Forall_forall. intros c Hc. apply list_elem_of_In, filter_In in Hc.
  destruct Hc as [_ Hc]. by apply andb_true_iff in Hc as [Hc _].
Qed.

Lemma holds_text_false c d :
  holds_text c d = false ↔ ∀ r, In r (rows d) → text_cell (r !! c) = false.
Proof.
  unfold holds_text. split.
  - intros H r Hr. destruct (text_cell (r !! c)) eqn:E; [| done].
    assert (existsb (fun r : Row => text_cell (r !! c)) (rows d) = true)
      by (apply existsb_exists; eauto). congruence.
  - intros H. destruct (existsb _ _) eqn:E; [| done].
    apply existsb_exists in E as (r & Hr & Ht). rewrite (H r Hr) in Ht. discriminate.
Qed.

Lemma holds_text_mask c p d : holds_text c d = false → holds_text c (mask p d) = false.
Proof.
  rewrite !holds_text_false. intros H r Hr. apply in_rows_mask in Hr as [Hr _]. auto.
Qed.

Lemma holds_text_assign c name (g : Row -> float) d :
  holds_text c d = false → holds_text c (assign name (fun r => Num (g r)) d) = false.
Proof.
  rewrite !holds_text_false. intros H r' Hr'.
  apply in_rows_assign in Hr' as (r & -> & Hr).
  destruct (decide (name = c)) as [-> | Hne].
  - by rewrite lookup_insert_eq.
  - rewrite lookup_insert_ne by done. auto.
Qed.

Lemma holds_text_base1_table c tax_col d :
  holds_text c d = false → holds_text c (base1_table np_log tax_col d) = false.
Proof.
  intros H. unfold base1_table.
  do 2 apply holds_text_assign. apply holds_text_mask. by apply holds_text_assign.
Qed.

Lemma base1_steps_numbers tax_col d :
  holds_text tax_col d = false → holds_text "profit_before_tax" d = false →
  AnalysisScript.base1_steps np_log tax_col d = Ok (base1_table np_log tax_col d).
Proof.
  intros Ht Hp. unfold AnalysisScript.base1_steps, assign_quotient.
  by rewrite Ht, Hp.
Qed.

Lemma select_controls_numbers cs b :
  (∀ c, In c cs → holds_text c b = false) →
  AnalysisScript.select_controls cs b
  = Ok (List.filter (fun ctrl => has_column b ctrl
                                 && (5 <? AnalysisScript.count_positive ctrl b)%nat) cs).
Proof.
  induction cs as [| c cs IH]; intros H;
    cbn [AnalysisScript.select_controls List.filter]; [done |].
  rewrite IH by (intros c' Hc'; apply H; by right).
  destruct (has_column b c); cbn [andb]; [| done].
  rewrite (H c) by by left. by destruct (5 <? _)%nat.
Qed.

(** On a table with the profit and tax columns that holds no text in them
    or in a control, [prepare_datasets] returns its bases: the second
    [dropna] names only columns of Base 1. *)
Lemma analysis_prepare_ok df tax_col :
  has_column df tax_col = true → has_column df "profit_before_tax" = true →
  (∀ c, In c (tax_col :: "profit_before_tax" :: controls) → holds_text c df = false) →
  let base1 := base1_table np_log tax_col
                 (mask (complete_on ["profit_before_tax"; tax_col]) df) in
  let vc := List.filter (fun ctrl => has_column base1 ctrl
              && (5 <? AnalysisScript.count_positive ctrl base1)%nat) controls in
  AnalysisScript.prepare_datasets np_log df tax_col
  = Ok (Some (base1,
              fold_left (fun g c => log_control np_log c g) vc
                (mask (complete_on vc) base1),
              vc)).
Proof.
  intros Ht Hp Hnum base1 vc. unfold AnalysisScript.prepare_datasets.
  rewrite Ht. cbn [negb]. rewrite dropna_ok by (repeat constructor; done).
  rewrite base1_steps_numbers;
    [| apply holds_text_mask, Hnum; by left
     | apply holds_text_mask, Hnum; right; by left].
  cbv zeta. fold base1.
  rewrite select_controls_numbers.
  2:{ intros c Hc. unfold base1. apply holds_text_base1_table, holds_text_mask, Hnum.
      right. by right. }
  fold vc.
  rewrite dropna_ok by apply analysis_valid_controls_present. done.
Qed.

(** A text in the tax or the profit column, in a row that has both, stops
    the preparation at the division. *)
Lemma analysis_prepare_text df tax_col :
  has_column df tax_col = true → has_column df "profit_before_tax" = true →
  holds_text tax_col (mask (complete_on ["profit_before_tax"; tax_col]) df)
  || holds_text "profit_before_tax" (mask (complete_on ["profit_before_tax"; tax_col]) df)
  = true →
  AnalysisScript.prepare_datasets np_log df tax_col = Raise TypeError.
Proof.
  intros Ht Hp Htext. unfold AnalysisScript.prepare_datasets.
  rewrite Ht. cbn [negb]. rewrite dropna_ok by (repeat constructor; done).
  unfold AnalysisScript.base1_steps, assign_quotient. by rewrite Htext.
Qed.

Lemma analysis_prepare_no_profit df tax_col :
  has_column df tax_col = true → has_column df "profit_before_tax" = false →
  AnalysisScript.prepare_datasets np_log df tax_col
  = Raise (KeyError "profit_before_tax").
Proof.
  intros Ht Hp. unfold AnalysisScript.prepare_datasets. rewrite Ht. cbn [negb].
  unfold dropna. cbn [List.find]. by rewrite Hp.
Qed.

Lemma mask_all (p : Row -> bool) df :
  (∀ r, In r (rows df) → p r = true) → mask p df = df.
Proof.
  intros H. destruct df as [cols rs]. unfold mask; cbn [columns rows] in *. f_equal.
  induction rs as [| r rs IH]; simpl; [done |].
  rewrite (H r) by by left. f_equal. apply IH. intros r' Hr'. apply H. by right.
Qed.

Lemma count_positive_le c df : (AnalysisScript.count_positive c df ≤ len df)%nat.
Proof. unfold AnalysisScript.count_positive, len. apply List.filter_length_le. Qed.

End Cycle.

(** X6: the outcomes of a cycle of the analysis script.  Without the tax
    column the cycle does nothing: no sheet, no line of the report.  With
    the tax column and without the profit column [KeyError] goes through.
    With both, on a table that holds no text in the tax, profit and control
    columns, it stores the two bases and appends the heading and the texts
    of M1 and M2, and those of M3 and M4 exactly when a control was
    returned; a text in the tax or the profit column, in a row that has
    both, makes the division raise [TypeError], which goes through. *)
Theorem analysis_cycle_outcomes
    (np_log : float -> float) (ols_fit : string -> DataFrame -> res OLSResults)
    (self : AnalysisScript.Pipeline) (df : DataFrame) (tax_col label : string) :
  (has_column df tax_col = false →
     AnalysisScript.prepare_datasets np_log df tax_col = Ok None
     ∧ AnalysisScript.run_cycle np_log ols_fit self df tax_col label = Ok self)
  ∧ (has_column df tax_col = true → has_column df "profit_before_tax" = false →
       AnalysisScript.run_cycle np_log ols_fit self df tax_col label
       = Raise (KeyError "profit_before_tax"))
  ∧ (has_column df tax_col = true → has_column df "profit_before_tax" = true →
     (∀ c, In c (tax_col :: "profit_before_tax" :: controls) → holds_text c df = false) →
       ∃ b1 b2 ctrls self',
         AnalysisScript.prepare_datasets np_log df tax_col = Ok (Some (b1, b2, ctrls))
         ∧ AnalysisScript.run_cycle np_log ols_fit self df tax_col label = Ok self'
         ∧ AnalysisScript.sheets self'
           = AnalysisScript.dict_set (label +:+ "_BASE2") b2
               (AnalysisScript.dict_set (label +:+ "_BASE1") b1
                  (AnalysisScript.sheets self))
         ∧ ∃ new, AnalysisScript.final_report self'
                  = AnalysisScript.final_report self ++ new
                  ∧ length new = (if bool_decide (ctrls = []) then 3 else 5)%nat)
  ∧ (has_column df tax_col = true → has_column df "profit_before_tax" = true →
     holds_text tax_col (mask (complete_on ["profit_before_tax"; tax_col]) df)
     || holds_text "profit_before_tax"
          (mask (complete_on ["profit_before_tax"; tax_col]) df) = true →
       AnalysisScript.prepare_datasets np_log df tax_col = Raise TypeError
       ∧ AnalysisScript.run_cycle np_log ols_fit self df tax_col label = Raise TypeError).
Proof.
  split; [| split; [| split]]; cycle 3.
  { intros Ht Hp Htext.
    pose proof (analysis_prepare_text np_log df tax_col Ht Hp Htext) as E.
    split; [exact E |]. unfold AnalysisScript.run_cycle. by rewrite E. }
  - intros Ht. unfold AnalysisScript.run_cycle, AnalysisScript.prepare_datasets.
    by rewrite Ht.
  - intros Ht Hp. unfold AnalysisScript.run_cycle.
    by rewrite analysis_prepare_no_profit.
  - intros Ht Hp Hnum. unfold AnalysisScript.run_cycle.
    rewrite (analysis_prepare_ok np_log df tax_col Ht Hp Hnum). cbv zeta.
    set (b1 := base1_table np_log tax_col _).
    set (vc := List.filter _ controls).
    set (b2 := fold_left _ vc _).
    do 3 eexists. eexists. split; [reflexivity |]. split; [reflexivity |].
    cbn [AnalysisScript.sheets AnalysisScript.final_report].
    split; [reflexivity |].
    destruct vc as [| c vc'].
    + eexists. split; [reflexivity |]. reflexivity.
    + eexists. split; [by rewrite <- app_assoc |]. reflexivity.
Qed.

(** On the table of three firms, which holds numbers only, the cycle
    returns; on the sample table, whose second firm has the text [n/a] for
    its accrued tax, the division raises. *)
Lemma analysis_cycle_outcomes_witness :
  (∃ self',
     AnalysisScript.run_cycle sample_log (sample_fit 1 (-2))
       {| AnalysisScript.sheets := []; AnalysisScript.final_report := [] |}
       few_italian "tax_accrued" "Accrued" = Ok self')
  ∧ AnalysisScript.run_cycle sample_log (sample_fit 1 (-2))
      {| AnalysisScript.sheets := []; AnalysisScript.final_report := [] |}
      sample_table "tax_accrued" "Accrued" = Raise TypeError.
Proof.
  split.
  - destruct (proj1 (proj2 (proj2
                (analysis_cycle_outcomes sample_log (sample_fit 1 (-2))
                   {| AnalysisScript.sheets := []; AnalysisScript.final_report := [] |}
                   few_italian "tax_accrued" "Accrued"))) eq_refl eq_refl)
      as (b1 & b2 & ctrls & self' & _ & Hrun & _).
    + intros c [<- | [<- | [<- | [<- | [<- | []]]]]]; vm_compute; reflexivity.
    + exists self'. exact Hrun.
  - apply (proj2 (proj2 (proj2
             (analysis_cycle_outcomes sample_log (sample_fit 1 (-2))
                {| AnalysisScript.sheets := []; AnalysisScript.final_report := [] |}
                sample_table "tax_accrued" "Accrued"))) eq_refl eq_refl).
    vm_compute. reflexivity.
Defined.

(** X7: when Base 1 of the analysis script has at most 5 rows, no control is
    returned, Base 2 is Base 1, and the cycle reports M1 and M2 only. *)
Theorem small_base_no_control_models
    (np_log : float -> float) (ols_fit : string -> DataFrame -> res OLSResults)
    (self : AnalysisScript.Pipeline) (df : DataFrame) (tax_col label : string)
    (b1 b2 : DataFrame) (ctrls : list string) :
  AnalysisScript.prepare_datasets np_log df tax_col = Ok (Some (b1, b2, ctrls)) →
  (len b1 ≤ 5)%nat →
  ctrls = [] ∧ b2 = b1
  ∧ AnalysisScript.run_cycle np_log ols_fit self df tax_col label
    = Ok {| AnalysisScript.sheets :=
              AnalysisScript.dict_set (label +:+ "_BASE2") b1
                (AnalysisScript.dict_set (label +:+ "_BASE1") b1
                   (AnalysisScript.sheets self));
            AnalysisScript.final_report :=
              AnalysisScript.final_report self
              ++ [[Title ("*** " +:+ label +:+ " Analysis ***")];
                  AnalysisScript.run_regression ols_fit b1 "ln_profits ~ ETR"
                    (label +:+ " M1");
                  AnalysisScript.run_regression ols_fit b1 "ln_profits ~ ETR + ETR_sq"
                    (label +:+ " M2")] |}.
Proof.
  intros H Hlen.
  pose proof (analysis_prepare_inv _ _ _ _ _ _ H) as (_ & _ & _ & Hvc & Hb2).
  assert (Hnil : ctrls = []).
  { rewrite Hvc. apply filter_all_false. intros c _.
    apply andb_false_iff. right. apply Nat.ltb_ge.
    etrans; [apply count_positive_le | exact Hlen]. }
  clear Hvc. subst ctrls. cbn [fold_left] in Hb2.
  assert (Hsame : b2 = b1).
  { rewrite Hb2. apply mask_all. by intros r _. }
  clear Hb2. subst b2. split; [done |]. split; [done |].
  unfold AnalysisScript.run_cycle. rewrite H. reflexivity.
Qed.

(** On the table of three firms, which holds numbers only, Base 1 has three
    rows. *)
Lemma small_base_no_control_models_witness :
  ∃ b1,
    AnalysisScript.prepare_datasets sample_log few_italian "tax_accrued"
    = Ok (Some (b1, b1, []))
    ∧ len b1 = 3%nat
    ∧ ∃ self',
        AnalysisScript.run_cycle sample_log (sample_fit 1 (-2))
          {| AnalysisScript.sheets := []; AnalysisScript.final_report := [] |}
          few_italian "tax_accrued" "Accrued" = Ok self'
        ∧ length (AnalysisScript.final_report self') = 3%nat.
Proof.
  set (run := AnalysisScript.prepare_datasets sample_log few_italian "tax_accrued").
  set (out := default (empty_frame, empty_frame, []) (value_or None run)).
  assert (E : run = Ok (Some (out.1.1, out.1.2, out.2))) by (vm_compute; reflexivity).
  assert (Hlen : (len out.1.1 ≤ 5)%nat) by (vm_compute; lia).
  destruct (small_base_no_control_models sample_log (sample_fit 1 (-2))
              {| AnalysisScript.sheets := []; AnalysisScript.final_report := [] |}
              few_italian "tax_accrued" "Accrued" out.1.1 out.1.2 out.2 E Hlen)
    as (Hc & Hb & Hrun).
  exists out.1.1. split; [| split].
  - rewrite E at 1. by rewrite Hc, Hb.
  - vm_compute. reflexivity.
  - eexists. split; [exact Hrun |]. reflexivity.
Defined.

(** ** The table of the comprehensive study *)

Section FloatFacts.

Lemma ltb_not_nan x y : (x <? y) = true → isnan x = false ∧ isnan y = false.
Proof. intros H. by apply leb_not_nan, ltb_leb. Qed.

(** A quotient that is a number has a numerator that is one. *)
Lemma div_not_nan x y : isnan (x / y) = false → isnan x = false.
Proof.
  rewrite !isnan_key. unfold fkey. rewrite FloatAxioms.div_spec.
  unfold SF64div, SFdiv.
  destruct (Prim2SF x) as [s | s | | s m e]; simpl; try done; intros _;
    destruct s; eauto.
Qed.

Lemma ltb_zero_pos_not_eqb x : (0 <? x) = true → (x =? 0) = false.
Proof.
  rewrite FloatAxioms.ltb_spec, FloatAxioms.eqb_spec. unfold SFltb, SFeqb.
  replace (Prim2SF 0) with (S754_zero false) by reflexivity.
  destruct (Prim2SF x) as [s | s | | s m e]; simpl; try done.
  - destruct s; done.
  - destruct s; done.
Qed.

(** A cell read as a positive number is a number, present and not zero. *)
Lemma positive_cell (r : Row) c :
  (0 <? fnum r c) = true →
  ∃ x, r !! c = Some (Num x) ∧ isnan x = false ∧ (x =? 0) = false.
Proof.
  unfold fnum. destruct (r !! c) as [[x | t] |]; intros H; try done.
  exists x. split; [done |]. split.
  - by apply ltb_not_nan in H as [_ H].
  - by apply ltb_zero_pos_not_eqb.
Qed.

Lemma number_cell (r : Row) c :
  isnan (fnum r c) = false → ∃ x, r !! c = Some (Num x) ∧ isnan x = false.
Proof. unfold fnum. destruct (r !! c) as [[x | t] |]; intros H; try done. eauto. Qed.

End FloatFacts.

Section Comprehensive.
Variable np_log : float -> float.

(** The standard filters and log transformations as one filter and one
    map over the rows they are given. *)
Lemma filters_and_logs_rows tax_col data :
  rows (final_table np_log tax_col data)
  = map (final_row np_log tax_col) (List.filter (kept_row tax_col) (rows data)).
Proof.
  unfold final_table, controls. cbn [fold_left].
  unfold assign, mask. cbn [rows].
  rewrite !filter_filter_and, filter_map_swap, filter_filter_and, !map_map.
  rewrite (filter_ext _ (kept_row tax_col)).
  - apply map_ext. intros r. unfold final_row, etr_of. simpl "+:+".
    rewrite !(fnum_insert_ne "ln_related_revenues"),
      !(fnum_insert_ne "ln_tangible_assets"), !(fnum_insert_ne "ln_employees"),
      !(fnum_insert_ne "ln_profits") by done.
    rewrite fnum_insert_eq, !(fnum_insert_ne "ETR") by done.
    reflexivity.
  - intros r. unfold kept_row, etr_of, controls. cbn [forallb].
    rewrite fnum_insert_eq, !(fnum_insert_ne "ETR") by done.
    unfold ItalyComprehensive.ETR_MIN, ItalyComprehensive.ETR_MAX.
    destruct (0 <? fnum r "profit_before_tax"); cbn [andb]; [| done].
    repeat match goal with |- context [?a <=? ?b] => destruct (a <=? b) end;
    repeat match goal with |- context [?a <? ?b] => destruct (a <? b) end; reflexivity.
Qed.

(** A row the standard filters keep has a number in the profit, the tax and
    every control column, and no zero control. *)
Lemma kept_row_cells tax_col (r : Row) :
  kept_row tax_col r = true →
  ∀ c, In c (["profit_before_tax"; tax_col] ++ controls) →
       negb (isna (r !! c)) = true
       ∧ (In c controls → negb (is_zero (r !! c)) = true).
Proof.
  unfold kept_row. intros H.
  apply andb_true_iff in H as [H Hctl]. apply andb_true_iff in H as [Hpos Hwin].
  apply andb_true_iff in Hwin as [Hlo _].
  rewrite forallb_forall in Hctl.
  assert (Hc : ∀ c, In c controls →
            negb (isna (r !! c)) = true ∧ negb (is_zero (r !! c)) = true).
  { intros c Hin. destruct (positive_cell r c (Hctl c Hin)) as (x & -> & Hn & Hz).
    simpl. by rewrite Hn, Hz. }
  assert (Hp : negb (isna (r !! "profit_before_tax")) = true).
  { destruct (positive_cell r _ Hpos) as (x & -> & Hn & _). simpl. by rewrite Hn. }
  assert (Ht : negb (isna (r !! tax_col)) = true).
  { apply leb_not_nan in Hlo as [_ Hlo]. unfold etr_of in Hlo.
    apply div_not_nan in Hlo.
    destruct (number_cell r _ Hlo) as (x & -> & Hn). simpl. by rewrite Hn. }
  intros c [<- | [<- | Hin]].
  - split; [done |]. intros Hin. by apply Hc.
  - split; [done |]. intros Hin. by apply Hc.
  - cbn [app] in Hin. split; [by apply Hc | intros _; by apply Hc].
Qed.

Lemma kept_row_complete tax_col (r : Row) :
  kept_row tax_col r = true →
  complete_on (["profit_before_tax"; tax_col] ++ controls) r = true.
Proof.
  intros H. unfold complete_on. apply forallb_forall. intros c Hc.
  by apply (kept_row_cells tax_col r H).
Qed.

(** The standard filters read the five columns of interest only. *)
Lemma kept_row_project tax_col (r : Row) :
  kept_row tax_col (project (["profit_before_tax"; tax_col] ++ controls) r)
  = kept_row tax_col r.
Proof.
  set (cols := ["profit_before_tax"; tax_col] ++ controls).
  assert (Hf : ∀ c, In c cols → fnum (project cols r) c = fnum r c).
  { intros c Hc. unfold fnum. rewrite lookup_project.
    by rewrite bool_decide_true by by apply list_elem_of_In. }
  unfold kept_row, etr_of, controls. cbn [forallb].
  rewrite !Hf by (unfold cols, controls; simpl; tauto). done.
Qed.

(** On the candidate row of a source row, the standard filters decide as on
    the source row, and a kept candidate row is the projected source row. *)
Lemma kept_candidate tax_col (r : Row) :
  let cols := ["profit_before_tax"; tax_col] ++ controls in
  kept_row tax_col (foldr (alter zero_to_nan) (project cols r) controls)
  = kept_row tax_col r
  ∧ (kept_row tax_col r = true →
     foldr (alter zero_to_nan) (project cols r) controls = project cols r).
Proof.
  intros cols.
  assert (Hid : kept_row tax_col r = true →
            foldr (alter zero_to_nan) (project cols r) controls = project cols r).
  { intros H. apply replaced_id. apply forallb_forall. intros c Hc.
    rewrite lookup_project, bool_decide_true
      by (apply list_elem_of_In; unfold cols; apply in_or_app; by right).
    apply (kept_row_cells tax_col r H); [apply in_or_app; by right | done]. }
  split; [| exact Hid].
  destruct (kept_row tax_col r) eqn:E.
  - rewrite Hid by done. unfold cols. by rewrite kept_row_project.
  - destruct (kept_row tax_col (foldr _ _ _)) eqn:E'; [| done].
    pose proof (kept_row_complete _ _ E') as Hc.
    pose proof (candidate_complete tax_col r) as Hcc. cbv zeta in Hcc.
    unfold cols in *. rewrite Hcc in Hc.
    rewrite (candidate_kept_unchanged tax_col r Hc) in E'.
    rewrite kept_row_project in E'. congruence.
Qed.

End Comprehensive.

(** X8: the table the comprehensive study returns under the complete-case
    method is the target country's rows that pass the standard filters
    (positive profit, rate in the window, positive controls), cut to the
    five columns of interest and extended by the derived columns, in their
    order.  Turning zeros into [nan] and the listwise deletion remove no row
    that the standard filters would have kept. *)
Theorem complete_case_table
    (np_log : float -> float) (rng : Type) (RandomState : Z -> rng)
    (impute : float -> nat -> rng -> list (list float) -> list (list float))
    (global_rng : rng) (df : DataFrame) (tax_col : string) (data : DataFrame)
    (msg : string) :
  ItalyComprehensive.prepare_data_and_analyze np_log rng RandomState impute
    global_rng df tax_col "CC" = Ok (Some data, msg) →
  rows data
  = map (fun r => final_row np_log tax_col
                    (project (["profit_before_tax"; tax_col] ++ controls) r))
      (List.filter (fun r => text_is "upe_name" "Italy" r && kept_row tax_col r)
         (rows df))
  ∧ msg = "".
Proof.
  intros H.
  apply comprehensive_prepare_inv in H as (cand & d & Ec & Er & _ & -> & ->).
  change (ItalyComprehensive.resolve_missing rng RandomState impute global_rng
            tax_col "CC" cand)
    with (Ok (Some (mask (complete_on (columns cand)) cand)) : res (option DataFrame))
    in Er.
  injection Er as <-. split; [| done].
  pose proof (candidate_table_inv _ _ _ Ec) as (_ & _ & Hcols & Hrows).
  cbv zeta in Hcols, Hrows.
  rewrite filters_and_logs_rows. unfold mask; cbn [rows]. rewrite Hcols, Hrows.
  set (cols := ["profit_before_tax"; tax_col] ++ controls).
  rewrite filter_filter_and.
  rewrite (filter_ext _ (kept_row tax_col)).
  2:{ intros m. destruct (kept_row tax_col m) eqn:E; [| apply andb_false_r].
      unfold cols. by rewrite (kept_row_complete _ _ E). }
  rewrite filter_map_swap, map_map, filter_filter_and.
  rewrite (filter_ext _ (fun r => text_is "upe_name" "Italy" r && kept_row tax_col r)).
  2:{ intros r. f_equal. apply (kept_candidate tax_col r). }
  apply map_ext_in. intros r Hr. apply filter_In in Hr as [_ Hr].
  apply andb_true_iff in Hr as [_ Hr].
  unfold cols. cbv beta. by rewrite (proj2 (kept_candidate tax_col r) Hr).
Qed.

(** Of the six Italian firms the four with a positive head count remain. *)
Lemma complete_case_table_witness :
  ∃ data,
    ItalyComprehensive.prepare_data_and_analyze sample_log unit (fun _ => tt)
      echo_impute tt negative_employees "tax_accrued" "CC" = Ok (Some data, "")
    ∧ rows data
      = map (fun r => final_row sample_log "tax_accrued"
                        (project (["profit_before_tax"; "tax_accrued"] ++ controls) r))
          (List.filter (fun r => text_is "upe_name" "Italy" r
                                 && kept_row "tax_accrued" r)
             (rows negative_employees))
    ∧ len data = 4%nat.
Proof.
  set (run := ItalyComprehensive.prepare_data_and_analyze sample_log unit (fun _ => tt)
                echo_impute tt negative_employees "tax_accrued" "CC").
  set (data := default empty_frame (value_or (None, "") run).1).
  assert (E : run = Ok (Some data, "")) by (vm_compute; reflexivity).
  exists data. split; [exact E |]. split.
  - exact (proj1 (complete_case_table sample_log unit (fun _ => tt) echo_impute tt
                    negative_employees "tax_accrued" data "" E)).
  - vm_compute. reflexivity.
Defined.

Section ComprehensiveControls.
Variable np_log : float -> float.

Lemma final_row_control tax_col (r : Row) c :
  In c controls →
  fnum (final_row np_log tax_col r) c = fnum r c
  ∧ final_row np_log tax_col r !! ("ln_" +:+ c) = Some (Num (np_log (fnum r c))).
Proof.
  unfold controls, final_row.
  intros [<- | [<- | [<- | []]]]; simpl "+:+";
    (split; [by rewrite !fnum_insert_ne by done |]).
  - by rewrite !(lookup_insert_ne _ _ "ln_employees"), lookup_insert_eq by done.
  - by rewrite !(lookup_insert_ne _ _ "ln_tangible_assets"), lookup_insert_eq by done.
  - by rewrite !(lookup_insert_ne _ _ "ln_related_revenues"), lookup_insert_eq by done.
Qed.

Lemma comprehensive_rows_logged tax_col data :
  Forall (fun r => ∀ c, In c controls → control_logged np_log c r)
         (rows (final_table np_log tax_col data)).
Proof.
  rewrite filters_and_logs_rows. apply List.Forall_forall. intros r' Hr' c Hc.
  apply in_map_iff in Hr' as (r & <- & Hr). apply filter_In in Hr as [_ Hk].
  destruct (final_row_control tax_col r c Hc) as [Hf Hl].
  unfold control_logged. rewrite Hf, Hl. split; [| done].
  unfold kept_row in Hk. apply andb_true_iff in Hk as [_ Hk].
  rewrite forallb_forall in Hk. by apply Hk.
Qed.

End ComprehensiveControls.

Section ComprehensiveLog.
Variables log1 log2 : float -> float.
Hypothesis agree : ∀ x, (0 <? x) = true → log1 x = log2 x.

Lemma final_row_log tax_col (r : Row) :
  kept_row tax_col r = true → final_row log1 tax_col r = final_row log2 tax_col r.
Proof.
  intros Hk. unfold kept_row in Hk.
  apply andb_true_iff in Hk as [Hk Hctl]. apply andb_true_iff in Hk as [Hpos _].
  unfold controls in Hctl. cbn [forallb] in Hctl.
  apply andb_true_iff in Hctl as [H1 Hctl]. apply andb_true_iff in Hctl as [H2 Hctl].
  apply andb_true_iff in Hctl as [H3 _].
  unfold final_row. by rewrite !agree by done.
Qed.

Lemma final_table_log tax_col data :
  final_table log1 tax_col data
  = final_table log2 tax_col data.
Proof.
  assert (Hr : rows (final_table log1 tax_col data)
               = rows (final_table log2 tax_col data)).
  { rewrite !filters_and_logs_rows. apply map_ext_in. intros r Hr.
    apply filter_In in Hr as [_ Hk]. by apply final_row_log. }
  assert (Hc : columns (final_table log1 tax_col data)
               = columns (final_table log2 tax_col data))
    by reflexivity.
  destruct (final_table log1 tax_col data),
    (final_table log2 tax_col data).
  simpl in *. congruence.
Qed.

Lemma filters_and_logs_log tax_col data :
  ItalyComprehensive.filters_and_logs log1 tax_col data
  = ItalyComprehensive.filters_and_logs log2 tax_col data.
Proof.
  unfold ItalyComprehensive.filters_and_logs.
  destruct (positive_rows "profit_before_tax" data) as [d1 |] eqn:E1; [| done].
  apply positive_rows_inv in E1 as [-> _].
  destruct (assign_quotient _ _ _ _) as [d2 |] eqn:E2; [| done].
  apply assign_quotient_inv in E2 as (-> & _ & _). cbv zeta.
  destruct (ItalyComprehensive.positive_in_turn _ _) as [d3 |] eqn:E3; [| done].
  apply positive_in_turn_inv in E3 as ->.
  exact (f_equal Ok (final_table_log tax_col data)).
Qed.

End ComprehensiveLog.

(** X9: under either method, every row of the table the comprehensive study
    returns has the three controls positive and carries their logarithms;
    and the result is the same for any two logarithm functions that agree on
    positive numbers: no logarithm of a non-positive number reaches it. *)
Theorem comprehensive_controls_logged
    (np_log : float -> float) (rng : Type) (RandomState : Z -> rng)
    (impute : float -> nat -> rng -> list (list float) -> list (list float))
    (global_rng : rng) (df : DataFrame) (tax_col method : string) :
  (∀ data msg,
     ItalyComprehensive.prepare_data_and_analyze np_log rng RandomState impute
       global_rng df tax_col method = Ok (Some data, msg) →
     Forall (fun r => ∀ c, In c controls → control_logged np_log c r) (rows data))
  ∧ (∀ log2 : float -> float,
       (∀ x, (0 <? x) = true → np_log x = log2 x) →
       ItalyComprehensive.prepare_data_and_analyze np_log rng RandomState impute
         global_rng df tax_col method
       = ItalyComprehensive.prepare_data_and_analyze log2 rng RandomState impute
           global_rng df tax_col method).
Proof.
  split.
  - intros data msg H.
    apply comprehensive_prepare_inv in H as (cand & d & _ & _ & _ & -> & _).
    apply comprehensive_rows_logged.
  - intros log2 Hagree. unfold ItalyComprehensive.prepare_data_and_analyze.
    destruct (ItalyComprehensive.candidate_table df tax_col) as [d |]; [| done].
    destruct (ItalyComprehensive.resolve_missing _ _ _ _ _ _ _) as [[d' |] |];
      try done.
    by rewrite (filters_and_logs_log np_log log2 Hagree).
Qed.

(** ** The report of the comprehensive study *)

Section ComprehensiveMain.
Variable np_log : float -> float.

Lemma columns_assign_nonempty c f df : columns (assign c f df) ≠ [].
Proof.
  unfold assign; cbn [columns]. destruct (has_column df c) eqn:E.
  - apply has_column_true in E. intros H. rewrite H in E. by apply elem_of_nil in E.
  - intros H. by apply app_eq_nil in H as [_ H].
Qed.

(** A table the preparation returns is empty exactly when it has no row. *)
Lemma empty_filters_and_logs tax_col data :
  ItalyComprehensive.empty (final_table np_log tax_col data)
  = (len (final_table np_log tax_col data) =? 0)%nat.
Proof.
  unfold ItalyComprehensive.empty.
  assert (H : (length (columns (final_table np_log tax_col data))
               =? 0)%nat = false).
  { apply Nat.eqb_neq. intros H. apply length_zero_iff_nil in H.
    by apply columns_assign_nonempty in H. }
  rewrite H. apply orb_false_r.
Qed.

End ComprehensiveMain.

(** X10: with at most five rows of the target country the imputation method
    never calls the imputer: the preparation returns no table and the
    message [Insufficient data], and the turn of [main] stores no sheet and
    reports the failure. *)
Theorem imputation_needs_six_rows
    (np_log : float -> float) (rng : Type) (RandomState : Z -> rng)
    (impute : float -> nat -> rng -> list (list float) -> list (list float))
    (ols_fit : string -> DataFrame -> res OLSResults)
    (global_rng : rng) (df : DataFrame) (tax_type : string) (data : DataFrame) :
  ItalyComprehensive.candidate_table df tax_type = Ok data →
  (length (List.filter (text_is "upe_name" "Italy") (rows df)) ≤ 5)%nat →
  ItalyComprehensive.prepare_data_and_analyze np_log rng RandomState impute
    global_rng df tax_type "Imputation" = Ok (None, "Insufficient data")
  ∧ ∃ heading,
      ItalyComprehensive.main_step np_log rng RandomState impute ols_fit
        global_rng df tax_type "Imputation"
      = Ok ([], [ItalyComprehensive.Heading heading;
                 ItalyComprehensive.FailedEmpty "Insufficient data"]).
Proof.
  intros Hc Hlen.
  assert (Hprep : ItalyComprehensive.prepare_data_and_analyze np_log rng RandomState
                    impute global_rng df tax_type "Imputation"
                  = Ok (None, "Insufficient data")).
  { unfold ItalyComprehensive.prepare_data_and_analyze. rewrite Hc.
    pose proof (candidate_table_inv _ _ _ Hc) as (_ & _ & _ & Hrows).
    cbv zeta in Hrows.
    assert (Hfew : (5 <? len data)%nat = false).
    { apply Nat.ltb_ge. unfold len. rewrite Hrows, length_map. exact Hlen. }
    unfold ItalyComprehensive.resolve_missing.
    rewrite (bool_decide_false ("Imputation" = "CC")) by discriminate.
    rewrite (bool_decide_true ("Imputation" = "Imputation")) by done.
    cbv zeta. by rewrite Hfew. }
  split; [exact Hprep |].
  unfold ItalyComprehensive.main_step. cbv zeta. rewrite Hprep. eauto.
Qed.

(** Three Italian firms are too few. *)
Lemma imputation_needs_six_rows_witness :
  ∃ data heading,
    ItalyComprehensive.candidate_table few_italian "tax_accrued" = Ok data
    ∧ len data = 3%nat
    ∧ ItalyComprehensive.main_step sample_log unit (fun _ => tt) echo_impute
        (sample_fit 1 (-2)) tt few_italian "tax_accrued" "Imputation"
      = Ok ([], [ItalyComprehensive.Heading heading;
                 ItalyComprehensive.FailedEmpty "Insufficient data"]).
Proof.
  set (data := value_or empty_frame
                  (ItalyComprehensive.candidate_table few_italian "tax_accrued")).
  assert (E : ItalyComprehensive.candidate_table few_italian "tax_accrued" = Ok data)
    by (vm_compute; reflexivity).
  assert (Hlen : (length (List.filter (text_is "upe_name" "Italy") (rows few_italian))
                  ≤ 5)%nat) by (vm_compute; lia).
  destruct (imputation_needs_six_rows sample_log unit (fun _ => tt) echo_impute
              (sample_fit 1 (-2)) tt few_italian "tax_accrued" data E Hlen)
    as (_ & heading & Hmain).
  exists data, heading. split; [exact E |]. split; [vm_compute; reflexivity | exact Hmain].
Defined.

(** X11: what a turn of [main] of the comprehensive study does with a table
    the preparation returned.  Without rows it stores no sheet and reports
    [Failed/Empty]; with one to ten rows it stores the sheet and reports
    that the data is insufficient, fitting nothing; with more than ten it
    stores the sheet and reports the linear and the non-linear regression. *)
Theorem comprehensive_gating
    (np_log : float -> float) (rng : Type) (RandomState : Z -> rng)
    (impute : float -> nat -> rng -> list (list float) -> list (list float))
    (ols_fit : string -> DataFrame -> res OLSResults)
    (global_rng : rng) (df : DataFrame) (tax_type method : string)
    (data : DataFrame) (msg : string) :
  ItalyComprehensive.prepare_data_and_analyze np_log rng RandomState impute
    global_rng df tax_type method = Ok (Some data, msg) →
  ∃ all_sheets report_lines,
    ItalyComprehensive.main_step np_log rng RandomState impute ols_fit
      global_rng df tax_type method = Ok (all_sheets, report_lines)
    ∧ map snd all_sheets = (if (len data =? 0)%nat then [] else [data])
    ∧ length (regression_lines report_lines) = (if (10 <? len data)%nat then 2 else 0)%nat
    ∧ (In ItalyComprehensive.Insufficient report_lines
       ↔ (0 < len data ∧ len data ≤ 10)%nat)
    ∧ (In (ItalyComprehensive.FailedEmpty "") report_lines ↔ len data = 0%nat)
    ∧ msg = "".
Proof.
  intros H. unfold ItalyComprehensive.main_step. cbv zeta. rewrite H.
  apply comprehensive_prepare_inv in H as (cand & d' & _ & _ & _ & -> & ->).
  rewrite empty_filters_and_logs.
  set (data := final_table np_log tax_type d').
  destruct (len data) as [| n] eqn:En; cbn [Nat.eqb negb].
  - do 2 eexists. split; [reflexivity |]. split; [reflexivity |].
    split; [reflexivity |]. split; [| split; [| done]].
    + split; [intros [H | [H | []]]; discriminate | lia].
    + split; [done |]. intros _. right. by left.
  - destruct (10 <? S n)%nat eqn:E10.
    + apply Nat.ltb_lt in E10.
      do 2 eexists. split; [reflexivity |]. split; [reflexivity |].
      split; [reflexivity |]. split; [| split; [| done]].
      * split; [intros [H | [H | [H | [H | []]]]]; discriminate | lia].
      * split; [intros [H | [H | [H | [H | []]]]]; discriminate | lia].
    + apply Nat.ltb_ge in E10.
      do 2 eexists. split; [reflexivity |]. split; [reflexivity |].
      split; [reflexivity |]. split; [| split; [| done]].
      * split; [lia |]. intros _. right. right. by left.
      * split; [intros [H | [H | [H | []]]]; discriminate | lia].
Qed.

(** Four rows come back for the six Italian firms: a sheet and no fit. *)
Lemma comprehensive_gating_witness :
  ∃ data all_sheets report_lines,
    ItalyComprehensive.prepare_data_and_analyze sample_log unit (fun _ => tt)
      echo_impute tt negative_employees "tax_accrued" "CC" = Ok (Some data, "")
    ∧ len data = 4%nat
    ∧ ItalyComprehensive.main_step sample_log unit (fun _ => tt) echo_impute
        (sample_fit 1 (-2)) tt negative_employees "tax_accrued" "CC"
      = Ok (all_sheets, report_lines)
    ∧ map snd all_sheets = [data]
    ∧ regression_lines report_lines = []
    ∧ In ItalyComprehensive.Insufficient report_lines.
Proof.
  set (run := ItalyComprehensive.prepare_data_and_analyze sample_log unit (fun _ => tt)
                echo_impute tt negative_employees "tax_accrued" "CC").
  set (data := default empty_frame (value_or (None, "") run).1).
  assert (E : run = Ok (Some data, "")) by (vm_compute; reflexivity).
  assert (Hlen : len data = 4%nat) by (vm_compute; reflexivity).
  destruct (comprehensive_gating sample_log unit (fun _ => tt) echo_impute
              (sample_fit 1 (-2)) tt negative_employees "tax_accrued" "CC" data "" E)
    as (sh & ls & Hmain & Hsh & Hreg & Hins & _ & _).
  rewrite Hlen in Hsh, Hreg, Hins. cbn [Nat.eqb Nat.ltb Nat.leb] in Hsh, Hreg.
  exists data, sh, ls. split; [exact E |]. split; [exact Hlen |].
  split; [exact Hmain |]. split; [exact Hsh |]. split.
  - by apply length_zero_iff_nil.
  - apply Hins. lia.
Defined.

(** ** Infinite values before the fit *)

Lemma isinf_nan : ItalyComprehensive.isinf nan = false.
Proof. reflexivity. Qed.

(** After the infinite values were replaced and the incomplete rows dropped,
    no numeric column holds an infinite value. *)
Lemma any_inf_drop_infinite df :
  ItalyComprehensive.any_inf (ItalyComprehensive.drop_infinite df) = false.
Proof.
  unfold ItalyComprehensive.any_inf.
  destruct (existsb _ _) eqn:E; [| done]. exfalso.
  apply existsb_exists in E as (c & Hc & H).
  apply andb_true_iff in H as [_ H].
  apply existsb_exists in H as (r & Hr & Hinf).
  unfold ItalyComprehensive.drop_infinite in Hr, Hc. cbn [columns mask] in Hc.
  apply in_rows_mask in Hr as [Hr Hcomp]. cbn [rows columns] in Hr, Hcomp.
  apply in_map_iff in Hr as (r0 & <- & _).
  unfold complete_on in Hcomp. rewrite forallb_forall in Hcomp.
  specialize (Hcomp c Hc). unfold fnum in Hinf.
  rewrite lookup_fmap in Hcomp, Hinf.
  destruct (r0 !! c) as [[y | t] |]; cbn [fmap option_fmap option_map
    ItalyComprehensive.inf_to_nan] in Hcomp, Hinf; try done.
  destruct (ItalyComprehensive.isinf y) eqn:Ey; [done |]. congruence.
Qed.

(** X12: [run_regression] of the comprehensive study never fits a table in
    which a numeric column holds an infinite value: what the fit would do
    on such a table has no effect on the text returned. *)
Theorem infinite_values_not_fitted
    (fit1 fit2 : string -> DataFrame -> res OLSResults)
    (df : DataFrame) (formula title : string) :
  (∀ f d, ItalyComprehensive.any_inf d = false → fit1 f d = fit2 f d) →
  ItalyComprehensive.run_regression fit1 df formula title
  = ItalyComprehensive.run_regression fit2 df formula title.
Proof.
  intros H. unfold ItalyComprehensive.run_regression. cbv zeta.
  set (d := if ItalyComprehensive.any_inf df
            then ItalyComprehensive.drop_infinite df else df).
  assert (Hd : ItalyComprehensive.any_inf d = false).
  { unfold d. destruct (ItalyComprehensive.any_inf df) eqn:E;
      [apply any_inf_drop_infinite | exact E]. }
  by rewrite (H formula d Hd).
Qed.

(** A fit that refuses infinite values gives the same text on a base with
    an infinite rate, where one row is dropped before the fit. *)
Lemma infinite_values_not_fitted_witness :
  (∀ f d, ItalyComprehensive.any_inf d = false → sample_fit 1 (-2) f d = strict_fit f d)
  ∧ ItalyComprehensive.any_inf (etr_base [0.1; infinity; 0.3]) = true
  ∧ len (ItalyComprehensive.drop_infinite (etr_base [0.1; infinity; 0.3])) = 2%nat
  ∧ ItalyComprehensive.run_regression (sample_fit 1 (-2))
      (etr_base [0.1; infinity; 0.3]) "ln_profits ~ ETR + ETR_sq" "Non-Linear"
    = ItalyComprehensive.run_regression strict_fit
        (etr_base [0.1; infinity; 0.3]) "ln_profits ~ ETR + ETR_sq" "Non-Linear".
Proof.
  assert (H : ∀ f d, ItalyComprehensive.any_inf d = false →
                     sample_fit 1 (-2) f d = strict_fit f d).
  { intros f d Hd. unfold strict_fit. by rewrite Hd. }
  split; [exact H |]. split; [vm_compute; reflexivity |].
  split; [vm_compute; reflexivity |].
  exact (infinite_values_not_fitted (sample_fit 1 (-2)) strict_fit
           (etr_base [0.1; infinity; 0.3]) "ln_profits ~ ETR + ETR_sq" "Non-Linear" H).
Defined.

(** ** The run of the Germany study *)

Section GermanyMain.
Variable np_log : float -> float.
Variable parse_float : string -> float.
Variable ols_fit : string -> DataFrame -> res OLSResults.

Lemma has_column_profit_etr_steps etr_min etr_max tax_col gb c :
  has_column gb c = true →
  has_column (profit_etr_steps np_log etr_min etr_max tax_col gb) c = true.
Proof.
  intros H. unfold profit_etr_steps.
  do 2 apply has_column_assign.
  change (has_column (mask ?p ?x) c) with (has_column x c).
  by apply has_column_assign.
Qed.

Lemma has_column_fold_log_control vc gb c :
  has_column gb c = true →
  has_column (fold_left (fun g c => log_control np_log c g) vc gb) c = true.
Proof.
  revert gb. induction vc as [| c' vc IH]; intros gb H; simpl; [done |].
  apply IH. unfold log_control. by apply has_column_assign.
Qed.

(** One tax basis of [main] on a table with the profit, tax and parent
    columns: the table it leaves and the names of the sheets it stores. *)
Lemma process_tax_ok tax_col tag heading df :
  has_column df "profit_before_tax" = true →
  has_column df tax_col = true →
  has_column df "upe_name" = true →
  ∃ df' sheets report log,
    Germany.process_tax np_log parse_float ols_fit tax_col tag heading df
    = (df', Ok (sheets, report, log))
    ∧ (∀ c, has_column df' c = has_column df c)
    ∧ map fst sheets
      = ["Global_" +:+ tag +:+ "_BASE_1"; "Global_" +:+ tag +:+ "_BASE_2";
         "DE_" +:+ tag +:+ "_BASE_1"; "DE_" +:+ tag +:+ "_BASE_2"].
Proof.
  intros Hp Ht Hu. unfold Germany.process_tax.
  rewrite bind_run, (germany_builder_ok _ _ _ _ Hp Ht). cbv zeta.
  set (df1 := coerced_all parse_float ["profit_before_tax"; tax_col] df).
  set (vc := List.filter (has_column df1) controls).
  set (df2 := coerced_all parse_float vc df1).
  set (g1 := profit_etr_steps _ _ _ _ _).
  set (g2 := fold_left _ vc _).
  assert (Hu1 : has_column df1 "upe_name" = true) by by apply has_column_coerced_all.
  assert (Hg1 : has_column g1 "upe_name" = true).
  { by apply has_column_profit_etr_steps. }
  assert (Hg2 : has_column g2 "upe_name" = true).
  { apply has_column_fold_log_control, has_column_profit_etr_steps.
    change (has_column (mask ?p ?x) ?c) with (has_column x c).
    by apply has_column_coerced_all. }
  cbv beta iota.
  rewrite bind_run. unfold lift at 1, Germany.target_rows at 1. rewrite Hg1.
  rewrite bind_run. unfold lift at 1, Germany.target_rows at 1. rewrite Hg2.
  destruct (Germany.report_section _ _ _ _ _ _) as [rl w].
  do 4 eexists. split; [reflexivity |]. split; [| reflexivity].
  intros c. unfold df2.
  rewrite has_column_coerced_all_eq by (unfold vc; apply valid_controls_present).
  unfold df1. apply has_column_coerced_all_eq. repeat constructor; done.
Qed.

Lemma process_tax_no_tax tax_col tag heading df :
  has_column df "profit_before_tax" = true →
  has_column df tax_col = false →
  Germany.process_tax np_log parse_float ols_fit tax_col tag heading df
  = (coerced parse_float "profit_before_tax" df, Raise (KeyError tax_col)).
Proof.
  intros Hp Ht. unfold Germany.process_tax.
  by rewrite bind_run, (germany_builder_no_tax _ _ _ _ Hp Ht).
Qed.

End GermanyMain.

(** X13: [main] of the Germany study on a table with the profit, accrued
    tax and parent columns.  Without the paid tax column [KeyError] goes
    through after the accrued part was computed, so neither part is
    reported; with it, the eight sheets are stored under their names. *)
Theorem germany_main_outcomes
    (np_log : float -> float) (parse_float : string -> float)
    (ols_fit : string -> DataFrame -> res OLSResults) (df : DataFrame) :
  has_column df "profit_before_tax" = true →
  has_column df "tax_accrued" = true →
  has_column df "upe_name" = true →
  (has_column df "tax_paid" = false →
     ∃ df', Germany.main_analysis np_log parse_float ols_fit df
            = (df', Raise (KeyError "tax_paid")))
  ∧ (has_column df "tax_paid" = true →
       ∃ df' sheets report log,
         Germany.main_analysis np_log parse_float ols_fit df
         = (df', Ok (sheets, report, log))
         ∧ map fst sheets
           = ["Global_Accrued_BASE_1"; "Global_Accrued_BASE_2";
              "DE_Accrued_BASE_1"; "DE_Accrued_BASE_2";
              "Global_Paid_BASE_1"; "Global_Paid_BASE_2";
              "DE_Paid_BASE_1"; "DE_Paid_BASE_2"]).
Proof.
  intros Hp Ht Hu.
  destruct (process_tax_ok np_log parse_float ols_fit "tax_accrued" "Accrued"
              "*** Germany ACCRUED TAX ***" df Hp Ht Hu)
    as (df1 & s1 & r1 & l1 & E1 & Hcols & Hn1).
  split.
  - intros Hpaid. unfold Germany.main_analysis.
    rewrite bind_run, E1. cbv beta iota.
    rewrite bind_run, process_tax_no_tax by (rewrite Hcols; done).
    eauto.
  - intros Hpaid. unfold Germany.main_analysis.
    rewrite bind_run, E1. cbv beta iota.
    destruct (process_tax_ok np_log parse_float ols_fit "tax_paid" "Paid"
                "*** Germany PAID TAX ***" df1) as (df2 & s2 & r2 & l2 & E2 & _ & Hn2);
      try (rewrite Hcols; done).
    rewrite bind_run, E2. cbv beta iota.
    do 4 eexists. split; [reflexivity |].
    rewrite map_app, Hn1, Hn2. reflexivity.
Qed.

(** The table without the paid tax column. *)
Lemma germany_main_outcomes_witness :
  has_column bare_table "tax_paid" = false
  ∧ ∃ df', Germany.main_analysis sample_log no_number (sample_fit 1 (-2)) bare_table
           = (df', Raise (KeyError "tax_paid")).
Proof.
  split; [reflexivity |].
  exact (proj1 (germany_main_outcomes sample_log no_number (sample_fit 1 (-2)) bare_table
                  eq_refl eq_refl eq_refl) eq_refl).
Defined.

(** ** A fit without curvature *)

Section Degenerate.

Lemma eqb_key x y :
  (x =? y) = true ↔ ∃ k, fkey x = Some k ∧ fkey y = Some k.
Proof.
  rewrite FloatAxioms.eqb_spec. unfold SFeqb, fkey.
  destruct (sf_key (Prim2SF x)) as [k1 |] eqn:E1;
    [destruct (sf_key (Prim2SF y)) as [k2 |] eqn:E2 |].
  - destruct (SFcompare_key _ _ _ _ E1 E2) as (c & -> & HLt & HGt).
    split.
    + intros H. exists k1. split; [done |]. f_equal.
      destruct c; try done.
      assert (¬ key_lt k1 k2) as N1 by (intros Hk; by apply HLt in Hk).
      assert (¬ key_lt k2 k1) as N2 by (intros Hk; by apply HGt in Hk).
      unfold key_lt in *. destruct k1 as [[a1 b1] c1], k2 as [[a2 b2] c2].
      simpl in *. f_equal; [f_equal |]; lia.
    + intros (k & [= ->] & [= ->]).
      destruct c; try done.
      * assert (key_lt k k) as Hk by by apply HLt. unfold key_lt in Hk. lia.
      * assert (key_lt k k) as Hk by by apply HGt. unfold key_lt in Hk. lia.
  - rewrite SFcompare_nan by auto. split; [done |]. by intros (? & ? & ?).
  - rewrite SFcompare_nan by auto. split; [done |]. by intros (? & ? & ?).
Qed.

Lemma leb_antisym x y : (x <=? y) = true → (y <=? x) = true → (x =? y) = true.
Proof.
  rewrite !leb_key, eqb_key.
  intros (k1 & k2 & E1 & E2 & N1) (k2' & k1' & E2' & E1' & N2).
  rewrite E1 in E1'. rewrite E2 in E2'. injection E1' as <-. injection E2' as <-.
  exists k1. split; [done |]. rewrite E2. f_equal.
  unfold key_lt in *. destruct k1 as [[a1 b1] c1], k2 as [[a2 b2] c2].
  simpl in *. f_equal; [f_equal |]; lia.
Qed.

Lemma eqb_leb x y : (x =? y) = true → (x <=? y) = true ∧ (y <=? x) = true.
Proof.
  rewrite eqb_key, !leb_key. intros (k & E1 & E2).
  split; exists k, k; repeat split; try done; unfold key_lt; lia.
Qed.

(** For rates that are not negative, zero lies between the least and the
    greatest exactly when one of them is zero. *)
Lemma in_range_zero (l : list float) :
  Forall (fun x => (0 <=? x) = true) l →
  in_range (series_min l) 0 (series_max l) = true
  ↔ ∃ x, In x l ∧ (x =? 0) = true.
Proof.
  intros Hl. rewrite List.Forall_forall in Hl.
  unfold in_range. rewrite andb_true_iff, series_min_leb, series_max_leb. split.
  - intros [(x & Hx & Hle) _]. exists x. split; [done |].
    apply leb_antisym; [done | by apply Hl].
  - intros (x & Hx & Hz). apply eqb_leb in Hz as [H1 H2]. split; eauto.
Qed.

End Degenerate.

Section DegenerateReport.
Variable np_log : float -> float.
Variable parse_float : string -> float.

Lemma has_column_assign_same c f df : has_column (assign c f df) c = true.
Proof.
  apply has_column_true. unfold assign; cbn [columns].
  destruct (has_column df c) eqn:E; [by apply has_column_true |].
  apply elem_of_app. right. apply list_elem_of_here.
Qed.

Lemma has_ETR_profit_etr_steps etr_min etr_max tax_col gb :
  has_column (profit_etr_steps np_log etr_min etr_max tax_col gb) "ETR" = true.
Proof.
  unfold profit_etr_steps. do 2 apply has_column_assign.
  change (has_column (mask ?p ?x) ?c) with (has_column x c).
  apply has_column_assign_same.
Qed.

(** The bases of the baseline builders have the [ETR] column, and no rate
    in them is negative. *)
Lemma baseline_bases_rates tax_col df df' gb1 gb2 ctrls base :
  Germany.create_global_clean_bases np_log parse_float tax_col df
    = (df', Ok (gb1, gb2, ctrls))
  ∨ ItalyBaseline.create_global_clean_bases np_log parse_float tax_col df
    = (df', Ok (gb1, gb2, ctrls)) →
  base = gb1 ∨ base = gb2 →
  has_column base "ETR" = true
  ∧ Forall (fun r => (0 <=? fnum r "ETR") = true) (rows base).
Proof.
  intros H Hb.
  assert (Hrows : ∃ hi, Forall (analysis_row np_log 0 hi) (rows base)
                        ∧ has_column base "ETR" = true).
  { destruct H as [H | H].
    - destruct (germany_builder_inv _ _ _ _ _ _ H) as [Hp Ht].
      rewrite (germany_builder_ok _ _ _ _ Hp Ht) in H. cbv zeta in H.
      injection H as _ <- <- _. exists Germany.ETR_MAX.
      destruct Hb as [-> | ->].
      + split; [apply profit_etr_steps_rows | apply has_ETR_profit_etr_steps].
      + split.
        * apply fold_log_control_rows; [apply filter_controls_sub |].
          apply profit_etr_steps_rows.
        * apply has_column_fold_log_control, has_ETR_profit_etr_steps.
    - rewrite italy_builder_run in H. cbv zeta in H.
      destruct (dropna ["profit_before_tax"; tax_col] _) as [g1 |]; [| discriminate].
      destruct (dropna _ _) as [g2 |]; [| discriminate].
      injection H as _ <- <- _. exists ItalyBaseline.ETR_MAX.
      destruct Hb as [-> | ->].
      + split; [apply profit_etr_steps_rows | apply has_ETR_profit_etr_steps].
      + split.
        * apply fold_log_control_rows; [apply filter_controls_sub |].
          apply profit_etr_steps_rows.
        * apply has_column_fold_log_control, has_ETR_profit_etr_steps. }
  destruct Hrows as (hi & Hrows & Hcol). split; [exact Hcol |].
  eapply Forall_impl; [exact Hrows |]. by intros r (_ & Hlo & _).
Qed.

End DegenerateReport.

(** X14: on a base of a baseline builder, or on any selection of its rows,
    a fit whose coefficient of [ETR_sq] equals zero is reported with the
    turning point [0], and with the flag [YES] exactly when some row of the
    table has a rate equal to zero. *)
Theorem degenerate_fit_flag
    (np_log : float -> float) (parse_float : string -> float)
    (ols_fit : string -> DataFrame -> res OLSResults)
    (tax_col : string) (df df' gb1 gb2 base : DataFrame) (ctrls : list string)
    (p : Row -> bool) (formula title : string) (model : OLSResults) (b1 b2 : float) :
  Germany.create_global_clean_bases np_log parse_float tax_col df
    = (df', Ok (gb1, gb2, ctrls))
  ∨ ItalyBaseline.create_global_clean_bases np_log parse_float tax_col df
    = (df', Ok (gb1, gb2, ctrls)) →
  base = gb1 ∨ base = gb2 →
  ols_fit formula (mask p base) = Ok model →
  params model !! "ETR" = Some b1 →
  params model !! "ETR_sq" = Some b2 →
  (b2 =? 0) = true →
  ∃ flag,
    Germany.run_regression ols_fit (mask p base) formula title
    = [Title title; Summary (summary model); UTest b2 0 flag]
    ∧ ((5 ≤ len (mask p base))%nat →
       ∃ lo hi,
         ItalyBaseline.run_regression ols_fit (mask p base) formula title
         = [Title title; Summary (summary model); UTestResults b1 b2 0 lo hi flag])
    ∧ (flag = true ↔ ∃ r, In r (rows (mask p base)) ∧ (fnum r "ETR" =? 0) = true).
Proof.
  intros H Hb Hfit H1 H2 Hz.
  destruct (baseline_bases_rates np_log parse_float _ _ _ _ _ _ _ H Hb) as [Hcol Hrates].
  assert (Hcol' : has_column (mask p base) "ETR" = true) by exact Hcol.
  assert (Hrates' : Forall (fun x => (0 <=? x) = true)
                      (column_values "ETR" (mask p base))).
  { unfold column_values. apply List.Forall_forall. intros x Hx.
    apply in_map_iff in Hx as (r & <- & Hr). apply in_rows_mask in Hr as [Hr _].
    rewrite List.Forall_forall in Hrates. by apply Hrates. }
  assert (Htp : turning_point b1 b2 = 0).
  { unfold turning_point. by rewrite Hz. }
  exists (in_range (series_min (column_values "ETR" (mask p base))) 0
            (series_max (column_values "ETR" (mask p base)))).
  split; [| split].
  - unfold Germany.run_regression. rewrite Hfit, H2, H1. cbv zeta.
    by rewrite Hcol', Htp.
  - intros Hlen. unfold ItalyBaseline.run_regression.
    assert (Hg : (len (mask p base) <? 5)%nat = false) by by apply Nat.ltb_ge.
    rewrite Hg, Hfit, H2, H1. cbv zeta. change (default 0 (Some b1)) with b1.
    rewrite Hcol', Htp. eauto.
  - rewrite (in_range_zero _ Hrates'). unfold column_values. split.
    + intros (x & Hx & Hx0). apply in_map_iff in Hx as (r & <- & Hr). eauto.
    + intros (r & Hr & Hr0). exists (fnum r "ETR"). split; [| done].
      apply in_map_iff. eauto.
Qed.

(** With a firm that accrued no tax the flag is [YES]. *)
Lemma degenerate_fit_flag_witness :
  ∃ df' gb1 gb2 ctrls,
    Germany.create_global_clean_bases sample_log no_number "tax_accrued" zero_tax_table
    = (df', Ok (gb1, gb2, ctrls))
    ∧ Germany.run_regression (sample_fit 1 0)
        (mask (text_is "upe_name" "Germany") gb1)
        "ln_profits ~ ETR + ETR_sq" "DE Accrued B1 Non-Linear"
      = [Title "DE Accrued B1 Non-Linear"; Summary "OLS Regression Results";
         UTest 0 0 true].
Proof.
  set (run := Germany.create_global_clean_bases sample_log no_number "tax_accrued"
                zero_tax_table).
  set (out := value_or (empty_frame, empty_frame, []) run.2).
  assert (E : run = (run.1, Ok (out.1.1, out.1.2, out.2))) by (vm_compute; reflexivity).
  set (model := {| params := <["Intercept" := 1]> (<["ETR" := 1]> (<["ETR_sq" := 0]> ∅));
                   summary := "OLS Regression Results" |}).
  assert (H1 : params model !! "ETR" = Some 1) by (vm_compute; reflexivity).
  assert (H2 : params model !! "ETR_sq" = Some 0) by (vm_compute; reflexivity).
  destruct (degenerate_fit_flag sample_log no_number (sample_fit 1 0) "tax_accrued"
              zero_tax_table run.1 out.1.1 out.1.2 out.1.1 out.2
              (text_is "upe_name" "Germany") "ln_profits ~ ETR + ETR_sq"
              "DE Accrued B1 Non-Linear" model 1 0
              (or_introl E) (or_introl eq_refl) eq_refl H1 H2 eq_refl)
    as (flag & Hg & _ & _).
  assert (Hc : Germany.run_regression (sample_fit 1 0)
                 (mask (text_is "upe_name" "Germany") out.1.1)
                 "ln_profits ~ ETR + ETR_sq" "DE Accrued B1 Non-Linear"
               = [Title "DE Accrued B1 Non-Linear"; Summary "OLS Regression Results";
                  UTest 0 0 true]) by (vm_compute; reflexivity).
  assert (Hf : flag = true).
  { rewrite Hc in Hg. by injection Hg. }
  exists run.1, out.1.1, out.1.2, out.2. split; [exact E |].
  subst flag. exact Hg.
Defined.

(** ** The report of the Italy baseline study *)

(** X15: one tax basis of [main] of the Italy baseline study.  It stores the
    two bases and appends the heading and the two texts for Base 1, and a
    text for Base 2 exactly when Base 2 has a row.  When Base 1 has fewer
    than five rows, nothing is fitted for the tax basis: Base 2 is no
    larger, so its regression is skipped or reports too few data points. *)
Theorem italy_baseline_tax_report
    (np_log : float -> float) (parse_float : string -> float)
    (ols_fit : string -> DataFrame -> res OLSResults)
    (tax_col tag heading : string) (df df' : DataFrame)
    (all_sheets : list (string * DataFrame)) (report_lines : list (list block)) :
  ItalyBaseline.process_tax np_log parse_float ols_fit tax_col tag heading df
    = (df', Ok (all_sheets, report_lines)) →
  ∃ b1 b2 ctrls,
    ItalyBaseline.create_global_clean_bases np_log parse_float tax_col df
      = (df', Ok (b1, b2, ctrls))
    ∧ all_sheets = [(tag +:+ "_Base1", b1); (tag +:+ "_Base2", b2)]
    ∧ length report_lines = (if (0 <? len b2)%nat then 4 else 3)%nat
    ∧ ((len b1 < 5)%nat →
       Forall (fun out => fit_attempted out = false) report_lines)
    ∧ ((5 ≤ len b2)%nat →
       Forall (fun out => fit_attempted out = true) (tail report_lines)).
Proof.
  intros H. unfold ItalyBaseline.process_tax in H. rewrite bind_run in H.
  destruct (ItalyBaseline.create_global_clean_bases np_log parse_float tax_col df)
    as [d [[[b1 b2] ctrls] | e]] eqn:E; [| discriminate].
  cbv beta iota zeta in H. unfold mret, M_ret in H. injection H as <- <- <-.
  exists b1, b2, ctrls. split; [done |]. split; [done |].
  assert (Hle : (len b2 ≤ len b1)%nat).
  { by eapply italy_base2_size. }
  pose proof (italy_run_regression_gate ols_fit) as Hgate.
  split; [| split].
  - by destruct (0 <? len b2)%nat.
  - intros Hsmall.
    assert (H1 : (len b1 <? 5)%nat = true) by by apply Nat.ltb_lt.
    assert (H2 : (len b2 <? 5)%nat = true) by (apply Nat.ltb_lt; lia).
    destruct (0 <? len b2)%nat; cbn [app];
      repeat (apply Forall_cons; split); try apply Forall_nil; try done;
      rewrite (proj1 (Hgate _ _ _)), ?H1, ?H2; done.
  - intros Hbig.
    assert (H1 : (len b1 <? 5)%nat = false) by (apply Nat.ltb_ge; lia).
    assert (H2 : (len b2 <? 5)%nat = false) by by apply Nat.ltb_ge.
    assert (H0 : (0 <? len b2)%nat = true) by (apply Nat.ltb_lt; lia).
    rewrite H0. cbn [app tail].
    repeat (apply Forall_cons; split); try apply Forall_nil; try done;
      rewrite (proj1 (Hgate _ _ _)), ?H1, ?H2; done.
Qed.

(** On the sample table Base 1 has two rows and Base 2 one: four texts, and
    nothing fitted. *)
Lemma italy_baseline_tax_report_witness :
  ∃ df' all_sheets report_lines,
    ItalyBaseline.process_tax sample_log no_number (sample_fit 1 (-2))
      "tax_accrued" "Accrued" "*** RESULTS: ACCRUED TAX ***" sample_table
    = (df', Ok (all_sheets, report_lines))
    ∧ sheet_sizes all_sheets = [("Accrued_Base1", 2%nat); ("Accrued_Base2", 1%nat)]
    ∧ length report_lines = 4%nat
    ∧ Forall (fun out => fit_attempted out = false) report_lines.
Proof.
  set (run := ItalyBaseline.process_tax sample_log no_number (sample_fit 1 (-2))
                "tax_accrued" "Accrued" "*** RESULTS: ACCRUED TAX ***" sample_table).
  set (out := value_or ([], []) run.2).
  assert (E : run = (run.1, Ok (out.1, out.2))) by (vm_compute; reflexivity).
  assert (Hsizes : sheet_sizes out.1
                   = [("Accrued_Base1", 2%nat); ("Accrued_Base2", 1%nat)])
    by (vm_compute; reflexivity).
  destruct (italy_baseline_tax_report sample_log no_number (sample_fit 1 (-2))
              "tax_accrued" "Accrued" "*** RESULTS: ACCRUED TAX ***" sample_table
              run.1 out.1 out.2 E)
    as (b1 & b2 & ctrls & _ & Hs & _ & Hsmall & _).
  exists run.1, out.1, out.2. split; [exact E |]. split; [exact Hsizes |].
  split; [vm_compute; reflexivity |].
  apply Hsmall. rewrite Hs in Hsizes. unfold sheet_sizes in Hsizes.
  cbn [map fst snd] in Hsizes. injection Hsizes as Hb1 _. rewrite Hb1. lia.
Defined.

(** ** The source table across combinations *)

Section SourceUnchanged.
Variable np_log : float -> float.
Variable parse_float : string -> float.
Variable ols_fit : string -> DataFrame -> res OLSResults.

Lemma normalized_cells df r c :
  normalized df = true → In r (rows df) → In c financial_columns →
  has_column df c = true → ∃ x, r !! c = Some (Num x).
Proof.
  unfold normalized. intros H Hr Hc Hcol.
  rewrite forallb_forall in H. specialize (H r Hr).
  rewrite forallb_forall in H. specialize (H c Hc).
  rewrite Hcol in H. cbn [negb orb] in H.
  destruct (r !! c) as [[x | t] |]; try discriminate. eauto.
Qed.

(** Coercing financial columns of a normalized table changes nothing. *)
Lemma coerced_all_normalized cs df :
  normalized df = true →
  (∀ c, In c cs → In c financial_columns ∧ has_column df c = true) →
  coerced_all parse_float cs df = df.
Proof.
  intros Hn Hcs. apply coerced_all_numeric.
  - apply Forall_forall. intros c Hc. apply list_elem_of_In in Hc. by apply Hcs.
  - intros r c Hr Hc. apply list_elem_of_In in Hc.
    destruct (Hcs c Hc) as [Hf Hcol]. by eapply normalized_cells.
Qed.

Lemma tax_basis_financial tax_col c :
  In tax_col ["tax_accrued"; "tax_paid"] →
  In c (["profit_before_tax"; tax_col] ++ controls) → In c financial_columns.
Proof.
  unfold financial_columns, controls.
  intros [<- | [<- | []]] [<- | [<- | [<- | [<- | [<- | []]]]]]; simpl; auto 10.
Qed.

Lemma germany_state tax_col df :
  normalized df = true → In tax_col ["tax_accrued"; "tax_paid"] →
  (Germany.create_global_clean_bases np_log parse_float tax_col df).1 = df.
Proof.
  intros Hn Htax.
  destruct (has_column df "profit_before_tax") eqn:Hp.
  - destruct (has_column df tax_col) eqn:Ht.
    + rewrite (germany_builder_ok _ _ _ _ Hp Ht). cbv zeta. cbn [fst].
      assert (H1 : coerced_all parse_float ["profit_before_tax"; tax_col] df = df).
      { apply coerced_all_normalized; [done |]. intros c Hc. split.
        - apply (tax_basis_financial tax_col); [done |]. apply in_or_app. by left.
        - destruct Hc as [<- | [<- | []]]; done. }
      rewrite H1. apply coerced_all_normalized; [done |].
      intros c Hc. apply filter_In in Hc as [Hc Hcol]. split; [| done].
      apply (tax_basis_financial tax_col); [done |]. apply in_or_app. by right.
    + rewrite (germany_builder_no_tax _ _ _ _ Hp Ht). cbn [fst].
      apply (coerced_all_normalized ["profit_before_tax"]); [done |].
      intros c [<- | []]. split; [| done].
      apply (tax_basis_financial tax_col); [done |]. by left.
  - by rewrite (germany_builder_no_profit _ _ _ _ Hp).
Qed.

Lemma italy_state tax_col df :
  normalized df = true → In tax_col ["tax_accrued"; "tax_paid"] →
  (ItalyBaseline.create_global_clean_bases np_log parse_float tax_col df).1 = df.
Proof.
  intros Hn Htax. rewrite italy_builder_run. cbv zeta. cbn [fst].
  assert (H1 : ItalyBaseline.coerced_present parse_float ["profit_before_tax"; tax_col] df
               = df).
  { rewrite coerced_present_filter. apply coerced_all_normalized; [done |].
    intros c Hc. apply filter_In in Hc as [Hc Hcol]. split; [| done].
    apply (tax_basis_financial tax_col); [done |]. apply in_or_app. by left. }
  rewrite H1. apply coerced_all_normalized; [done |].
  intros c Hc. apply filter_In in Hc as [Hc Hcol]. split; [| done].
  apply (tax_basis_financial tax_col); [done |]. apply in_or_app. by right.
Qed.

(** [main] of the Germany study touches the table through the base
    construction only. *)
Lemma process_tax_state tax_col tag heading df :
  (Germany.process_tax np_log parse_float ols_fit tax_col tag heading df).1
  = (Germany.create_global_clean_bases np_log parse_float tax_col df).1.
Proof.
  unfold Germany.process_tax. rewrite bind_run.
  destruct (Germany.create_global_clean_bases np_log parse_float tax_col df)
    as [d [[[g1 g2] ctrls] | e]]; [| done].
  cbv beta iota. rewrite bind_run. unfold lift at 1.
  destruct (Germany.target_rows g1) as [de1 | e]; [| done].
  rewrite bind_run. unfold lift at 1.
  destruct (Germany.target_rows g2) as [de2 | e]; [| done].
  by destruct (Germany.report_section _ _ _ _ _ _).
Qed.

Lemma main_analysis_state df :
  normalized df = true →
  (Germany.main_analysis np_log parse_float ols_fit df).1 = df.
Proof.
  intros Hn. unfold Germany.main_analysis. rewrite bind_run.
  pose proof (process_tax_state "tax_accrued" "Accrued"
                "*** Germany ACCRUED TAX ***" df) as E1.
  rewrite germany_state in E1 by (done || (by left)).
  destruct (Germany.process_tax _ _ _ "tax_accrued" _ _ df) as [d1 [[[s1 r1] l1] | e]];
    cbn [fst] in E1; subst d1; [| done].
  cbv beta iota. rewrite bind_run.
  pose proof (process_tax_state "tax_paid" "Paid" "*** Germany PAID TAX ***" df) as E2.
  rewrite germany_state in E2 by (done || (right; by left)).
  destruct (Germany.process_tax _ _ _ "tax_paid" _ _ df) as [d2 [[[s2 r2] l2] | e]];
    cbn [fst] in E2; subst d2; done.
Qed.

End SourceUnchanged.

(** C9: on a normalized table, where every financial field holds a number
    or the absent marker, building the bases for a tax basis leaves the
    source table as it was, whether the construction returns or raises: the
    coercions the baseline builders write back change no cell.  So a second
    combination run after the first gets the table the first got, and the
    whole of [main] of the Germany study leaves the table unchanged. *)
Theorem source_table_unchanged
    (np_log : float -> float) (parse_float : string -> float)
    (ols_fit : string -> DataFrame -> res OLSResults) (df : DataFrame) :
  normalized df = true →
  (∀ tax_col, In tax_col ["tax_accrued"; "tax_paid"] →
     (Germany.create_global_clean_bases np_log parse_float tax_col df).1 = df
     ∧ (ItalyBaseline.create_global_clean_bases np_log parse_float tax_col df).1 = df)
  ∧ (∀ first second,
       In first ["tax_accrued"; "tax_paid"] → In second ["tax_accrued"; "tax_paid"] →
       Germany.create_global_clean_bases np_log parse_float second
         (Germany.create_global_clean_bases np_log parse_float first df).1
       = Germany.create_global_clean_bases np_log parse_float second df
       ∧ ItalyBaseline.create_global_clean_bases np_log parse_float second
           (ItalyBaseline.create_global_clean_bases np_log parse_float first df).1
         = ItalyBaseline.create_global_clean_bases np_log parse_float second df)
  ∧ (Germany.main_analysis np_log parse_float ols_fit df).1 = df.
Proof.
  intros Hn. split; [| split].
  - intros tax_col Htax. split; [by apply germany_state | by apply italy_state].
  - intros t1 t2 H1 H2. by rewrite germany_state, italy_state.
  - by apply main_analysis_state.
Qed.

(** The table of ten firms holds numbers only: the construction returns its
    bases and the table comes back unchanged, also from the whole run. *)
Lemma source_table_unchanged_witness :
  normalized ten_firms = true
  ∧ (∃ out, Germany.create_global_clean_bases sample_log no_number "tax_accrued" ten_firms
            = (ten_firms, Ok out))
  ∧ (Germany.main_analysis sample_log no_number (sample_fit 1 1) ten_firms).1 = ten_firms.
Proof.
  assert (Hn : normalized ten_firms = true) by (vm_compute; reflexivity).
  destruct (source_table_unchanged sample_log no_number (sample_fit 1 1) ten_firms Hn)
    as (Hone & _ & Hmain).
  split; [exact Hn |]. split; [| exact Hmain].
  set (run := Germany.create_global_clean_bases sample_log no_number "tax_accrued"
                ten_firms).
  set (out := value_or (empty_frame, empty_frame, []) run.2).
  assert (E : run = (run.1, Ok out)) by (vm_compute; reflexivity).
  pose proof (proj1 (Hone "tax_accrued" (or_introl eq_refl))) as Hst.
  fold run in Hst. exists out. rewrite E. by rewrite Hst.
Defined.
